(** * Mission simulator: the streaming mission-generation pipeline

    A shallow embedding of [api/services/mission_planning.py] (with the
    data declarations of [api/models.py]): the retry decorator, the brace
    counting JSON extraction, the geocoding service, the three phases of
    [MissionPlanningService.generate_mission_plan] and the non-streaming
    wrapper [generate_mission_plan_simple].

    Conventions of the embedding.
    - Python [str] is [string]; a Python [int] that only counts upwards from
      zero (sequence numbers, attempt numbers) is [nat]; other integers are [Z].
    - Python [float] is idealised as an exact rational ([Q]): rounding,
      infinities and NaN are outside the model.
    - A raised exception is a value of [exn]; a call that may raise returns
      a [result].
    - An async generator is the list of the chunks it yields together with
      the way it ends (normal end, or an exception).
    - The outside world (the LLM stream, the HTTP geocoder, uuid4, the
      clock, the prompt texts) is a record [Env] of oracles. *)

From Stdlib Require Import List String Ascii ZArith QArith Qminmax Bool Arith Lia.
From Stdlib Require Import DecimalString.
Import ListNotations.

#[local] Set Warnings "-register-all".

Close Scope Q_scope.
Local Open Scope string_scope.

(** ** Exceptions and results *)

Inductive exn_kind : Type :=
| JSONDecodeError
| ValueError
| KeyError
| TypeError
| AttributeError
| IndexError
| ValidationError
| ImportError
| UpstreamError.

(** An exception: its class and the text of [str(e)].  The texts of the
    errors of the JSON decoder and of the validation of a model are
    shortened: the position in the text and the list of fields are left
    out. *)
Record exn : Type := mk_exn { exn_type : exn_kind; exn_msg : string }.

(** [str(e)] *)
Definition str_exn (e : exn) : string := exn_msg e.

Definition exn_kind_eqb (a b : exn_kind) : bool :=
  match a, b with
  | JSONDecodeError, JSONDecodeError | ValueError, ValueError
  | KeyError, KeyError | TypeError, TypeError
  | AttributeError, AttributeError | IndexError, IndexError
  | ValidationError, ValidationError | ImportError, ImportError
  | UpstreamError, UpstreamError => true
  | _, _ => false
  end.

(** [isinstance(e, json.JSONDecodeError)]: the first [except] clause of the
    retry wrapper. *)
Definition is_json_decode_error (e : exn) : bool :=
  exn_kind_eqb (exn_type e) JSONDecodeError.

Inductive result (A : Type) : Type :=
| Ok (a : A)
| Raise (e : exn).
Arguments Ok {A} a.
Arguments Raise {A} e.

Definition bind {A B : Type} (r : result A) (k : A -> result B) : result B :=
  match r with
  | Ok a => k a
  | Raise e => Raise e
  end.

Notation "'let*' x ':=' r 'in' k" := (bind r (fun x => k))
  (at level 10, x pattern, r at level 100, k at level 200).

Definition is_ok {A : Type} (r : result A) : bool :=
  match r with Ok _ => true | Raise _ => false end.

(** ** JSON values, as [json.loads] returns them

    A [dict] is an association list in insertion order with pairwise
    distinct keys. *)

Inductive json : Type :=
| JNull
| JBool (b : bool)
| JInt (z : Z)
| JFloat (q : Q)
| JStr (s : string)
| JArr (l : list json)
| JObj (m : list (string * json)).

Fixpoint assoc_get {V : Type} (k : string) (m : list (string * V)) : option V :=
  match m with
  | [] => None
  | (k', v) :: m' => if String.eqb k k' then Some v else assoc_get k m'
  end.

(** [d[k] = v] on a dict: an existing key keeps its place. *)
Fixpoint assoc_set {V : Type} (k : string) (v : V) (m : list (string * V))
  : list (string * V) :=
  match m with
  | [] => [(k, v)]
  | (k', v') :: m' =>
      if String.eqb k k' then (k, v) :: m' else (k', v') :: assoc_set k v m'
  end.

Definition chars (s : string) : list json :=
  map (fun c => JStr (String c EmptyString)) (list_ascii_of_string s).

Definition quote (k : string) : string := "'" ++ k ++ "'".

(** [v[k]] with a string key [k]. *)
Definition py_getitem (v : json) (k : string) : result json :=
  match v with
  | JObj m =>
      match assoc_get k m with
      | Some x => Ok x
      | None => Raise (mk_exn KeyError (quote k))
      end
  | JArr _ => Raise (mk_exn TypeError "list indices must be integers or slices, not str")
  | JStr _ => Raise (mk_exn TypeError "string indices must be integers")
  | _ => Raise (mk_exn TypeError "object is not subscriptable")
  end.

(** [v.get(k, default)] *)
Definition py_get (v : json) (k : string) (default : json) : result json :=
  match v with
  | JObj m =>
      match assoc_get k m with
      | Some x => Ok x
      | None => Ok default
      end
  | _ => Raise (mk_exn AttributeError "object has no attribute 'get'")
  end.

(** [v[0]] *)
Definition py_first (v : json) : result json :=
  match v with
  | JArr (x :: _) => Ok x
  | JArr [] => Raise (mk_exn IndexError "list index out of range")
  | JStr (String c _) => Ok (JStr (String c EmptyString))
  | JStr EmptyString => Raise (mk_exn IndexError "string index out of range")
  | JObj _ => Raise (mk_exn KeyError "0")
  | _ => Raise (mk_exn TypeError "object is not subscriptable")
  end.

(** [len(v)] *)
Definition py_len (v : json) : result nat :=
  match v with
  | JStr s => Ok (String.length s)
  | JArr l => Ok (List.length l)
  | JObj m => Ok (List.length m)
  | _ => Raise (mk_exn TypeError "object has no len()")
  end.

(** The items a [for] loop over [v] visits. *)
Definition py_iter (v : json) : result (list json) :=
  match v with
  | JStr s => Ok (chars s)
  | JArr l => Ok l
  | JObj m => Ok (map (fun kv => JStr (fst kv)) m)
  | _ => Raise (mk_exn TypeError "object is not iterable")
  end.

Definition Qzero (q : Q) : bool := Qeq_bool q 0.

(** Truth value of [v] in a condition. *)
Definition py_bool (v : json) : bool :=
  match v with
  | JNull => false
  | JBool b => b
  | JInt z => negb (Z.eqb z 0)
  | JFloat q => negb (Qzero q)
  | JStr s => negb (String.eqb s EmptyString)
  | JArr l => match l with [] => false | _ => true end
  | JObj m => match m with [] => false | _ => true end
  end.

(** [a == b] on values that can be dictionary keys ([True == 1 == 1.0]). *)
Definition num_of (v : json) : option Q :=
  match v with
  | JBool b => Some (if b then 1%Q else 0%Q)
  | JInt z => Some (inject_Z z)
  | JFloat q => Some q
  | _ => None
  end.

Definition py_key_eqb (a b : json) : bool :=
  match a, b with
  | JNull, JNull => true
  | JStr s, JStr t => String.eqb s t
  | _, _ =>
      match num_of a, num_of b with
      | Some x, Some y => Qeq_bool x y
      | _, _ => false
      end
  end.

Definition hashable (v : json) : bool :=
  match v with
  | JArr _ | JObj _ => false
  | _ => true
  end.

Definition string_of_nat (n : nat) : string :=
  NilEmpty.string_of_uint (Nat.to_uint n).

(** ** [json.loads]

    The decoder of the Python standard library, for text given as a byte
    string: white space is space, tab, line feed and carriage return; a
    number without fraction and exponent is an [int], any other a [float];
    a control character inside a string literal is refused; an escape
    [\uXXXX] is decoded to the UTF-8 bytes of its code point (surrogate
    halves one by one); a repeated key keeps its first place and its last
    value; anything after the value but white space is refused.  The
    literals NaN and Infinity are not covered.  The fuel of [parse_value]
    bounds the depth of nesting and the fuel of the loops the number of
    items; both are taken from the length of the text, which exceeds them. *)

Module Json.

Definition is_ws (c : ascii) : bool :=
  let n := nat_of_ascii c in
  (n =? 32)%nat || (n =? 9)%nat || (n =? 10)%nat || (n =? 13)%nat.

Fixpoint skip_ws (s : string) : string :=
  match s with
  | String c rest => if is_ws c then skip_ws rest else s
  | EmptyString => s
  end.

Definition digit_of (c : ascii) : option Z :=
  let n := nat_of_ascii c in
  if ((48 <=? n) && (n <=? 57))%nat then Some (Z.of_nat (n - 48)) else None.

Definition hex_of (c : ascii) : option N :=
  let n := nat_of_ascii c in
  if ((48 <=? n) && (n <=? 57))%nat then Some (N.of_nat (n - 48))
  else if ((65 <=? n) && (n <=? 70))%nat then Some (N.of_nat (n - 55))
  else if ((97 <=? n) && (n <=? 102))%nat then Some (N.of_nat (n - 87))
  else None.

Definition hex4 (a b c d : ascii) : option N :=
  match hex_of a, hex_of b, hex_of c, hex_of d with
  | Some x, Some y, Some z, Some w => Some (((x * 16 + y) * 16 + z) * 16 + w)%N
  | _, _, _, _ => None
  end.

Definition byte (n : N) : ascii := ascii_of_N n.

Definition utf8 (cp : N) (tail : string) : string :=
  if (cp <? 128)%N then String (byte cp) tail
  else if (cp <? 2048)%N then
    String (byte (192 + cp / 64)) (String (byte (128 + cp mod 64)) tail)
  else
    String (byte (224 + cp / 4096))
      (String (byte (128 + (cp / 64) mod 64))
         (String (byte (128 + cp mod 64)) tail)).

Definition dquote : ascii := ascii_of_nat 34.

Definition simple_escape (c : ascii) : option ascii :=
  if Ascii.eqb c dquote then Some dquote
  else
    match c with
    | "\"%char => Some "\"%char
    | "/"%char => Some "/"%char
    | "b"%char => Some (ascii_of_nat 8)
    | "f"%char => Some (ascii_of_nat 12)
    | "n"%char => Some (ascii_of_nat 10)
    | "r"%char => Some (ascii_of_nat 13)
    | "t"%char => Some (ascii_of_nat 9)
    | _ => None
    end.

(** The text after an opening quote: the decoded literal and what follows
    the closing quote. *)
Fixpoint parse_string (s : string) : option (string * string) :=
  match s with
  | EmptyString => None
  | String "\"%char (String "u"%char (String a (String b (String c (String d rest))))) =>
      match hex4 a b c d, parse_string rest with
      | Some cp, Some (lit, rest') => Some (utf8 cp lit, rest')
      | _, _ => None
      end
  | String "\"%char (String e rest) =>
      match simple_escape e, parse_string rest with
      | Some c, Some (lit, rest') => Some (String c lit, rest')
      | _, _ => None
      end
  | String "\"%char EmptyString => None
  | String c rest =>
      if Ascii.eqb c dquote then Some (EmptyString, rest)
      else if (nat_of_ascii c <? 32)%nat then None
      else
        match parse_string rest with
        | Some (lit, rest') => Some (String c lit, rest')
        | None => None
        end
  end.

(** Leading decimal digits, most significant first. *)
Fixpoint take_digits (s : string) : list Z * string :=
  match s with
  | String c rest =>
      match digit_of c with
      | Some d => let '(ds, r) := take_digits rest in (d :: ds, r)
      | None => ([], s)
      end
  | EmptyString => ([], s)
  end.

Definition digits_value (ds : list Z) : Z :=
  fold_left (fun acc d => acc * 10 + d)%Z ds 0%Z.

(** The integer part: a single 0, or a run of digits that starts with a
    digit other than 0. *)
Definition take_int (s : string) : option (list Z * string) :=
  match s with
  | String "0"%char rest => Some ([0%Z], rest)
  | _ =>
      match take_digits s with
      | ([], _) => None
      | (ds, r) => Some (ds, r)
      end
  end.

(** The optional fraction: a point and at least one digit. *)
Definition take_frac (s : string) : option (list Z) * string :=
  match s with
  | String "."%char rest =>
      match take_digits rest with
      | ([], _) => (None, s)
      | (ds, r) => (Some ds, r)
      end
  | _ => (None, s)
  end.

(** The optional exponent: e or E, an optional sign, at least one digit. *)
Definition take_exp (s : string) : option Z * string :=
  let digits_after (neg : bool) (t : string) :=
    match take_digits t with
    | ([], _) => (None, s)
    | (ds, r) => (Some (if neg then - digits_value ds else digits_value ds)%Z, r)
    end in
  match s with
  | String c rest =>
      if Ascii.eqb c "e" || Ascii.eqb c "E" then
        match rest with
        | String "+"%char t => digits_after false t
        | String "-"%char t => digits_after true t
        | _ => digits_after false rest
        end
      else (None, s)
  | EmptyString => (None, s)
  end.

(** [m * 10 ^ e] *)
Definition decimal (m e : Z) : Q :=
  if (0 <=? e)%Z then inject_Z (m * 10 ^ e)
  else Qred (Qmake m (Z.to_pos (10 ^ (- e)))).

Definition parse_number (s : string) : option (json * string) :=
  let '(neg, s1) :=
    match s with
    | String "-"%char rest => (true, rest)
    | _ => (false, s)
    end in
  match take_int s1 with
  | None => None
  | Some (ds, s2) =>
      let '(frac, s3) := take_frac s2 in
      let '(ex, s4) := take_exp s3 in
      let sign (z : Z) := if neg then (- z)%Z else z in
      match frac, ex with
      | None, None => Some (JInt (sign (digits_value ds)), s4)
      | _, _ =>
          let fs := match frac with Some fs => fs | None => [] end in
          let e := match ex with Some e => e | None => 0%Z end in
          Some (JFloat (decimal (sign (digits_value (ds ++ fs)))
                          (e - Z.of_nat (List.length fs))), s4)
      end
  end.

Fixpoint strip_prefix (p s : string) : option string :=
  match p, s with
  | EmptyString, _ => Some s
  | String a p', String b s' => if Ascii.eqb a b then strip_prefix p' s' else None
  | String _ _, EmptyString => None
  end.

Section Containers.
(** The decoder of one value, for the items of a container. *)
Variable parse_item : string -> option (json * string).

(** After a first item: [, item]* and the closing bracket. *)
Fixpoint parse_elements (n : nat) (s : string) : option (list json * string) :=
  match n with
  | O => None
  | S n' =>
      match parse_item s with
      | None => None
      | Some (v, r) =>
          match skip_ws r with
          | String ","%char r' =>
              match parse_elements n' (skip_ws r') with
              | Some (vs, r'') => Some (v :: vs, r'')
              | None => None
              end
          | String "]"%char r' => Some ([v], r')
          | _ => None
          end
      end
  end.

(** The pairs of a key, a colon and an item up to the closing brace; [m]
    holds the pairs read so far. *)
Fixpoint parse_members (n : nat) (m : list (string * json)) (s : string)
  : option (list (string * json) * string) :=
  match n with
  | O => None
  | S n' =>
      match s with
      | String c r =>
          match (if Ascii.eqb c dquote then parse_string r else None) with
          | None => None
          | Some (k, r1) =>
              match skip_ws r1 with
              | String ":"%char r2 =>
                  match parse_item (skip_ws r2) with
                  | None => None
                  | Some (v, r3) =>
                      let m' := assoc_set k v m in
                      match skip_ws r3 with
                      | String ","%char r4 => parse_members n' m' (skip_ws r4)
                      | String "}"%char r4 => Some (m', r4)
                      | _ => None
                      end
                  end
              | _ => None
              end
          end
      | _ => None
      end
  end.
End Containers.

Fixpoint parse_value (fuel : nat) (s : string) : option (json * string) :=
  match fuel with
  | O => None
  | S fuel' =>
      match s with
      | EmptyString => None
      | String "{"%char r =>
          match skip_ws r with
          | String "}"%char r' => Some (JObj [], r')
          | r' =>
              match parse_members (parse_value fuel') (String.length r') [] r' with
              | Some (m, r'') => Some (JObj m, r'')
              | None => None
              end
          end
      | String "["%char r =>
          match skip_ws r with
          | String "]"%char r' => Some (JArr [], r')
          | r' =>
              match parse_elements (parse_value fuel') (String.length r') r' with
              | Some (l, r'') => Some (JArr l, r'')
              | None => None
              end
          end
      | String c r =>
          if Ascii.eqb c dquote then
            match parse_string r with
            | Some (lit, r') => Some (JStr lit, r')
            | None => None
            end
          else
            match strip_prefix "null" s, strip_prefix "true" s, strip_prefix "false" s with
            | Some r, _, _ => Some (JNull, r)
            | _, Some r, _ => Some (JBool true, r)
            | _, _, Some r => Some (JBool false, r)
            | _, _, _ => parse_number s
            end
      end
  end.

Definition loads (s : string) : result json :=
  match parse_value (S (String.length s)) (skip_ws s) with
  | Some (v, r) =>
      match skip_ws r with
      | EmptyString => Ok v
      | _ => Raise (mk_exn JSONDecodeError "Extra data")
      end
  | None => Raise (mk_exn JSONDecodeError "Expecting value")
  end.

End Json.

(** ** Data model ([api/models.py]) *)

Inductive WaypointType : Type :=
| WAYPOINT | TAKEOFF | LAND | LOITER | SURVEY | ORBIT.

Definition WaypointType_value (t : WaypointType) : string :=
  match t with
  | WAYPOINT => "waypoint"
  | TAKEOFF => "takeoff"
  | LAND => "land"
  | LOITER => "loiter"
  | SURVEY => "survey"
  | ORBIT => "orbit"
  end.

Record Coordinate : Type := {
  lat : Q;
  lng : Q;
  alt : option Q
}.

Record Waypoint : Type := {
  wp_id : string;
  wp_type : WaypointType;
  wp_position : Coordinate;
  wp_order : Z;
  wp_name : option string;
  wp_speed : option Q;
  wp_loiter_time : option Q;
  wp_radius : option Q;
  wp_camera_action : option string
}.

Record MissionObjective : Type := {
  description : string;
  priority : string;
  constraints : option (list string)
}.

Record DroneCapabilities : Type := {
  max_altitude : Q;
  max_speed : Q;
  flight_time : Q;
  has_camera : bool;
  has_gimbal : bool;
  payload_capacity : option Q
}.

Record EnvironmentConditions : Type := {
  wind_speed : option Q;
  wind_direction : option Q;
  temperature : option Q;
  visibility : option Q;
  no_fly_zones : option (list json)
}.

Record MissionPlanRequest : Type := {
  objective : MissionObjective;
  start_position : option Coordinate;
  area_of_interest : option (list Coordinate);
  drone_capabilities : option DroneCapabilities;
  environment : option EnvironmentConditions;
  existing_waypoints : option (list Waypoint);
  model : option string;
  include_reasoning : bool
}.

Record MissionPlan : Type := {
  plan_id : string;
  plan_name : string;
  plan_description : string;
  plan_waypoints : list Waypoint;
  estimated_duration : Q;
  total_distance : Q;
  created_at : string;
  metadata : option json
}.

Record MissionPlanResponse : Type := {
  success : bool;
  plan : option MissionPlan;
  response_reasoning : option string;
  warnings : option json;
  error : option string
}.

Inductive chunk_type : Type :=
| reasoning | plan_chunk | waypoint | status | error_chunk
| structure_analysis | location_geocoded.

Definition chunk_type_eqb (a b : chunk_type) : bool :=
  match a, b with
  | reasoning, reasoning | plan_chunk, plan_chunk | waypoint, waypoint
  | status, status | error_chunk, error_chunk
  | structure_analysis, structure_analysis
  | location_geocoded, location_geocoded => true
  | _, _ => false
  end.

Record StreamingChunk : Type := {
  type : chunk_type;
  content : option string;
  data : option json;
  sequence : nat;
  is_final : bool
}.

(** ** The outside world *)

(** One event of the stream of [llm.stream_text], as the pipeline reads it:
    [chunk.choices], [choices[0].delta.content], [choices[0].delta.reasoning]
    and [choices[0].finish_reason]. *)
Record Delta : Type := {
  delta_content : option string;
  delta_reasoning : option string
}.

Record Choice : Type := {
  delta : Delta;
  finish_reason : option string
}.

Record Chunk : Type := { choices : list Choice }.

(** What one call of [stream_text] yields, and the exception that ends the
    stream, if any. *)
Record llm_stream : Type := {
  events : list Chunk;
  failure : option exn
}.

Record stream_args : Type := {
  arg_prompt : string;
  arg_system_prompt : string;
  arg_model : string;
  arg_response_schema : bool;
  arg_include_reasoning : bool
}.

(** The reply to the GET request of the geocoder. *)
Inductive http_reply : Type :=
| HttpFails (e : exn)
| HttpReply (status_code : nat) (body : result json).

(** A located place: the pair of values the geocoder returns. *)
Definition coords : Type := (json * json)%type.

(** [geocoded_locations]: a dict from names to coordinates or [None]. *)
Definition geocoded : Type := list (json * option coords).

Record Env : Type := {
  (** the stream of the [n]-th call of [stream_text] in this run *)
  stream_text : nat -> stream_args -> llm_stream;
  OPENROUTER_API_MODEL : option string;
  GOOGLE_MAPS_API_KEY : option string;
  (** whether [import aiohttp] succeeds *)
  aiohttp_installed : bool;
  http_get : json -> http_reply;
  (** the [n]-th value of [str(uuid.uuid4())] in this run *)
  uuid4 : nat -> string;
  utcnow : string;
  (** the prompt texts of the service; building the detailed prompt formats
      values of the LLM and of the geocoder and can raise *)
  structure_system_prompt : string;
  detailed_system_prompt : string;
  build_structure_prompt : MissionPlanRequest -> string;
  build_detailed_prompt : MissionPlanRequest -> json -> geocoded -> result string;
  (** the coercions pydantic applies to a field of type float, int and str *)
  to_float : json -> option Q;
  to_int : json -> option Z;
  to_str : json -> option string;
  (** the text of a value inside an f-string *)
  format_value : json -> string
}.

Definition py_str (E : Env) (v : json) : string :=
  match v with
  | JStr s => s
  | _ => format_value E v
  end.

(** ** Validation of the models *)

Definition validation_error (field : string) : exn :=
  mk_exn ValidationError field.

Section Validation.
Variable E : Env.

Definition float_field (field : string) (v : json) : result Q :=
  match to_float E v with
  | Some q => Ok q
  | None => Raise (validation_error field)
  end.

Definition ge (field : string) (bound q : Q) : result Q :=
  if Qle_bool bound q then Ok q else Raise (validation_error field).

Definition le (field : string) (bound q : Q) : result Q :=
  if Qle_bool q bound then Ok q else Raise (validation_error field).

(** [Optional[float] = Field(None, ge=0)] *)
Definition optional_float_ge0 (field : string) (v : json) : result (option Q) :=
  match v with
  | JNull => Ok None
  | _ => let* q := float_field field v in
         let* q := ge field 0 q in Ok (Some q)
  end.

Definition str_field (field : string) (v : json) : result string :=
  match to_str E v with
  | Some s => Ok s
  | None => Raise (validation_error field)
  end.

Definition optional_str (field : string) (v : json) : result (option string) :=
  match v with
  | JNull => Ok None
  | _ => let* s := str_field field v in Ok (Some s)
  end.

Definition required (field : string) (kwargs : list (string * json)) : result json :=
  match assoc_get field kwargs with
  | Some v => Ok v
  | None => Raise (validation_error field)
  end.

Definition optional (field : string) (kwargs : list (string * json)) : json :=
  match assoc_get field kwargs with
  | Some v => v
  | None => JNull
  end.

(** [Coordinate] built from the keyword arguments [kwargs]. *)
Definition make_Coordinate (kwargs : list (string * json)) : result Coordinate :=
  let* v := required "lat" kwargs in
  let* la := float_field "lat" v in
  let* la := ge "lat" (-90) la in
  let* la := le "lat" 90 la in
  let* v := required "lng" kwargs in
  let* lo := float_field "lng" v in
  let* lo := ge "lng" (-180) lo in
  let* lo := le "lng" 180 lo in
  let* al := optional_float_ge0 "alt" (optional "alt" kwargs) in
  Ok {| lat := la; lng := lo; alt := al |}.

(** [WaypointType(v)] *)
Definition make_WaypointType (v : json) : result WaypointType :=
  let unknown := Raise (mk_exn ValueError "is not a valid WaypointType") in
  match v with
  | JStr s =>
      if String.eqb s "waypoint" then Ok WAYPOINT
      else if String.eqb s "takeoff" then Ok TAKEOFF
      else if String.eqb s "land" then Ok LAND
      else if String.eqb s "loiter" then Ok LOITER
      else if String.eqb s "survey" then Ok SURVEY
      else if String.eqb s "orbit" then Ok ORBIT
      else unknown
  | _ => unknown
  end.

(** [Waypoint(id=.., type=.., position=.., order=.., name=.., ...)], the
    type and the position already built. *)
Definition make_Waypoint (id : json) (t : WaypointType) (pos : Coordinate)
    (order name speed loiter_time radius camera_action : json) : result Waypoint :=
  let* i := str_field "id" id in
  let* o := match to_int E order with
            | Some z => if (0 <=? z)%Z then Ok z else Raise (validation_error "order")
            | None => Raise (validation_error "order")
            end in
  let* n := optional_str "name" name in
  let* s := optional_float_ge0 "speed" speed in
  let* l := optional_float_ge0 "loiter_time" loiter_time in
  let* r := optional_float_ge0 "radius" radius in
  let* c := optional_str "camera_action" camera_action in
  Ok {| wp_id := i; wp_type := t; wp_position := pos; wp_order := o;
        wp_name := n; wp_speed := s; wp_loiter_time := l; wp_radius := r;
        wp_camera_action := c |}.

(** [MissionPlan(id=.., name=.., ..., metadata=..)] for already validated
    waypoints; [created_at] is filled in from the clock. *)
Definition make_MissionPlan (id : string) (name description : json)
    (waypoints : list Waypoint) (duration distance : json) (meta : option json)
  : result MissionPlan :=
  let* n := str_field "name" name in
  let* d := str_field "description" description in
  let* du := float_field "estimated_duration" duration in
  let* di := float_field "total_distance" distance in
  Ok {| plan_id := id; plan_name := n; plan_description := d;
        plan_waypoints := waypoints; estimated_duration := du;
        total_distance := di; created_at := utcnow E; metadata := meta |}.

End Validation.

(** ** [.dict()] of the models *)

Definition json_of_option {A : Type} (f : A -> json) (o : option A) : json :=
  match o with
  | Some a => f a
  | None => JNull
  end.

Definition Coordinate_dict (c : Coordinate) : json :=
  JObj [("lat", JFloat (lat c)); ("lng", JFloat (lng c));
        ("alt", json_of_option JFloat (alt c))].

Definition Waypoint_dict (w : Waypoint) : json :=
  JObj [("id", JStr (wp_id w));
        ("type", JStr (WaypointType_value (wp_type w)));
        ("position", Coordinate_dict (wp_position w));
        ("order", JInt (wp_order w));
        ("name", json_of_option JStr (wp_name w));
        ("speed", json_of_option JFloat (wp_speed w));
        ("loiter_time", json_of_option JFloat (wp_loiter_time w));
        ("radius", json_of_option JFloat (wp_radius w));
        ("camera_action", json_of_option JStr (wp_camera_action w))].

Definition MissionPlan_dict (p : MissionPlan) : json :=
  JObj [("id", JStr (plan_id p));
        ("name", JStr (plan_name p));
        ("description", JStr (plan_description p));
        ("waypoints", JArr (map Waypoint_dict (plan_waypoints p)));
        ("estimated_duration", JFloat (estimated_duration p));
        ("total_distance", JFloat (total_distance p));
        ("created_at", JStr (created_at p));
        ("metadata", json_of_option (fun m => m) (metadata p))].

Definition MissionObjective_dict (o : MissionObjective) : json :=
  JObj [("description", JStr (description o));
        ("priority", JStr (priority o));
        ("constraints", json_of_option (fun l => JArr (map JStr l)) (constraints o))].

(** ** The retry decorator [retry_llm_call]

    The wrapper sees of the wrapped function only what each invocation
    returns or raises: [func i] is the outcome of invocation number [i]
    (from 0).  A run of the wrapper is its own outcome, the number of
    invocations it made and the delays it slept, in order. *)

Record retry_run (A : Type) : Type := {
  outcome : result A;
  invocations : nat;
  slept : list Q
}.
Arguments outcome {A} r.
Arguments invocations {A} r.
Arguments slept {A} r.

Section Retry.
Context {A : Type}.
Variable max_retries : nat.
Variables base_delay max_delay backoff_factor : Q.
Variable func : nat -> result A.

Definition finished (r : result A) : retry_run A :=
  {| outcome := r; invocations := 0; slept := [] |}.

Definition invoked (r : retry_run A) : retry_run A :=
  {| outcome := outcome r; invocations := S (invocations r); slept := slept r |}.

Definition sleep (delay : Q) (r : retry_run A) : retry_run A :=
  {| outcome := outcome r; invocations := invocations r; slept := delay :: slept r |}.

(** [raise last_exception] after the loop. *)
Definition raise_last (last_exception : option exn) : result A :=
  match last_exception with
  | Some e => Raise e
  | None => Raise (mk_exn TypeError "exceptions must derive from BaseException")
  end.

(** The [for attempt in range(max_retries + 1)] loop, with [n] iterations
    left. *)
Fixpoint attempts (n attempt : nat) (delay : Q) (last_exception : option exn)
  : retry_run A :=
  match n with
  | O => finished (raise_last last_exception)
  | S n' =>
      invoked
        match func attempt with
        | Ok v => finished (Ok v)
        | Raise e =>
            if is_json_decode_error e then
              if (attempt <? max_retries)%nat then
                sleep delay
                  (attempts n' (S attempt)
                     (Qmin (delay * backoff_factor) max_delay) (Some e))
              else attempts n' (S attempt) delay (Some e)
            else
              if (attempt <? Nat.min 2 max_retries)%nat then
                sleep delay
                  (attempts n' (S attempt)
                     (Qmin (delay * backoff_factor) max_delay) (Some e))
              else finished (Raise e)
        end
  end.

Definition retry_llm_call : retry_run A :=
  attempts (max_retries + 1) 0 base_delay None.
End Retry.

(** ** Extraction of the JSON text from the output of the LLM *)

Definition lbrace : ascii := "{".
Definition rbrace : ascii := "}".

(** [s.find(c)]; [None] stands for -1. *)
Fixpoint find (c : ascii) (s : string) : option nat :=
  match s with
  | EmptyString => None
  | String a rest =>
      if Ascii.eqb a c then Some 0
      else match find c rest with
           | Some i => Some (S i)
           | None => None
           end
  end.

(** [s[n:]] *)
Fixpoint drop (n : nat) (s : string) : string :=
  match n, s with
  | O, _ => s
  | S n', String _ rest => drop n' rest
  | S _, EmptyString => EmptyString
  end.

(** [s[a:b]] *)
Definition slice (s : string) (a b : nat) : string := substring a (b - a) s.

(** The loop over [enumerate(accumulated_content[start_idx:], start_idx)]:
    [i] is the index of the first character of [s]; the result is the
    [end_idx] set before [break], or [None] when the loop runs to the end. *)
Fixpoint match_brace (s : string) (i : nat) (brace_count : Z) : option nat :=
  match s with
  | EmptyString => None
  | String char rest =>
      if Ascii.eqb char lbrace then match_brace rest (S i) (brace_count + 1)
      else if Ascii.eqb char rbrace then
        let brace_count := (brace_count - 1)%Z in
        if (brace_count =? 0)%Z then Some (S i)
        else match_brace rest (S i) brace_count
      else match_brace rest (S i) brace_count
  end.

Definition json_text (accumulated_content : string) (start_idx : nat) : string :=
  let end_idx :=
    match match_brace (drop start_idx accumulated_content) start_idx 0 with
    | Some i => i
    | None => start_idx
    end in
  slice accumulated_content start_idx end_idx.

(** Phase 1: the block of [_generate_mission_structure] under
    [finish_reason == 'stop']. *)
Definition parse_structure (accumulated_content : string) : result json :=
  match find lbrace accumulated_content with
  | Some start_idx => Json.loads (json_text accumulated_content start_idx)
  | None => Raise (mk_exn ValueError "No JSON found in structure analysis response")
  end.

(** Phase 3: the direct parse first, the search for a block on
    [JSONDecodeError]. *)
Definition parse_plan (accumulated_content : string) : result json :=
  match Json.loads accumulated_content with
  | Ok plan_data => Ok plan_data
  | Raise e =>
      if is_json_decode_error e then
        match find lbrace accumulated_content with
        | Some start_idx => Json.loads (json_text accumulated_content start_idx)
        | None => Raise (mk_exn ValueError "No JSON found in response")
        end
      else Raise e
  end.

(** ** [GeoCodingService] *)

(** The fallback coordinates (San Francisco area): [(37.7749, -122.4194)]. *)
Definition fallback_coordinates : coords :=
  (JFloat (377749 # 10000), JFloat (- 1224194 # 10000)).

Section Geocoding.
Variable E : Env.

(** The body of the [try] of [geocode_location]. *)
Definition geocode_request (location_name : json) : result (option coords) :=
  if negb (aiohttp_installed E) then
    Raise (mk_exn ImportError "No module named 'aiohttp'")
  else
    match http_get E location_name with
    | HttpFails e => Raise e
    | HttpReply status_code body =>
        if (status_code =? 200)%nat then
          let* data := body in
          let* st := py_getitem data "status" in
          let* found :=
            match st with
            | JStr "OK" => let* results := py_getitem data "results" in
                           Ok (py_bool results)
            | _ => Ok false
            end in
          if found then
            let* results := py_getitem data "results" in
            let* first := py_first results in
            let* geometry := py_getitem first "geometry" in
            let* location := py_getitem geometry "location" in
            let* la := py_getitem location "lat" in
            let* lo := py_getitem location "lng" in
            Ok (Some (la, lo))
          else Ok None
        else Ok None
    end.

Definition geocode_location (location_name : json) : option coords :=
  match GOOGLE_MAPS_API_KEY E with
  | None => None
  | Some EmptyString => None
  | Some _ =>
      match geocode_request location_name with
      | Ok r => r
      | Raise e =>
          if exn_kind_eqb (exn_type e) ImportError
          then Some fallback_coordinates
          else None
      end
  end.

Definition dict_contains (k : json) (d : geocoded) : bool :=
  existsb (fun kv => py_key_eqb k (fst kv)) d.

Fixpoint dict_set (k : json) (v : option coords) (d : geocoded) : geocoded :=
  match d with
  | [] => [(k, v)]
  | (k', v') :: d' =>
      if py_key_eqb k k' then (k', v) :: d' else (k', v') :: dict_set k v d'
  end.

Definition coords_of (c : Coordinate) : option coords :=
  Some (JFloat (lat c), JFloat (lng c)).

(** [for i, coord in enumerate(request.area_of_interest)] *)
Fixpoint add_area_of_interest (i : nat) (area : list Coordinate) (d : geocoded)
  : geocoded :=
  match area with
  | [] => d
  | coord :: rest =>
      add_area_of_interest (S i) rest
        (dict_set (JStr ("aoi_point_" ++ string_of_nat (i + 1))) (coords_of coord) d)
  end.

(** [for location in structure_data.get('key_locations', [])] *)
Fixpoint geocode_key_locations (locations : list json) (d : geocoded)
  : result geocoded :=
  match locations with
  | [] => Ok d
  | location :: rest =>
      let* location_name := py_get location "name" (JStr EmptyString) in
      if py_bool location_name then
        if hashable location_name then
          if dict_contains location_name d then geocode_key_locations rest d
          else
            let coords := geocode_location location_name in
            geocode_key_locations rest (dict_set location_name coords d)
        else Raise (mk_exn TypeError "unhashable type")
      else geocode_key_locations rest d
  end.

(** Phase 2 *)
Definition _geocode_mission_locations (structure_data : json)
    (request : MissionPlanRequest) : result geocoded :=
  let d := [] in
  let d := match start_position request with
           | Some p => dict_set (JStr "start_position") (coords_of p) d
           | None => d
           end in
  let d := match area_of_interest request with
           | Some area => add_area_of_interest 0 area d
           | None => d
           end in
  let* key_locations := py_get structure_data "key_locations" (JArr []) in
  let* locations := py_iter key_locations in
  geocode_key_locations locations d.
End Geocoding.

(** ** The phases that call the LLM *)

(** [x and x != ''] for an optional text of a delta. *)
Definition text_of (o : option string) : string :=
  match o with
  | Some s => s
  | None => EmptyString
  end.

Definition stopped (c : Choice) : bool :=
  match finish_reason c with
  | Some r => String.eqb r "stop"
  | None => false
  end.

Definition model_to_use (E : Env) (request : MissionPlanRequest) : string :=
  let default_model :=
    match OPENROUTER_API_MODEL E with
    | Some m => m
    | None => "google/gemini-2.5-pro"
    end in
  match model request with
  | None => default_model
  | Some EmptyString => default_model
  | Some m => m
  end.

(** Phase 1: the loop over the stream of [_generate_mission_structure]. *)
Fixpoint structure_loop (evs : list Chunk) (fails : option exn)
    (accumulated_content : string) : result json :=
  match evs with
  | [] =>
      match fails with
      | Some e => Raise e
      | None => Raise (mk_exn ValueError "No structure analysis response received")
      end
  | chunk :: rest =>
      match choices chunk with
      | [] => structure_loop rest fails accumulated_content
      | choice :: _ =>
          let accumulated_content :=
            accumulated_content ++ text_of (delta_content (delta choice)) in
          if stopped choice then parse_structure accumulated_content
          else structure_loop rest fails accumulated_content
      end
  end.

(** One invocation of the undecorated [_generate_mission_structure]; it is
    call number [n] of [stream_text]. *)
Definition structure_args (E : Env) (request : MissionPlanRequest) : stream_args :=
  {| arg_prompt := build_structure_prompt E request;
     arg_system_prompt := structure_system_prompt E;
     arg_model := model_to_use E request;
     arg_response_schema := false;
     arg_include_reasoning := false |}.

Definition structure_attempt (E : Env) (request : MissionPlanRequest) (n : nat)
  : result json :=
  let s := stream_text E n (structure_args E request) in
  structure_loop (events s) (failure s) EmptyString.

(** [@retry_llm_call(max_retries=5, base_delay=1.5)]; the first invocation
    is call number [first] of [stream_text]. *)
Definition _generate_mission_structure (E : Env) (request : MissionPlanRequest)
    (first : nat) : retry_run json :=
  retry_llm_call 5 (3 # 2) 30 2 (fun i => structure_attempt E request (first + i)).

(** ** Chunks

    The decorative symbol that opens some of the texts is left out. *)

Definition status_chunk (text : string) (d : json) (seq : nat) : StreamingChunk :=
  {| type := status; content := Some text; data := Some d;
     sequence := seq; is_final := false |}.

Definition final_error (text : string) (seq : nat) : StreamingChunk :=
  {| type := error_chunk; content := Some text; data := None;
     sequence := seq; is_final := true |}.

Definition phase_data (phase : Z) (progress : json) (more : list (string * json))
  : json :=
  JObj ([("phase", JInt phase); ("total_phases", JInt 3); ("progress", progress)]
        ++ more).

(** What an async generator does: the chunks it yields, then a normal end
    or an exception. *)
Record generated : Type := {
  yielded : list StreamingChunk;
  raised : option exn
}.

Definition yield (c : StreamingChunk) (g : generated) : generated :=
  {| yielded := c :: yielded g; raised := raised g |}.

Definition yield_all (cs : list StreamingChunk) (g : generated) : generated :=
  {| yielded := cs ++ yielded g; raised := raised g |}.

Definition raises (e : exn) : generated := {| yielded := []; raised := Some e |}.

Definition returns : generated := {| yielded := []; raised := None |}.

(** ** Phase 3: [_generate_detailed_mission_plan] *)

Section Detailed.
Variable E : Env.
Variable request : MissionPlanRequest.
Variable structure_data : json.
Variable geocoded_locations : geocoded.

(** The keyword arguments of [Waypoint(...)] for one item of
    [plan_data['waypoints']], evaluated from left to right; [u] is the
    number of the [uuid4] call. *)
Definition convert_waypoint (wp_data : json) (u : nat) : result Waypoint :=
  let* id := py_get wp_data "id" (JStr (uuid4 E u)) in
  let* t := py_getitem wp_data "type" in
  let* t := make_WaypointType t in
  let* p := py_getitem wp_data "position" in
  let* pos := match p with
              | JObj kwargs => make_Coordinate E kwargs
              | _ => Raise (mk_exn TypeError "argument after ** must be a mapping")
              end in
  let* order := py_getitem wp_data "order" in
  let* name := py_get wp_data "name" JNull in
  let* speed := py_get wp_data "speed" JNull in
  let* loiter_time := py_get wp_data "loiter_time" JNull in
  let* radius := py_get wp_data "radius" JNull in
  let* camera_action := py_get wp_data "camera_action" JNull in
  make_Waypoint E id t pos order name speed loiter_time radius camera_action.

(** [waypoint.name or waypoint.type.value] *)
Definition waypoint_label (w : Waypoint) : string :=
  match wp_name w with
  | None => WaypointType_value (wp_type w)
  | Some EmptyString => WaypointType_value (wp_type w)
  | Some n => n
  end.

Definition waypoint_status (i total_waypoints : nat) (w : Waypoint) (seq : nat)
  : StreamingChunk :=
  status_chunk
    ("Generated waypoint " ++ string_of_nat i ++ "/"
       ++ string_of_nat total_waypoints ++ ": " ++ waypoint_label w)
    (phase_data 3
       (JFloat (70 + (inject_Z (Z.of_nat i) / inject_Z (Z.of_nat total_waypoints)) * 20))
       [("waypoint", Waypoint_dict w)])
    seq.

(** [for i, wp_data in enumerate(plan_data['waypoints'], 1)]: the chunks
    yielded, and the list [waypoints] at the end or the exception that
    stops the loop. *)
Fixpoint convert_waypoints (items : list json) (i total_waypoints u seq : nat)
    (waypoints : list Waypoint) : list StreamingChunk * result (list Waypoint) :=
  match items with
  | [] => ([], Ok waypoints)
  | wp_data :: rest =>
      match convert_waypoint wp_data u with
      | Raise e => ([], Raise e)
      | Ok w =>
          let '(cs, r) :=
            convert_waypoints rest (S i) total_waypoints (S u) (S seq)
              (waypoints ++ [w]) in
          (waypoint_status i total_waypoints w seq :: cs, r)
      end
  end.

Definition generated_by : string :=
  match model request with
  | None => "default"
  | Some EmptyString => "default"
  | Some m => m
  end.

(** [{k: v for k, v in geocoded_locations.items() if v is not None}] *)
Definition resolved_locations : json :=
  JObj (flat_map
          (fun kv : json * option coords =>
             match snd kv with
             | Some (la, lo) => [(py_str E (fst kv), JArr [la; lo])]
             | None => []
             end)
          geocoded_locations).

(** [MissionPlan(id=.., name=plan_data['mission_name'], ...)]; [u] is the
    number of the [uuid4] call. *)
Definition assemble_plan (plan_data : json) (waypoints : list Waypoint) (u : nat)
  : result MissionPlan :=
  let id := uuid4 E u in
  let* name := py_getitem plan_data "mission_name" in
  let* description := py_getitem plan_data "mission_description" in
  let* duration := py_getitem plan_data "estimated_duration" in
  let* distance := py_getitem plan_data "total_distance" in
  let* warnings := py_get plan_data "warnings" (JArr []) in
  make_MissionPlan E id name description waypoints duration distance
    (Some (JObj [("objective", MissionObjective_dict (objective request));
                 ("generated_by", JStr generated_by);
                 ("warnings", warnings);
                 ("structure_analysis", structure_data);
                 ("geocoded_locations", resolved_locations)])).

Definition plan_summary (plan_data : json) (p : MissionPlan) (seq : nat)
  : result StreamingChunk :=
  let* duration := py_getitem plan_data "estimated_duration" in
  let* distance := py_getitem plan_data "total_distance" in
  Ok (status_chunk "Mission plan generation complete!"
        (phase_data 3 (JInt 95)
           [("plan_summary",
              JObj [("name", JStr (plan_name p));
                    ("waypoints", JInt (Z.of_nat (List.length (plan_waypoints p))));
                    ("duration", duration);
                    ("distance", distance)])])
        seq).

Definition final_plan (p : MissionPlan) (seq : nat) : StreamingChunk :=
  {| type := plan_chunk; content := None;
     data := Some (JObj [("progress", JInt 100); ("plan", MissionPlan_dict p)]);
     sequence := seq; is_final := true |}.

(** The block under [finish_reason == 'stop']: parse, convert, stream the
    waypoints, the summary and the plan, and [return]. *)
Definition finish_plan (accumulated_content : string) (seq : nat) : generated :=
  match parse_plan accumulated_content with
  | Raise e => raises e
  | Ok plan_data =>
      match (let* wps := py_getitem plan_data "waypoints" in
             let* total_waypoints := py_len wps in
             let* items := py_iter wps in
             Ok (total_waypoints, items)) with
      | Raise e => raises e
      | Ok (total_waypoints, items) =>
          let '(cs, r) := convert_waypoints items 1 total_waypoints 0 seq [] in
          yield_all cs
            match r with
            | Raise e => raises e
            | Ok waypoints =>
                let seq := seq + List.length cs in
                match (let* p := assemble_plan plan_data waypoints (List.length items) in
                       let* c := plan_summary plan_data p seq in
                       Ok (p, c)) with
                | Raise e => raises e
                | Ok (p, c) => yield c (yield (final_plan p (S seq)) returns)
                end
            end
      end
  end.

Definition reasoning_chunk (text : string) (seq : nat) : StreamingChunk :=
  {| type := reasoning; content := Some text; data := None;
     sequence := seq; is_final := false |}.

(** The loop over the stream of the LLM. *)
Fixpoint detailed_loop (evs : list Chunk) (fails : option exn)
    (accumulated_content accumulated_reasoning : string) (seq : nat) : generated :=
  match evs with
  | [] =>
      match fails with
      | Some e => raises e
      | None => returns
      end
  | chunk :: rest =>
      match choices chunk with
      | [] => detailed_loop rest fails accumulated_content accumulated_reasoning seq
      | choice :: _ =>
          let r := text_of (delta_reasoning (delta choice)) in
          let accumulated_content :=
            accumulated_content ++ text_of (delta_content (delta choice)) in
          let continue (accumulated_reasoning : string) (seq : nat) :=
            if stopped choice then finish_plan accumulated_content seq
            else detailed_loop rest fails accumulated_content accumulated_reasoning seq in
          if String.eqb r EmptyString then continue accumulated_reasoning seq
          else yield (reasoning_chunk r seq) (continue (accumulated_reasoning ++ r) (S seq))
      end
  end.

(** The schema constrains the output only when no reasoning is asked for. *)
Definition detailed_args (prompt : string) : stream_args :=
  {| arg_prompt := prompt;
     arg_system_prompt := detailed_system_prompt E;
     arg_model := model_to_use E request;
     arg_response_schema := negb (include_reasoning request);
     arg_include_reasoning := include_reasoning request |}.

(** The generator, and the number of calls of [stream_text] it makes; its
    call is number [n] of the run. *)
Definition _generate_detailed_mission_plan (start_sequence n : nat)
  : generated * nat :=
  match build_detailed_prompt E request structure_data geocoded_locations with
  | Raise e => (raises e, 0)
  | Ok prompt =>
      let s := stream_text E n (detailed_args prompt) in
      (detailed_loop (events s) (failure s) EmptyString EmptyString start_sequence, 1)
  end.
End Detailed.

(** ** [generate_mission_plan] *)

(** A run of the streaming pipeline: the chunks it emits in order, the calls
    of [stream_text] it makes and the delays its retry wrapper sleeps. *)
Record run : Type := {
  chunks : list StreamingChunk;
  llm_calls : nat;
  sleeps : list Q
}.

Section Pipeline.
Variable E : Env.
Variable request : MissionPlanRequest.

(** [len(structure_data.get('key_locations', []))] *)
Definition count_key_locations (structure_data : json) : result nat :=
  let* key_locations := py_get structure_data "key_locations" (JArr []) in
  py_len key_locations.

Definition geocoded_status (location_name : json) (c : coords)
    (successful_geocodes total : nat) (seq : nat) : StreamingChunk :=
  status_chunk ("Geocoded location: " ++ py_str E location_name)
    (phase_data 2
       (JFloat (30 + (inject_Z (Z.of_nat successful_geocodes)
                      / inject_Z (Z.of_nat total)) * 25))
       [("location", JObj [("name", location_name);
                           ("coordinates", JArr [fst c; snd c])])])
    seq.

(** [for location_name, coords in geocoded_locations.items()]: the chunks,
    and [successful_geocodes] at the end. *)
Fixpoint geocoded_chunks (items : geocoded) (successful_geocodes total seq : nat)
  : list StreamingChunk * nat :=
  match items with
  | [] => ([], successful_geocodes)
  | (location_name, None) :: rest =>
      geocoded_chunks rest successful_geocodes total seq
  | (location_name, Some c) :: rest =>
      let successful_geocodes := S successful_geocodes in
      let '(cs, n) := geocoded_chunks rest successful_geocodes total (S seq) in
      (geocoded_status location_name c successful_geocodes total seq :: cs, n)
  end.

(** Phase 3 within the pipeline: every chunk of the inner generator is
    passed on and counted; an exception becomes the final error chunk. *)
Definition relay (g : generated) (seq : nat) : list StreamingChunk :=
  let seq := seq + List.length (yielded g) in
  yielded g ++
  match raised g with
  | Some e => [final_error ("Detailed mission planning failed: " ++ str_exn e) seq]
  | None => []
  end.

Definition generate_mission_plan : run :=
  let seq := 0 in
  let c0 := status_chunk
              "Phase 1/3: Analyzing mission structure and identifying key locations..."
              (phase_data 1 (JInt 5) []) seq in
  let seq := S seq in
  let r1 := _generate_mission_structure E request 0 in
  let done (cs : list StreamingChunk) (calls : nat) :=
    {| chunks := cs; llm_calls := calls; sleeps := slept r1 |} in
  match (let* structure_data := outcome r1 in
         let* n := count_key_locations structure_data in
         Ok (structure_data, n)) with
  | Raise e =>
      done [c0; final_error ("Mission structure analysis failed: " ++ str_exn e) seq]
           (invocations r1)
  | Ok (structure_data, n) =>
      let c1 := status_chunk
                  ("Mission structure analyzed - " ++ string_of_nat n
                     ++ " locations identified")
                  (phase_data 1 (JInt 25) [("structure_data", structure_data)]) seq in
      let seq := S seq in
      let c2 := status_chunk
                  "Phase 2/3: Geocoding locations and getting precise coordinates..."
                  (phase_data 2 (JInt 30) []) seq in
      let seq := S seq in
      match _geocode_mission_locations E structure_data request with
      | Raise e =>
          done [c0; c1; c2;
                final_error ("Location geocoding failed: " ++ str_exn e) seq]
               (invocations r1)
      | Ok geocoded_locations =>
          let total := List.length geocoded_locations in
          let '(located, successful_geocodes) :=
            geocoded_chunks geocoded_locations 0 total seq in
          let seq := seq + List.length located in
          let c3 := status_chunk
                      ("Geocoding complete - " ++ string_of_nat successful_geocodes
                         ++ "/" ++ string_of_nat total ++ " locations processed")
                      (phase_data 2 (JInt 55) []) seq in
          let seq := S seq in
          let c4 := status_chunk
                      "Phase 3/3: Creating detailed mission plan with optimized waypoints..."
                      (phase_data 3 (JInt 60) []) seq in
          let seq := S seq in
          let '(g, calls) :=
            _generate_detailed_mission_plan E request structure_data
              geocoded_locations seq (invocations r1) in
          done ([c0; c1; c2] ++ located ++ [c3; c4] ++ relay g seq)%list
               (invocations r1 + calls)
      end
  end.

(** ** [generate_mission_plan_simple] *)

Definition Coordinate_of_json (v : json) : result Coordinate :=
  match v with
  | JObj kwargs => make_Coordinate E kwargs
  | _ => Raise (validation_error "position")
  end.

(** A waypoint given as a dict, as a field of a model validates it. *)
Definition Waypoint_of_json (v : json) : result Waypoint :=
  match v with
  | JObj kwargs =>
      let* id := required "id" kwargs in
      let* t := match assoc_get "type" kwargs with
                | Some t =>
                    match make_WaypointType t with
                    | Ok t => Ok t
                    | Raise _ => Raise (validation_error "type")
                    end
                | None => Ok WAYPOINT
                end in
      let* p := required "position" kwargs in
      let* pos := Coordinate_of_json p in
      let* order := required "order" kwargs in
      make_Waypoint E id t pos order (optional "name" kwargs)
        (optional "speed" kwargs) (optional "loiter_time" kwargs)
        (optional "radius" kwargs) (optional "camera_action" kwargs)
  | _ => Raise (validation_error "waypoints")
  end.

Fixpoint Waypoints_of_json (l : list json) : result (list Waypoint) :=
  match l with
  | [] => Ok []
  | v :: rest =>
      let* w := Waypoint_of_json v in
      let* ws := Waypoints_of_json rest in
      Ok (w :: ws)
  end.

(** [MissionPlan] built from the keyword arguments [kwargs]: the fields
    [id], [name], [description], [waypoints], [estimated_duration] and
    [total_distance] are required; other keys are ignored. *)
Definition MissionPlan_of_kwargs (kwargs : list (string * json)) : result MissionPlan :=
  let* id := required "id" kwargs in
  let* id := str_field E "id" id in
  let* name := required "name" kwargs in
  let* description := required "description" kwargs in
  let* wps := required "waypoints" kwargs in
  let* waypoints := match wps with
                    | JArr l => Waypoints_of_json l
                    | _ => Raise (validation_error "waypoints")
                    end in
  let* duration := required "estimated_duration" kwargs in
  let* distance := required "total_distance" kwargs in
  let* meta := match optional "metadata" kwargs with
               | JNull => Ok None
               | JObj m => Ok (Some (JObj m))
               | _ => Raise (validation_error "metadata")
               end in
  let* p := make_MissionPlan E id name description waypoints duration distance meta in
  match assoc_get "created_at" kwargs with
  | None => Ok p
  | Some v =>
      let* t := str_field E "created_at" v in
      Ok {| plan_id := plan_id p; plan_name := plan_name p;
            plan_description := plan_description p;
            plan_waypoints := plan_waypoints p;
            estimated_duration := estimated_duration p;
            total_distance := total_distance p;
            created_at := t; metadata := metadata p |}
  end.

(** The state of the loop of [generate_mission_plan_simple]. *)
Record simple_state : Type := {
  mission_plan : option MissionPlan;
  reasoning_text : string;
  warnings_list : json
}.

(** [for chunk in self.generate_mission_plan(request)] *)
Fixpoint simple_loop (cs : list StreamingChunk) (st : simple_state)
  : result simple_state :=
  match cs with
  | [] => Ok st
  | chunk :: rest =>
      if chunk_type_eqb (type chunk) reasoning then
        simple_loop rest
          {| mission_plan := mission_plan st;
             reasoning_text := reasoning_text st ++ text_of (content chunk);
             warnings_list := warnings_list st |}
      else if chunk_type_eqb (type chunk) plan_chunk && is_final chunk then
        let* p := match data chunk with
                  | Some (JObj kwargs) => MissionPlan_of_kwargs kwargs
                  | _ => Raise (mk_exn TypeError "argument after ** must be a mapping")
                  end in
        let* meta := match data chunk with
                     | Some d => py_get d "metadata" (JObj [])
                     | None => Raise (mk_exn AttributeError "'NoneType' object has no attribute 'get'")
                     end in
        let* w := py_get meta "warnings" (JArr []) in
        simple_loop rest
          {| mission_plan := Some p;
             reasoning_text := reasoning_text st;
             warnings_list := w |}
      else simple_loop rest st
  end.

Definition generate_mission_plan_simple : result MissionPlanResponse :=
  let* st := simple_loop (chunks generate_mission_plan)
               {| mission_plan := None; reasoning_text := EmptyString;
                  warnings_list := JArr [] |} in
  match mission_plan st with
  | Some p =>
      Ok {| success := true;
            plan := Some p;
            response_reasoning :=
              if include_reasoning request then Some (reasoning_text st) else None;
            warnings := Some (warnings_list st);
            error := None |}
  | None =>
      Ok {| success := false; plan := None; response_reasoning := None;
            warnings := None; error := Some "Failed to generate mission plan" |}
  end.
End Pipeline.

(** * Vocabulary of the properties *)

(** [r] is an exception of kind [k]. *)
Definition fails_with {A : Type} (k : exn_kind) (r : result A) : bool :=
  match r with
  | Ok _ => false
  | Raise e => exn_kind_eqb (exn_type e) k
  end.

(** A wrapped function that fails with a JSON decode error at every
    invocation. *)
Definition always_decode_error {A : Type} (func : nat -> result A) : Prop :=
  forall i, exists e, func i = Raise e /\ is_json_decode_error e = true.

(** A wrapped function that fails at every invocation, never with a JSON
    decode error. *)
Definition always_other_error {A : Type} (func : nat -> result A) : Prop :=
  forall i, exists e, func i = Raise e /\ is_json_decode_error e = false.

(** ** JSON texts

    The shape of a well-formed JSON text, with its white space: a literal
    (a number, true, false or null), a string literal (the characters
    between the quotes, escapes as written), a value with white space around
    it, an array and an object.  The members of an object are pairs of a key
    and a value. *)

Inductive jtext : Type :=
| TLit (lexeme : string)
| TStr (body : string)
| TPad (before : string) (v : jtext) (after : string)
| TArr (pad : string) (items : list jtext)
| TObj (pad : string) (members : list (jtext * jtext)).

Definition quoted (body : string) : string :=
  String Json.dquote (body ++ String Json.dquote EmptyString).

Fixpoint join (sep : string) (l : list string) : string :=
  match l with
  | [] => EmptyString
  | [x] => x
  | x :: rest => x ++ sep ++ join sep rest
  end.

Fixpoint render (t : jtext) : string :=
  match t with
  | TLit lexeme => lexeme
  | TStr body => quoted body
  | TPad before v after => before ++ render v ++ after
  | TArr pad items => "[" ++ pad ++ join "," (map render items) ++ "]"
  | TObj pad members =>
      "{" ++ pad
        ++ join "," (map (fun kv => render (fst kv) ++ ":" ++ render (snd kv)) members)
        ++ "}"
  end.

Definition all_chars (p : ascii -> bool) (s : string) : bool :=
  forallb p (list_ascii_of_string s).

Definition is_brace (c : ascii) : bool := Ascii.eqb c lbrace || Ascii.eqb c rbrace.

Definition no_brace (s : string) : bool := all_chars (fun c => negb (is_brace c)) s.

(** The characters of numbers and of the literals true, false and null. *)
Definition token_char (c : ascii) : bool :=
  let n := nat_of_ascii c in
  ((48 <=? n) && (n <=? 57))%nat || ((97 <=? n) && (n <=? 122))%nat
  || Ascii.eqb c "+" || Ascii.eqb c "-" || Ascii.eqb c "." || Ascii.eqb c "E".

Fixpoint is_key (t : jtext) : bool :=
  match t with
  | TStr _ => true
  | TPad _ v _ => is_key v
  | _ => false
  end.

(** Literals are made of token characters, padding of white space, keys are
    string literals. *)
Fixpoint well_formed (t : jtext) : bool :=
  match t with
  | TLit lexeme => all_chars token_char lexeme
  | TStr _ => true
  | TPad before v after =>
      all_chars Json.is_ws before && well_formed v && all_chars Json.is_ws after
  | TArr pad items => all_chars Json.is_ws pad && forallb well_formed items
  | TObj pad members =>
      all_chars Json.is_ws pad
      && forallb (fun kv => is_key (fst kv) && well_formed (fst kv) && well_formed (snd kv))
           members
  end.

(** No brace inside a string literal, key or value. *)
Fixpoint strings_without_braces (t : jtext) : bool :=
  match t with
  | TLit _ => true
  | TStr body => no_brace body
  | TPad _ v _ => strings_without_braces v
  | TArr _ items => forallb strings_without_braces items
  | TObj _ members =>
      forallb (fun kv => strings_without_braces (fst kv) && strings_without_braces (snd kv))
        members
  end.

Definition is_object (t : jtext) : bool :=
  match t with
  | TObj _ _ => true
  | _ => false
  end.

(** A text the brace counter crosses at a positive depth without effect. *)
Definition neutral (x : string) : Prop :=
  forall rest i d, (1 <= d)%Z ->
    match_brace (x ++ rest) i d = match_brace rest (i + String.length x) d.

Section jtext_induction.
Variable P : jtext -> Prop.
Hypothesis HLit : forall lexeme, P (TLit lexeme).
Hypothesis HStr : forall body, P (TStr body).
Hypothesis HPad : forall before v after, P v -> P (TPad before v after).
Hypothesis HArr : forall pad items, Forall P items -> P (TArr pad items).
Hypothesis HObj : forall pad members,
    Forall (fun kv => P (fst kv) /\ P (snd kv)) members -> P (TObj pad members).

Fixpoint jtext_induction (t : jtext) : P t :=
  match t with
  | TLit lexeme => HLit lexeme
  | TStr body => HStr body
  | TPad before v after => HPad before v after (jtext_induction v)
  | TArr pad items =>
      HArr pad items
        ((fix go (l : list jtext) : Forall P l :=
            match l with
            | [] => Forall_nil P
            | x :: l' => Forall_cons x (jtext_induction x) (go l')
            end) items)
  | TObj pad members =>
      HObj pad members
        ((fix go (l : list (jtext * jtext))
            : Forall (fun kv => P (fst kv) /\ P (snd kv)) l :=
            match l with
            | [] => Forall_nil _
            | kv :: l' =>
                Forall_cons kv
                  (conj (jtext_induction (fst kv)) (jtext_induction (snd kv)))
                  (go l')
            end) members)
  end.
End jtext_induction.


(** The condition of the specification on an embedded object: no closing
    brace inside a string value. *)
Fixpoint values_without_rbrace (t : jtext) : bool :=
  match t with
  | TLit _ => true
  | TStr body => all_chars (fun c => negb (Ascii.eqb c rbrace)) body
  | TPad _ v _ => values_without_rbrace v
  | TArr _ items => forallb values_without_rbrace items
  | TObj _ members => forallb (fun kv => values_without_rbrace (snd kv)) members
  end.

(** The content accumulated when a stream first signals [stop]. *)
Fixpoint accumulated_at_stop (evs : list Chunk) (accumulated_content : string)
  : option string :=
  match evs with
  | [] => None
  | chunk :: rest =>
      match choices chunk with
      | [] => accumulated_at_stop rest accumulated_content
      | choice :: _ =>
          let accumulated_content :=
            accumulated_content ++ text_of (delta_content (delta choice)) in
          if stopped choice then Some accumulated_content
          else accumulated_at_stop rest accumulated_content
      end
  end.

(** What phases 1 and 2 hand over to phase 3, when both succeed. *)
Definition phases_1_2 (E : Env) (request : MissionPlanRequest)
  : result (json * geocoded) :=
  let* structure_data := outcome (_generate_mission_structure E request 0) in
  let* n := count_key_locations structure_data in
  let* geocoded_locations := _geocode_mission_locations E structure_data request in
  Ok (structure_data, geocoded_locations).

(** The text phase 3 parses in a run: the content accumulated at the first
    [stop] of its stream. *)
Definition phase3_text (E : Env) (request : MissionPlanRequest) : option string :=
  match phases_1_2 E request with
  | Raise _ => None
  | Ok (structure_data, geocoded_locations) =>
      match build_detailed_prompt E request structure_data geocoded_locations with
      | Raise _ => None
      | Ok prompt =>
          accumulated_at_stop
            (events (stream_text E
                       (invocations (_generate_mission_structure E request 0))
                       (detailed_args E request prompt)))
            EmptyString
      end
  end.

Definition has_field (v : json) (k : string) : bool :=
  match v with
  | JObj m => match assoc_get k m with Some _ => true | None => false end
  | _ => false
  end.

Definition is_type (t : chunk_type) (c : StreamingChunk) : bool :=
  chunk_type_eqb (type c) t.

(** A chunk of progress: a status or reasoning chunk that is not final. *)
Definition plain (c : StreamingChunk) : bool :=
  negb (is_final c) && (is_type status c || is_type reasoning c).

(** Sequence numbers [start], [start + 1], ... *)
Definition sequenced (start : nat) (cs : list StreamingChunk) : Prop :=
  map sequence cs = seq start (List.length cs).

(** How a stream of chunks closes: not at all, with the plan, or with an
    error. *)
Inductive closing : list StreamingChunk -> Prop :=
| closing_none : closing []
| closing_plan p n : closing [final_plan p n]
| closing_error text n : closing [final_error text n].

(** Chunks of progress with consecutive numbers, then the closing. *)
Definition stream_shape (start : nat) (cs : list StreamingChunk) : Prop :=
  exists body tail,
    cs = (body ++ tail)%list /\ forallb plain body = true /\
    sequenced start cs /\ closing tail.

(** ** Concrete environments

    A scripted LLM (call number [n] gets the [n]-th stream of a list), a
    geocoder with a key but without aiohttp, and the usual coercions. *)

Definition obj (members : list (string * jtext)) : jtext :=
  TObj EmptyString (map (fun kv => (TStr (fst kv), snd kv)) members).

Definition arr (items : list jtext) : jtext := TArr EmptyString items.

Definition structure_json : jtext :=
  obj [("mission_type", TStr "survey");
       ("key_locations", arr [obj [("name", TStr "Field A")]])].

Definition waypoint_json (id kind : string) (order : string) : jtext :=
  obj [("id", TStr id); ("type", TStr kind);
       ("position", obj [("lat", TLit "37.7749"); ("lng", TLit "-122.4194");
                         ("alt", TLit "5")]);
       ("order", TLit order)].

Definition plan_json : jtext :=
  obj [("mission_name", TStr "Field survey");
       ("mission_description", TStr "Survey of field A");
       ("waypoints", arr [waypoint_json "wp_001" "takeoff" "1";
                          waypoint_json "wp_002" "land" "2"]);
       ("estimated_duration", TLit "15.5");
       ("total_distance", TLit "1200")].

(** A plan without the field [waypoints]. *)
Definition plan_json_without_waypoints : jtext :=
  obj [("mission_name", TStr "Field survey");
       ("mission_description", TStr "Survey of field A");
       ("estimated_duration", TLit "15.5");
       ("total_distance", TLit "1200")].

Definition event (text : option string) (thought : option string)
    (finish : option string) : Chunk :=
  {| choices := [{| delta := {| delta_content := text; delta_reasoning := thought |};
                    finish_reason := finish |}] |}.

(** A stream that delivers [text] in one event and stops normally. *)
Definition says (text : string) : llm_stream :=
  {| events := [event (Some text) None None; event None None (Some "stop")];
     failure := None |}.

(** A stream cut by the token limit: it ends with the reason [length]. *)
Definition cut_off (text : string) : llm_stream :=
  {| events := [event (Some text) None None; event None None (Some "length")];
     failure := None |}.

Definition int_of (v : json) : option Z :=
  match v with
  | JInt z => Some z
  | _ => None
  end.

Definition str_of (v : json) : option string :=
  match v with
  | JStr s => Some s
  | _ => None
  end.

Definition scripted (streams : list llm_stream) (otherwise : llm_stream) : Env :=
  {| stream_text := fun n _ => nth n streams otherwise;
     OPENROUTER_API_MODEL := None;
     GOOGLE_MAPS_API_KEY := Some "key";
     aiohttp_installed := false;
     http_get := fun _ => HttpFails (mk_exn UpstreamError "unreachable");
     uuid4 := fun n => "uuid-" ++ string_of_nat n;
     utcnow := "2025-01-01T00:00:00";
     structure_system_prompt := "You are an expert drone mission planner analyzing mission requirements.";
     detailed_system_prompt := "You are an expert drone mission planner creating detailed flight plans.";
     build_structure_prompt := fun request => description (objective request);
     build_detailed_prompt := fun request _ _ => Ok (description (objective request));
     to_float := num_of;
     to_int := int_of;
     to_str := str_of;
     format_value := fun _ => "?" |}.

Definition survey_request : MissionPlanRequest :=
  {| objective := {| description := "Survey field A";
                     priority := "medium";
                     constraints := None |};
     start_position := None;
     area_of_interest := None;
     drone_capabilities := None;
     environment := None;
     existing_waypoints := None;
     model := None;
     include_reasoning := false |}.

(** Both calls of the LLM answer well. *)
Definition env_success : Env :=
  scripted [says ("Here is the analysis: " ++ render structure_json);
            says (render plan_json)]
           (says EmptyString).

(** The answer of phase 3 is cut by the token limit. *)
Definition env_cut_off : Env :=
  scripted [says (render structure_json); cut_off (render plan_json)]
           (says EmptyString).

(** The answer of phase 3 is an unfinished JSON text; a further call would
    give the whole plan. *)
Definition env_unfinished_plan : Env :=
  scripted [says (render structure_json);
            says "{ unfinished";
            says (render plan_json)]
           (says (render plan_json)).

(** The LLM never answers with JSON. *)
Definition env_prose_only : Env :=
  scripted [] (says "I cannot help with that.").

(** The LLM always answers with an unfinished JSON text. *)
Definition env_unfinished_always : Env :=
  scripted [] (says "{ unfinished").

(** The plan of phase 3 has no waypoints. *)
Definition env_without_waypoints : Env :=
  scripted [says (render structure_json); says (render plan_json_without_waypoints)]
           (says EmptyString).

(** A wrapped function that fails with a JSON decode error each time, with
    the number of the invocation as message. *)
Definition failing (i : nat) : result json :=
  Raise (mk_exn JSONDecodeError (string_of_nat i)).

(** The body of a successful geocoding reply that locates a place at [c]. *)
Definition geocoding_reply (c : coords) : json :=
  JObj [("status", JStr "OK");
        ("results",
          JArr [JObj [("geometry",
                        JObj [("location",
                                JObj [("lat", fst c); ("lng", snd c)])])]])].

(** * Further vocabulary and models *)

(** The sum of a list of delays. *)
Definition total (l : list Q) : Q := fold_right Qplus 0%Q l.

(** [d.get(k)] on the dict of geocoded locations. *)
Definition dict_get (k : json) (d : geocoded) : option (option coords) :=
  match List.find (fun kv => py_key_eqb k (fst kv)) d with
  | Some kv => Some (snd kv)
  | None => None
  end.

(** A key location as the prompt of phase 1 asks for it: an object whose
    name, if any, is a string. *)
Definition named (location : json) : bool :=
  match location with
  | JObj m =>
      match assoc_get "name" m with
      | None => true
      | Some (JStr _) => true
      | Some _ => false
      end
  | _ => false
  end.

Definition is_resolved (kv : json * option coords) : bool :=
  match snd kv with
  | Some _ => true
  | None => false
  end.

(** A request with a start position, and a structure analysis in which the
    LLM names a key location start_position and one more place. *)
Definition request_from_pier : MissionPlanRequest :=
  {| objective := objective survey_request;
     start_position := Some {| lat := 378 # 10; lng := - 1224 # 10; alt := None |};
     area_of_interest := Some [{| lat := 379 # 10; lng := - 1225 # 10; alt := None |}];
     drone_capabilities := None;
     environment := None;
     existing_waypoints := None;
     model := None;
     include_reasoning := false |}.

Definition structure_with_start : json :=
  JObj [("key_locations",
          JArr [JObj [("name", JStr "start_position")];
                JObj [("name", JStr "Field A")];
                JObj [("purpose", JStr "waypoint")]])].

(** An environment whose geocoder has a key and aiohttp but never gets a
    reply. *)
Definition env_geocoder_down : Env :=
  {| stream_text := stream_text env_success;
     OPENROUTER_API_MODEL := None;
     GOOGLE_MAPS_API_KEY := Some "key";
     aiohttp_installed := true;
     http_get := fun _ => HttpFails (mk_exn UpstreamError "unreachable");
     uuid4 := uuid4 env_success;
     utcnow := utcnow env_success;
     structure_system_prompt := structure_system_prompt env_success;
     detailed_system_prompt := detailed_system_prompt env_success;
     build_structure_prompt := build_structure_prompt env_success;
     build_detailed_prompt := build_detailed_prompt env_success;
     to_float := num_of;
     to_int := int_of;
     to_str := str_of;
     format_value := format_value env_success |}.

(** The stream phase 3 reads in a run, when the run gets that far. *)
Definition phase3_stream (E : Env) (request : MissionPlanRequest) : option llm_stream :=
  match phases_1_2 E request with
  | Raise _ => None
  | Ok (structure_data, geocoded_locations) =>
      match build_detailed_prompt E request structure_data geocoded_locations with
      | Raise _ => None
      | Ok prompt =>
          Some (stream_text E
                  (invocations (_generate_mission_structure E request 0))
                  (detailed_args E request prompt))
      end
  end.

(** The non-empty reasoning deltas of a stream, up to its first [stop]. *)
Fixpoint thoughts_of (evs : list Chunk) : list string :=
  match evs with
  | [] => []
  | chunk :: rest =>
      match choices chunk with
      | [] => thoughts_of rest
      | choice :: _ =>
          let r := text_of (delta_reasoning (delta choice)) in
          let more := if stopped choice then [] else thoughts_of rest in
          if String.eqb r EmptyString then more else r :: more
      end
  end.

(** The constraints of the fields of [Coordinate] and [Waypoint]. *)
Definition nonneg (o : option Q) : bool :=
  match o with
  | Some q => Qle_bool 0 q
  | None => true
  end.

Definition Coordinate_valid (c : Coordinate) : bool :=
  Qle_bool (-90) (lat c) && Qle_bool (lat c) 90
  && Qle_bool (-180) (lng c) && Qle_bool (lng c) 180
  && nonneg (alt c).

Definition Waypoint_valid (w : Waypoint) : bool :=
  Coordinate_valid (wp_position w) && (0 <=? wp_order w)%Z
  && nonneg (wp_speed w) && nonneg (wp_loiter_time w) && nonneg (wp_radius w).

(** A chunk whose data has the key waypoint. *)
Definition carries_waypoint (c : StreamingChunk) : bool :=
  match data c with
  | Some d => has_field d "waypoint"
  | None => false
  end.

(** A chunk that is neither a plan chunk nor carries a waypoint. *)
Definition quiet (c : StreamingChunk) : bool :=
  negb (is_type plan_chunk c) && negb (carries_waypoint c).

(** ** The route [POST /mission-planning/generate-plan] *)

Inductive route_outcome : Type :=
| Responds (response : MissionPlanResponse)
| HTTPException (status_code : nat) (detail : string)
| Unhandled (e : exn).

(** [response.error or "Failed to generate mission plan"] *)
Definition detail_of (response : MissionPlanResponse) : string :=
  match error response with
  | None => "Failed to generate mission plan"
  | Some EmptyString => "Failed to generate mission plan"
  | Some s => s
  end.

Definition generate_mission_plan_route (E : Env) (request : MissionPlanRequest)
  : route_outcome :=
  match generate_mission_plan_simple E request with
  | Raise e => Unhandled e
  | Ok response =>
      if negb (success response) then HTTPException 500 (detail_of response)
      else Responds response
  end.

(** The keyword arguments a dict gives to a constructor. *)
Definition fields (v : json) : list (string * json) :=
  match v with
  | JObj m => m
  | _ => []
  end.

(** [Optional[Dict[str, Any]]] *)
Definition is_dict_or_none (o : option json) : bool :=
  match o with
  | None => true
  | Some (JObj _) => true
  | Some _ => false
  end.

(** A plan to export: a take-off at ground level, a point without
    altitude and a landing. *)
Definition pier_plan : MissionPlan :=
  {| plan_id := "plan-1";
     plan_name := "Pier survey";
     plan_description := "Survey of the pier";
     plan_waypoints :=
       [{| wp_id := "wp-1"; wp_type := TAKEOFF;
           wp_position := {| lat := 378 # 10; lng := - 1224 # 10; alt := Some 0%Q |};
           wp_order := 0; wp_name := Some "Start"; wp_speed := None;
           wp_loiter_time := None; wp_radius := None; wp_camera_action := None |};
        {| wp_id := "wp-2"; wp_type := SURVEY;
           wp_position := {| lat := 379 # 10; lng := - 1225 # 10; alt := None |};
           wp_order := 5; wp_name := None; wp_speed := Some (5%Q);
           wp_loiter_time := Some (20%Q); wp_radius := None;
           wp_camera_action := Some "photo" |};
        {| wp_id := "wp-3"; wp_type := LAND;
           wp_position := {| lat := 378 # 10; lng := - 1224 # 10; alt := Some (40%Q) |};
           wp_order := 6; wp_name := None; wp_speed := None;
           wp_loiter_time := None; wp_radius := None; wp_camera_action := None |}];
     estimated_duration := 12;
     total_distance := 900;
     created_at := "2024-01-01T00:00:00";
     metadata := Some (JObj [("warnings", JArr [])]) |}.

(** ** The exports of [services/export.py] *)

(** [mavlink_commands.get(waypoint_type, 16)] *)
Definition _get_mavlink_command (waypoint_type : string) : Z :=
  match assoc_get waypoint_type
          [("takeoff", 22%Z); ("waypoint", 16%Z); ("land", 21%Z);
           ("loiter", 17%Z); ("orbit", 18%Z); ("survey", 16%Z)] with
  | Some command => command
  | None => 16%Z
  end.

(** [x or d] for an optional float [x]: [None] and 0.0 give [d]. *)
Definition or_else (x : option Q) (d : Q) : Q :=
  match x with
  | Some q => if Qeq_bool q 0 then d else q
  | None => d
  end.

(** The same as a JSON value, where the default is an integer. *)
Definition json_or (x : option Q) (d : Z) : json :=
  match x with
  | Some q => if Qeq_bool q 0 then JInt d else JFloat q
  | None => JInt d
  end.

(** The body of the loop of [export_mission_for_drone]. *)
Definition drone_waypoint (waypoint : Waypoint) : json :=
  JObj [("seq", JInt (wp_order waypoint));
        ("frame", JInt 3);
        ("command", JInt (_get_mavlink_command (WaypointType_value (wp_type waypoint))));
        ("current", JInt (if (wp_order waypoint =? 0)%Z then 1 else 0));
        ("autocontinue", JInt 1);
        ("param1", json_or (wp_loiter_time waypoint) 0);
        ("param2", json_or (wp_radius waypoint) 0);
        ("param3", JInt 0);
        ("param4", JInt 0);
        ("x", JFloat (lat (wp_position waypoint)));
        ("y", JFloat (lng (wp_position waypoint)));
        ("z", json_or (alt (wp_position waypoint)) 30);
        ("mission_type", JInt 0)].

Definition export_mission_for_drone (mission_plan : MissionPlan) : result json :=
  let drone_waypoints := map drone_waypoint (plan_waypoints mission_plan) in
  let* first :=
    match plan_waypoints mission_plan with
    | w :: _ => Ok w
    | [] => Raise (mk_exn IndexError "list index out of range")
    end in
  Ok (JObj
        [("fileType", JStr "Mission");
         ("geoFence", JObj [("circles", JArr []); ("polygons", JArr [])]);
         ("groundStation", JStr "QGroundControl");
         ("mission",
           JObj [("cruiseSpeed", JInt 15);
                 ("firmwareType", JInt 12);
                 ("globalPlanAltitudeMode", JInt 1);
                 ("hoverSpeed", JInt 5);
                 ("items", JArr drone_waypoints);
                 ("plannedHomePosition",
                   JArr [JFloat (lat (wp_position first));
                         JFloat (lng (wp_position first));
                         json_or (alt (wp_position first)) 0]);
                 ("vehicleType", JInt 2);
                 ("version", JInt 2)]);
         ("ralliePoints", JObj [("points", JArr [])]);
         ("version", JInt 1)]).

(** A line of a .waypoints file, before its numbers are formatted. *)
Record wpl_row : Type := {
  row_seq : nat;
  row_current : nat;
  row_frame : nat;
  row_command : Z;
  row_param1 : Q;
  row_param2 : Q;
  row_param3 : Q;
  row_param4 : Q;
  row_lat : Q;
  row_lng : Q;
  row_alt : Q;
  row_autocontinue : nat
}.

Definition home_row (mission_plan : MissionPlan) : wpl_row :=
  let '(home_lat, home_lng) :=
    match plan_waypoints mission_plan with
    | first_waypoint :: _ =>
        (lat (wp_position first_waypoint), lng (wp_position first_waypoint))
    | [] => (377749 # 10000, - 1224194 # 10000)%Q
    end in
  {| row_seq := 0; row_current := 1; row_frame := 0; row_command := 16;
     row_param1 := 0; row_param2 := 0; row_param3 := 0; row_param4 := 0;
     row_lat := home_lat; row_lng := home_lng; row_alt := 0;
     row_autocontinue := 1 |}.

(** The body of the loop of [export_mission_waypoints]. *)
Definition waypoint_row (i : nat) (waypoint : Waypoint) : wpl_row :=
  let '(param1, param2, param3, param4) :=
    match wp_type waypoint with
    | TAKEOFF => (0, 0, 0, 0)
    | LAND => (0, 0, 0, 0)
    | WAYPOINT => (or_else (wp_loiter_time waypoint) 0, 0, 0, 0)
    | LOITER => (or_else (wp_loiter_time waypoint) 10, 0,
                 or_else (wp_radius waypoint) 0, 0)
    | ORBIT => (or_else (wp_radius waypoint) 10,
                or_else (wp_loiter_time waypoint) 1, 0, 0)
    | SURVEY => (0, 0, 0, 0)
    end%Q in
  {| row_seq := i; row_current := 0; row_frame := 3;
     row_command := _get_mavlink_command (WaypointType_value (wp_type waypoint));
     row_param1 := param1; row_param2 := param2; row_param3 := param3;
     row_param4 := param4;
     row_lat := lat (wp_position waypoint);
     row_lng := lng (wp_position waypoint);
     row_alt := or_else (alt (wp_position waypoint)) 50;
     row_autocontinue := 1 |}.

(** [for i, waypoint in enumerate(mission_plan.waypoints, 1)] *)
Fixpoint waypoint_rows_from (i : nat) (waypoints : list Waypoint) : list wpl_row :=
  match waypoints with
  | [] => []
  | wp :: rest => waypoint_row i wp :: waypoint_rows_from (S i) rest
  end.

Definition waypoint_rows (mission_plan : MissionPlan) : list wpl_row :=
  home_row mission_plan :: waypoint_rows_from 1 (plan_waypoints mission_plan).

Section WaypointsFile.
(** [f"{x:.6f}"] and [f"{x:.8f}"]: the text of a float with the given
    number of decimals. *)
Variable format_float : nat -> Q -> string.

Definition tab : string := String (ascii_of_nat 9) EmptyString.
Definition newline : string := String (ascii_of_nat 10) EmptyString.

Definition string_of_Z (z : Z) : string :=
  match z with
  | Zneg p => "-" ++ string_of_nat (Pos.to_nat p)
  | _ => string_of_nat (Z.to_nat z)
  end.

Definition waypoint_line (r : wpl_row) : string :=
  join tab
    [string_of_nat (row_seq r); string_of_nat (row_current r);
     string_of_nat (row_frame r); string_of_Z (row_command r);
     format_float 6 (row_param1 r); format_float 6 (row_param2 r);
     format_float 6 (row_param3 r); format_float 6 (row_param4 r);
     format_float 8 (row_lat r); format_float 8 (row_lng r);
     format_float 6 (row_alt r); string_of_nat (row_autocontinue r)].

Definition export_mission_waypoints (mission_plan : MissionPlan) : string :=
  join newline ("QGC WPL 110" :: map waypoint_line (waypoint_rows mission_plan)).
End WaypointsFile.

(** The mission items of an export, and a number of an item. *)
Definition items_of (v : json) : list json :=
  match (let* mission := py_getitem v "mission" in
         let* items := py_getitem mission "items" in
         py_iter items) with
  | Ok items => items
  | Raise _ => []
  end.

Definition number_at (k : string) (item : json) : option Q :=
  match py_getitem item k with
  | Ok v => num_of v
  | Raise _ => None
  end.

(** ** Progress *)

(** The value under the key progress in the data of a chunk. *)
Definition progress_of (c : StreamingChunk) : option Q :=
  match data c with
  | Some (JObj m) =>
      match assoc_get "progress" m with
      | Some v => num_of v
      | None => None
      end
  | _ => None
  end.

Definition progress_values (cs : list StreamingChunk) : list Q :=
  flat_map (fun c => match progress_of c with
                     | Some q => [q]
                     | None => []
                     end) cs.

(** [lo <= q1 <= q2 <= ... <= qn <= hi] *)
Fixpoint climbs (lo hi : Q) (l : list Q) : Prop :=
  match l with
  | [] => (lo <= hi)%Q
  | q :: rest => (lo <= q)%Q /\ climbs q hi rest
  end.

(** * Properties *)

(** ** The retry wrapper *)

Section RetryFacts.
Context {A : Type}.
Variable max_retries : nat.
Variables base_delay max_delay backoff_factor : Q.
Variable func : nat -> result A.

Let loop := attempts max_retries max_delay backoff_factor func.
Let next (delay : Q) : Q := Qmin (delay * backoff_factor) max_delay.

Lemma attempts_S n attempt delay last :
  loop (S n) attempt delay last =
  invoked
    match func attempt with
    | Ok v => finished (Ok v)
    | Raise e =>
        if is_json_decode_error e then
          if (attempt <? max_retries)%nat then
            sleep delay (loop n (S attempt) (next delay) (Some e))
          else loop n (S attempt) delay (Some e)
        else
          if (attempt <? Nat.min 2 max_retries)%nat then
            sleep delay (loop n (S attempt) (next delay) (Some e))
          else finished (Raise e)
    end.
Proof. reflexivity. Qed.

Lemma attempts_decode_errors n :
  always_decode_error func ->
  forall attempt delay last,
    invocations (loop (S n) attempt delay last) = S n /\
    outcome (loop (S n) attempt delay last) = func (attempt + n).
Proof.
  intros Hf. induction n as [|n IH]; intros attempt delay last.
  - destruct (Hf attempt) as [e [He Hj]].
    unfold loop. simpl. rewrite He, Hj.
    rewrite Nat.add_0_r, He.
    destruct (attempt <? max_retries)%nat; simpl; auto.
  - destruct (Hf attempt) as [e [He Hj]].
    rewrite attempts_S, He, Hj.
    replace (attempt + S n) with (S attempt + n) by lia.
    destruct (attempt <? max_retries)%nat.
    + destruct (IH (S attempt) (next delay) (Some e)) as [H1 H2].
      cbn [invoked sleep invocations outcome].
      rewrite H1, H2. auto.
    + destruct (IH (S attempt) delay (Some e)) as [H1 H2].
      cbn [invoked invocations outcome].
      rewrite H1, H2. auto.
Qed.

Lemma attempts_other_errors :
  always_other_error func ->
  forall n attempt delay last,
    attempt <= Nat.min 2 max_retries ->
    Nat.min 2 max_retries - attempt < n ->
    invocations (loop n attempt delay last) = S (Nat.min 2 max_retries - attempt) /\
    outcome (loop n attempt delay last) = func (Nat.min 2 max_retries).
Proof.
  intros Hf. induction n as [|n IH]; intros attempt delay last Hle Hlt; [lia|].
  destruct (Hf attempt) as [e [He Hj]].
  rewrite attempts_S, He, Hj.
  destruct (attempt <? Nat.min 2 max_retries)%nat eqn:Hc.
  - apply Nat.ltb_lt in Hc.
    destruct (IH (S attempt) (next delay) (Some e)) as [H1 H2]; [lia|lia|].
    cbn [invoked sleep invocations outcome].
    rewrite H1, H2. split; [lia|auto].
  - apply Nat.ltb_ge in Hc.
    assert (attempt = Nat.min 2 max_retries) by lia. subst attempt.
    cbn [invoked finished invocations outcome]. rewrite Nat.sub_diag. auto.
Qed.

(** The delays slept are the first terms of the backoff sequence. *)
Lemma slept_schedule n :
  forall attempt delay last j d,
    nth_error (slept (loop n attempt delay last)) j = Some d ->
    d = Nat.iter j next delay.
Proof.
  induction n as [|n IH]; intros attempt delay last j d.
  - simpl. destruct j; discriminate.
  - rewrite attempts_S.
    assert (Hsleep : forall l,
      nth_error (slept (sleep delay (loop n (S attempt) (next delay) l))) j = Some d ->
      d = Nat.iter j next delay).
    { intros l. cbn [sleep slept]. destruct j as [|j]; simpl.
      - congruence.
      - intros H. apply IH in H. rewrite H.
        clear. induction j; simpl; congruence. }
    destruct (func attempt) as [v|e]; cbn [invoked slept].
    + simpl. destruct j; discriminate.
    + destruct (is_json_decode_error e).
      * destruct (attempt <? max_retries)%nat.
        -- apply Hsleep.
        -- apply IH.
      * destruct (attempt <? Nat.min 2 max_retries)%nat.
        -- apply Hsleep.
        -- simpl. destruct j; discriminate.
Qed.

(** One sleep between two consecutive invocations, none after the last. *)
Lemma sleeps_between_invocations n :
  forall attempt delay last,
    attempt + S n = max_retries + 1 ->
    invocations (loop (S n) attempt delay last)
    = S (List.length (slept (loop (S n) attempt delay last))).
Proof.
  induction n as [|n IH]; intros attempt delay last Hn.
  - rewrite attempts_S. unfold loop. cbn [attempts].
    destruct (func attempt) as [v|e]; [reflexivity|].
    assert (Hlt : (attempt <? max_retries)%nat = false) by (apply Nat.ltb_ge; lia).
    assert (Hlt' : (attempt <? Nat.min 2 max_retries)%nat = false) by (apply Nat.ltb_ge; lia).
    rewrite Hlt, Hlt'. destruct (is_json_decode_error e); reflexivity.
  - rewrite (attempts_S (S n)).
    destruct (func attempt) as [v|e]; [reflexivity|].
    assert (Hlt : (attempt <? max_retries)%nat = true) by (apply Nat.ltb_lt; lia).
    rewrite Hlt.
    destruct (is_json_decode_error e).
    + cbn [invoked sleep invocations slept length]. f_equal.
      apply (IH (S attempt)). lia.
    + destruct (attempt <? Nat.min 2 max_retries)%nat; [|reflexivity].
      cbn [invoked sleep invocations slept length]. f_equal.
      apply (IH (S attempt)). lia.
Qed.
End RetryFacts.


Lemma append_length (a b : string) :
  String.length (a ++ b) = String.length a + String.length b.
Proof. induction a; simpl; auto. Qed.

Lemma append_assoc (a b c : string) : (a ++ b) ++ c = a ++ b ++ c.
Proof. induction a; simpl; congruence. Qed.

Lemma drop_append (a b : string) : drop (String.length a) (a ++ b) = b.
Proof. induction a; simpl; auto. Qed.

Lemma substring_prefix (b c : string) :
  substring 0 (String.length b) (b ++ c) = b.
Proof.
  induction b; simpl.
  - destruct c; reflexivity.
  - now rewrite IHb.
Qed.

Lemma substring_middle (a b c : string) :
  substring (String.length a) (String.length b) (a ++ b ++ c) = b.
Proof.
  induction a; simpl.
  - apply substring_prefix.
  - exact IHa.
Qed.

Lemma find_append (c : ascii) (a rest : string) :
  find c a = None -> find c (a ++ String c rest) = Some (String.length a).
Proof.
  induction a as [|x a IH]; simpl.
  - now rewrite Ascii.eqb_refl.
  - destruct (Ascii.eqb x c); [discriminate|].
    destruct (find c a); [discriminate|].
    intros _. now rewrite IH.
Qed.

Lemma all_chars_weaken (p q : ascii -> bool) (s : string) :
  (forall c, p c = true -> q c = true) ->
  all_chars p s = true -> all_chars q s = true.
Proof.
  intros Hpq. unfold all_chars. rewrite !forallb_forall. auto.
Qed.

Lemma ws_no_brace (s : string) : all_chars Json.is_ws s = true -> no_brace s = true.
Proof.
  apply all_chars_weaken. intros c.
  destruct c as [[] [] [] [] [] [] [] []]; vm_compute; congruence.
Qed.

Lemma token_no_brace (s : string) : all_chars token_char s = true -> no_brace s = true.
Proof.
  apply all_chars_weaken. intros c.
  destruct c as [[] [] [] [] [] [] [] []]; vm_compute; congruence.
Qed.

Lemma neutral_no_brace (x : string) : no_brace x = true -> neutral x.
Proof.
  unfold neutral, no_brace, all_chars.
  induction x as [|c x IH]; simpl; intros H rest i d Hd.
  - now rewrite Nat.add_0_r.
  - apply andb_true_iff in H. destruct H as [Hc Hx].
    unfold is_brace in Hc. apply negb_true_iff, orb_false_iff in Hc.
    destruct Hc as [Hl Hr]. rewrite Hl, Hr.
    rewrite (IH Hx) by assumption. f_equal. lia.
Qed.

Lemma neutral_append (x y : string) : neutral x -> neutral y -> neutral (x ++ y).
Proof.
  intros Hx Hy rest i d Hd.
  rewrite append_assoc, Hx, Hy by assumption.
  rewrite append_length. f_equal. lia.
Qed.

Lemma neutral_empty : neutral EmptyString.
Proof. now apply neutral_no_brace. Qed.

Lemma neutral_join (sep : string) (l : list string) :
  neutral sep -> Forall neutral l -> neutral (join sep l).
Proof.
  intros Hsep Hl. induction Hl as [|x l Hx Hl IH].
  - apply neutral_empty.
  - destruct l as [|y l].
    + exact Hx.
    + change (join sep (x :: y :: l)) with (x ++ sep ++ join sep (y :: l)).
      auto using neutral_append.
Qed.

Lemma neutral_block (x : string) :
  neutral x -> neutral (String lbrace (x ++ String rbrace EmptyString)).
Proof.
  intros Hx rest i d Hd.
  cbn [append match_brace]. rewrite Ascii.eqb_refl.
  rewrite append_assoc, Hx by lia.
  cbn [append match_brace].
  replace (Ascii.eqb rbrace lbrace) with false by reflexivity.
  rewrite Ascii.eqb_refl.
  replace (d + 1 - 1 =? 0)%Z with false by (symmetry; apply Z.eqb_neq; lia).
  replace (d + 1 - 1)%Z with d by lia.
  cbn [String.length]. rewrite append_length. cbn [String.length].
  f_equal. lia.
Qed.

Lemma quoted_no_brace (body : string) : no_brace body = true -> no_brace (quoted body) = true.
Proof.
  unfold quoted, no_brace, all_chars. intros H.
  cbn [list_ascii_of_string forallb]. apply andb_true_iff. split; [reflexivity|].
  induction body as [|c b IH]; simpl in *.
  - reflexivity.
  - apply andb_true_iff in H. destruct H as [Hc Hb].
    rewrite Hc. simpl. auto.
Qed.

Lemma render_neutral (t : jtext) :
  well_formed t = true -> strings_without_braces t = true -> neutral (render t).
Proof.
  induction t as [lexeme|body|before v after IH|pad items IH|pad members IH]
    using jtext_induction; cbn [well_formed strings_without_braces render];
    intros Hwf Hs.
  - now apply neutral_no_brace, token_no_brace.
  - now apply neutral_no_brace, quoted_no_brace.
  - apply andb_true_iff in Hwf. destruct Hwf as [Hwf Ha].
    apply andb_true_iff in Hwf. destruct Hwf as [Hb Hv].
    auto using neutral_append, neutral_no_brace, ws_no_brace.
  - apply andb_true_iff in Hwf. destruct Hwf as [Hp Hi].
    change (neutral ("[" ++ pad ++ join "," (map render items) ++ "]")).
    repeat apply neutral_append;
      try (apply neutral_no_brace; reflexivity);
      try (now apply neutral_no_brace, ws_no_brace).
    apply neutral_join; [apply neutral_no_brace; reflexivity|].
    rewrite forallb_forall in Hi, Hs. rewrite Forall_forall in IH.
    apply Forall_forall. intros x Hx.
    apply in_map_iff in Hx. destruct Hx as [t [<- Ht]]. auto.
  - apply andb_true_iff in Hwf. destruct Hwf as [Hp Hm].
    rewrite <- (append_assoc pad).
    apply (neutral_block (pad ++ join ","
             (map (fun kv => render (fst kv) ++ ":" ++ render (snd kv)) members))).
    apply neutral_append; [now apply neutral_no_brace, ws_no_brace|].
    apply neutral_join; [apply neutral_no_brace; reflexivity|].
    rewrite forallb_forall in Hm, Hs. rewrite Forall_forall in IH.
    apply Forall_forall. intros x Hx.
    apply in_map_iff in Hx. destruct Hx as [kv [<- Hkv]].
    specialize (Hm kv Hkv). specialize (Hs kv Hkv). specialize (IH kv Hkv).
    apply andb_true_iff in Hm. destruct Hm as [Hm Hv].
    apply andb_true_iff in Hm. destruct Hm as [_ Hk].
    apply andb_true_iff in Hs. destruct Hs as [Hsk Hsv].
    destruct IH as [IHk IHv].
    repeat apply neutral_append; auto.
    apply neutral_no_brace; reflexivity.
Qed.

(** The brace counter started on an object stops right behind it. *)
Lemma match_brace_object (pad : string) (members : list (jtext * jtext))
    (rest : string) (i : nat) :
  well_formed (TObj pad members) = true ->
  strings_without_braces (TObj pad members) = true ->
  match_brace (render (TObj pad members) ++ rest) i 0
  = Some (i + String.length (render (TObj pad members))).
Proof.
  intros Hwf Hs.
  assert (Hn : neutral (pad ++ join ","
            (map (fun kv => render (fst kv) ++ ":" ++ render (snd kv)) members))).
  { cbn [well_formed strings_without_braces] in Hwf, Hs.
    apply andb_true_iff in Hwf. destruct Hwf as [Hp Hm].
    apply neutral_append; [now apply neutral_no_brace, ws_no_brace|].
    apply neutral_join; [apply neutral_no_brace; reflexivity|].
    rewrite forallb_forall in Hm, Hs.
    apply Forall_forall. intros x Hx.
    apply in_map_iff in Hx. destruct Hx as [kv [<- Hkv]].
    specialize (Hm kv Hkv). specialize (Hs kv Hkv).
    apply andb_true_iff in Hm. destruct Hm as [Hm Hv].
    apply andb_true_iff in Hm. destruct Hm as [_ Hk].
    apply andb_true_iff in Hs. destruct Hs as [Hsk Hsv].
    repeat apply neutral_append; auto using render_neutral.
    apply neutral_no_brace; reflexivity. }
  cbn [render]. rewrite <- (append_assoc pad).
  set (inner := pad ++ _) in *.
  cbn [append match_brace]. rewrite Ascii.eqb_refl.
  rewrite append_assoc, Hn by lia.
  cbn [append match_brace].
  replace (Ascii.eqb rbrace lbrace) with false by reflexivity.
  rewrite Ascii.eqb_refl. cbn.
  f_equal. rewrite append_length. simpl. lia.
Qed.

Lemma json_text_embedded (pre obj post : string) :
  find lbrace pre = None ->
  match_brace (obj ++ post) (String.length pre) 0
  = Some (String.length pre + String.length obj) ->
  json_text (pre ++ obj ++ post) (String.length pre) = obj.
Proof.
  intros _ Hm. unfold json_text. rewrite drop_append, Hm.
  unfold slice. rewrite Nat.add_comm, Nat.add_sub.
  apply substring_middle.
Qed.

Lemma loads_raises_decode_error (s : string) (e : exn) :
  Json.loads s = Raise e -> is_json_decode_error e = true.
Proof.
  unfold Json.loads.
  destruct (Json.parse_value _ _) as [[v r]|]; [destruct (Json.skip_ws r)|];
    intros H; inversion H; reflexivity.
Qed.

(** An embedded object whose braces are only those of its objects is cut
    out exactly: both extractions hand the text of the object to the
    decoder, the one of phase 3 unless the direct parse of the whole text
    succeeds. *)
Lemma extraction_cuts_out_the_object (t : jtext) (pre post : string) :
  is_object t = true ->
  well_formed t = true ->
  strings_without_braces t = true ->
  find lbrace pre = None ->
  parse_structure (pre ++ render t ++ post) = Json.loads (render t) /\
  (is_ok (Json.loads (pre ++ render t ++ post)) = false ->
   parse_plan (pre ++ render t ++ post) = Json.loads (render t)).
Proof.
  intros Hobj Hwf Hs Hpre.
  destruct t as [| | | |pad members]; try discriminate.
  assert (Hfind : find lbrace (pre ++ render (TObj pad members) ++ post)
                  = Some (String.length pre)).
  { cbn [render append]. now apply find_append. }
  assert (Htext : json_text (pre ++ render (TObj pad members) ++ post) (String.length pre)
                  = render (TObj pad members)).
  { apply json_text_embedded; [assumption|]. now apply match_brace_object. }
  split.
  - unfold parse_structure. now rewrite Hfind, Htext.
  - unfold parse_plan. intros Hdirect.
    destruct (Json.loads (pre ++ _)) as [v|e] eqn:Hl; [discriminate|].
    rewrite (loads_raises_decode_error _ _ Hl), Hfind, Htext. reflexivity.
Qed.

(** C8 (amended).  Take a well-formed JSON object, decoded to [original]
    when it stands alone, with no brace, opening or closing, inside its
    string literals (keys and values), embedded in a text whose part before
    the object has no opening brace.  The extraction of phase 1 (the search
    for the block of braces) recovers [original], and so does the extraction
    of phase 3 (direct parse first) whenever the direct parse of the whole
    text fails. *)
Theorem C8_extraction_of_embedded_object (t : jtext) (original : json)
    (pre post : string) :
  is_object t = true ->
  well_formed t = true ->
  Json.loads (render t) = Ok original ->
  strings_without_braces t = true ->
  find lbrace pre = None ->
  parse_structure (pre ++ render t ++ post) = Ok original /\
  (is_ok (Json.loads (pre ++ render t ++ post)) = false ->
   parse_plan (pre ++ render t ++ post) = Ok original).
Proof.
  intros Hobj Hwf Hv Hs Hpre. rewrite <- Hv.
  now apply extraction_cuts_out_the_object.
Qed.

Lemma C8_extraction_of_embedded_object_witness :
  (is_object structure_json = true /\
   well_formed structure_json = true /\
   Json.loads (render structure_json)
   = Ok (JObj [("mission_type", JStr "survey");
               ("key_locations", JArr [JObj [("name", JStr "Field A")]])]) /\
   strings_without_braces structure_json = true /\
   find lbrace "Here is the analysis: " = None) /\
  parse_structure ("Here is the analysis: " ++ render structure_json ++ " Fly safe!")
  = Ok (JObj [("mission_type", JStr "survey");
              ("key_locations", JArr [JObj [("name", JStr "Field A")]])]) /\
  (is_ok (Json.loads ("Here is the analysis: " ++ render structure_json ++ " Fly safe!"))
   = false ->
   parse_plan ("Here is the analysis: " ++ render structure_json ++ " Fly safe!")
   = Ok (JObj [("mission_type", JStr "survey");
               ("key_locations", JArr [JObj [("name", JStr "Field A")]])])).
Proof.
  split.
  - repeat split; reflexivity.
  - apply (C8_extraction_of_embedded_object structure_json
             (JObj [("mission_type", JStr "survey");
                    ("key_locations", JArr [JObj [("name", JStr "Field A")]])])
             "Here is the analysis: " " Fly safe!");
      reflexivity.
Defined.

(** C8, as stated, fails in four ways.  Each object below is well formed,
    has no closing brace inside a string value and is decoded when it stands
    alone; embedded, it is not recovered: (1) the prose before it has a
    brace; (2) a string value has an opening brace; (3) a key has a closing
    brace; (4) the prose makes the whole text a JSON array, which the direct
    parse of phase 3 returns. *)
Lemma C8_counterexample :
  let small := obj [("a", TLit "1")] in
  let opening := obj [("a", TStr "{")] in
  let key := obj [("}", TLit "1")] in
  (well_formed small && values_without_rbrace small
   && well_formed opening && values_without_rbrace opening
   && well_formed key && values_without_rbrace key = true) /\
  (Json.loads (render small) = Ok (JObj [("a", JInt 1)]) /\
   fails_with JSONDecodeError (parse_plan ("Plan {draft}: " ++ render small)) = true /\
   fails_with JSONDecodeError (parse_structure ("Plan {draft}: " ++ render small)) = true) /\
  (Json.loads (render opening) = Ok (JObj [("a", JStr "{")]) /\
   fails_with JSONDecodeError (parse_plan (render opening ++ " done")) = true /\
   fails_with JSONDecodeError (parse_structure (render opening ++ " done")) = true) /\
  (Json.loads (render key) = Ok (JObj [("}", JInt 1)]) /\
   fails_with JSONDecodeError (parse_plan (render key ++ " done")) = true /\
   fails_with JSONDecodeError (parse_structure (render key ++ " done")) = true) /\
  parse_plan ("[" ++ render small ++ "]") = Ok (JArr [JObj [("a", JInt 1)]]).
Proof. vm_compute. repeat split; reflexivity. Qed.

(** ** The shape of the stream of chunks *)

Lemma sequenced_app (start : nat) (a b : list StreamingChunk) :
  sequenced start a -> sequenced (start + List.length a) b ->
  sequenced start (a ++ b).
Proof.
  unfold sequenced. intros Ha Hb.
  rewrite map_app, length_app, seq_app, Ha, Hb. reflexivity.
Qed.

Lemma sequenced_cons (start : nat) (c : StreamingChunk) (cs : list StreamingChunk) :
  sequence c = start -> sequenced (S start) cs -> sequenced start (c :: cs).
Proof. unfold sequenced. simpl. intros -> ->. reflexivity. Qed.

Lemma sequenced_nil (start : nat) : sequenced start [].
Proof. reflexivity. Qed.

Lemma stream_shape_cons (s : nat) (c : StreamingChunk) (cs : list StreamingChunk) :
  plain c = true -> sequence c = s -> stream_shape (S s) cs ->
  stream_shape s (c :: cs).
Proof.
  intros Hc Hs [body [tail [-> [Hb [Hq Ht]]]]].
  exists (c :: body), tail. repeat split; auto.
  - simpl. now rewrite Hc.
  - now apply sequenced_cons.
Qed.

Lemma stream_shape_app (s : nat) (a cs : list StreamingChunk) :
  forallb plain a = true -> sequenced s a ->
  stream_shape (s + List.length a) cs -> stream_shape s (a ++ cs).
Proof.
  intros Ha Hs [body [tail [-> [Hb [Hq Ht]]]]].
  exists (a ++ body)%list, tail. repeat split; auto.
  - now rewrite app_assoc.
  - rewrite forallb_app. now rewrite Ha.
  - now apply sequenced_app.
Qed.

Lemma stream_shape_closing (s : nat) (tail : list StreamingChunk) :
  closing tail -> sequenced s tail -> stream_shape s tail.
Proof. intros Ht Hs. exists [], tail. auto. Qed.

Lemma relay_yield (c : StreamingChunk) (g : generated) (s : nat) :
  relay (yield c g) s = c :: relay g (S s).
Proof.
  unfold relay, yield. cbn [yielded raised app].
  change (List.length (c :: yielded g)) with (S (List.length (yielded g))).
  now rewrite Nat.add_succ_r.
Qed.

Lemma relay_yield_all (cs : list StreamingChunk) (g : generated) (s : nat) :
  relay (yield_all cs g) s = (cs ++ relay g (s + List.length cs))%list.
Proof.
  unfold relay, yield_all. cbn [yielded raised].
  now rewrite length_app, <- app_assoc, Nat.add_assoc.
Qed.

Lemma relay_raises (e : exn) (s : nat) :
  relay (raises e) s
  = [final_error ("Detailed mission planning failed: " ++ str_exn e) s].
Proof. unfold relay, raises. cbn. now rewrite Nat.add_0_r. Qed.

Lemma relay_returns (s : nat) : relay returns s = [].
Proof. reflexivity. Qed.

Lemma shape_of_raises (e : exn) (s : nat) : stream_shape s (relay (raises e) s).
Proof.
  rewrite relay_raises. apply stream_shape_closing; [constructor|reflexivity].
Qed.

Section PipelineFacts.
Variable E : Env.
Variable request : MissionPlanRequest.

Lemma convert_waypoints_shape items :
  forall i total u s waypoints,
    let r := convert_waypoints E items i total u s waypoints in
    forallb plain (fst r) = true /\ sequenced s (fst r) /\
    (forall ws, snd r = Ok ws ->
       List.length (fst r) = List.length items).
Proof.
  induction items as [|wp_data rest IH]; intros i total u s waypoints; cbn.
  - repeat split; auto.
  - destruct (convert_waypoint E wp_data u) as [w|e]; cbn.
    + specialize (IH (S i) total (S u) (S s) (waypoints ++ [w])%list).
      destruct (convert_waypoints E rest (S i) total (S u) (S s) (waypoints ++ [w]))
        as [cs r]. cbn in *.
      destruct IH as [Hp [Hs Hl]]. repeat split.
      * exact Hp.
      * now apply sequenced_cons.
      * intros ws Hws. f_equal. eauto.
    + repeat split; auto. discriminate.
Qed.

Lemma finish_plan_shape structure_data geocoded_locations text s :
  stream_shape s (relay (finish_plan E request structure_data geocoded_locations text s) s).
Proof.
  unfold finish_plan.
  destruct (parse_plan text) as [plan_data|e]; [|apply shape_of_raises].
  destruct (bind (py_getitem plan_data "waypoints") _) as [[total items]|e];
    [|apply shape_of_raises].
  pose proof (convert_waypoints_shape items 1 total 0 s []) as H. cbn zeta in H.
  destruct (convert_waypoints E items 1 total 0 s []) as [cs r]. cbn [fst snd] in H.
  destruct H as [Hp [Hs _]].
  rewrite relay_yield_all. apply stream_shape_app; auto.
  destruct r as [waypoints|e]; [|apply shape_of_raises].
  destruct (bind (assemble_plan _ _ _ _ _ _ _) _) as [[p c]|e] eqn:Hb;
    [|apply shape_of_raises].
  rewrite !relay_yield, relay_returns.
  destruct (assemble_plan E request structure_data geocoded_locations plan_data
              waypoints (List.length items)) as [p'|e']; [|discriminate].
  cbn [bind] in Hb. unfold plan_summary in Hb.
  destruct (py_getitem plan_data "estimated_duration"); [|discriminate].
  destruct (py_getitem plan_data "total_distance"); [|discriminate].
  cbn [bind] in Hb. inversion Hb; subst.
  apply stream_shape_cons; [reflexivity|reflexivity|].
  apply stream_shape_closing; [constructor|reflexivity].
Qed.

Lemma detailed_loop_shape structure_data geocoded_locations evs fails :
  forall acc accr s,
    stream_shape s
      (relay (detailed_loop E request structure_data geocoded_locations
                evs fails acc accr s) s).
Proof.
  induction evs as [|chunk rest IH]; intros acc accr s; cbn [detailed_loop].
  - destruct fails; [apply shape_of_raises|].
    rewrite relay_returns. apply stream_shape_closing; [constructor|reflexivity].
  - destruct (choices chunk) as [|choice others]; [apply IH|].
    destruct (String.eqb _ EmptyString).
    + destruct (stopped choice); [apply finish_plan_shape|apply IH].
    + rewrite relay_yield.
      apply stream_shape_cons; [reflexivity|reflexivity|].
      destruct (stopped choice); [apply finish_plan_shape|apply IH].
Qed.

Lemma geocoded_chunks_shape items :
  forall k total s,
    forallb plain (fst (geocoded_chunks E items k total s)) = true /\
    sequenced s (fst (geocoded_chunks E items k total s)).
Proof.
  induction items as [|[location_name [c|]] rest IH]; intros k total s;
    cbn [geocoded_chunks].
  - split; reflexivity.
  - specialize (IH (S k) total (S s)).
    destruct (geocoded_chunks E rest (S k) total (S s)) as [cs n].
    cbn [fst] in *. destruct IH as [Hp Hs]. split.
    + exact Hp.
    + now apply sequenced_cons.
  - apply IH.
Qed.

(** Every run emits chunks of progress numbered from 0 without gap, and
    then at most one closing chunk. *)
Lemma generate_mission_plan_shape :
  stream_shape 0 (chunks (generate_mission_plan E request)).
Proof.
  unfold generate_mission_plan.
  destruct (bind (outcome (_generate_mission_structure E request 0)) _)
    as [[structure_data n]|e]; cbn [chunks].
  - destruct (_geocode_mission_locations E structure_data request)
      as [geocoded_locations|e].
    + pose proof (geocoded_chunks_shape geocoded_locations 0
                    (List.length geocoded_locations) 3) as [Hp Hs].
      destruct (geocoded_chunks E geocoded_locations 0 _ 3) as [located k].
      cbn [fst] in Hp, Hs.
      destruct (_generate_detailed_mission_plan _ _ _ _ _ _) as [g calls] eqn:Hg.
      cbn [chunks].
      do 3 (apply stream_shape_cons; [reflexivity|reflexivity|]).
      apply stream_shape_app; auto.
      do 2 (apply stream_shape_cons; [reflexivity|reflexivity|]).
      unfold _generate_detailed_mission_plan in Hg.
      destruct (build_detailed_prompt _ _ _ _); inversion Hg; subst.
      * apply detailed_loop_shape.
      * apply shape_of_raises.
    + cbn [chunks].
      do 3 (apply stream_shape_cons; [reflexivity|reflexivity|]).
      apply stream_shape_closing; [constructor|reflexivity].
  - apply stream_shape_cons; [reflexivity|reflexivity|].
    apply stream_shape_closing; [constructor|reflexivity].
Qed.

(** Neither phase 3 nor phase 2 sleeps or retries: the delays of a run are
    those of the wrapper of phase 1, and phase 3 adds at most one call. *)
Lemma phase3_calls_llm_at_most_once :
  let r := generate_mission_plan E request in
  let r1 := _generate_mission_structure E request 0 in
  sleeps r = slept r1 /\ invocations r1 <= llm_calls r <= invocations r1 + 1.
Proof.
  unfold generate_mission_plan. cbv zeta.
  destruct (bind (outcome (_generate_mission_structure E request 0)) _)
    as [[structure_data n]|e]; cbn [sleeps llm_calls]; [|split; [reflexivity|lia]].
  destruct (_geocode_mission_locations E structure_data request)
    as [geocoded_locations|e]; cbn [sleeps llm_calls]; [|split; [reflexivity|lia]].
  destruct (geocoded_chunks E geocoded_locations 0 _ 3) as [located k].
  destruct (_generate_detailed_mission_plan _ _ _ _ _ _) as [g calls] eqn:Hg.
  cbn [sleeps llm_calls]. split; [reflexivity|].
  unfold _generate_detailed_mission_plan in Hg.
  destruct (build_detailed_prompt _ _ _ _); inversion Hg; lia.
Qed.

(** A run in which phases 1 and 2 succeed: chunks of progress, then the
    chunks of phase 3. *)
Lemma run_reaches_phase3 structure_data geocoded_locations :
  phases_1_2 E request = Ok (structure_data, geocoded_locations) ->
  exists prefix,
    forallb plain prefix = true /\
    chunks (generate_mission_plan E request)
    = (prefix ++
       relay (fst (_generate_detailed_mission_plan E request structure_data
                     geocoded_locations (List.length prefix)
                     (invocations (_generate_mission_structure E request 0))))
         (List.length prefix))%list /\
    llm_calls (generate_mission_plan E request)
    = invocations (_generate_mission_structure E request 0)
      + snd (_generate_detailed_mission_plan E request structure_data
               geocoded_locations (List.length prefix)
               (invocations (_generate_mission_structure E request 0))).
Proof.
  unfold phases_1_2, generate_mission_plan.
  destruct (outcome (_generate_mission_structure E request 0)) as [sd|e];
    [|discriminate]. cbn [bind].
  destruct (count_key_locations sd) as [n|e]; [|discriminate]. cbn [bind].
  destruct (_geocode_mission_locations E sd request) as [geo|e]; [|discriminate].
  cbn [bind]. intros H. inversion H; subst. clear H.
  pose proof (geocoded_chunks_shape geocoded_locations 0
                (List.length geocoded_locations) 3) as [Hp _].
  destruct (geocoded_chunks E geocoded_locations 0 _ 3) as [located k].
  cbn [fst] in Hp.
  set (c0 := status_chunk "Phase 1/3: Analyzing mission structure and identifying key locations..." _ _).
  set (c1 := status_chunk ("Mission structure analyzed - " ++ _) _ _).
  set (c2 := status_chunk "Phase 2/3: Geocoding locations and getting precise coordinates..." _ _).
  set (c3 := status_chunk ("Geocoding complete - " ++ _) _ _).
  set (c4 := status_chunk "Phase 3/3: Creating detailed mission plan with optimized waypoints..." _ _).
  exists ([c0; c1; c2] ++ located ++ [c3; c4])%list.
  assert (Hlen : List.length ([c0; c1; c2] ++ located ++ [c3; c4])%list
                 = S (S (3 + List.length located))).
  { rewrite !length_app. simpl. lia. }
  rewrite Hlen.
  destruct (_generate_detailed_mission_plan _ _ _ _ _ _) as [g calls].
  cbn [chunks llm_calls fst snd]. repeat split.
  - rewrite !forallb_app, Hp. reflexivity.
  - rewrite <- !app_assoc. reflexivity.
Qed.

Lemma detailed_loop_stop structure_data geocoded_locations evs fails text :
  forall acc accr s,
    accumulated_at_stop evs acc = Some text ->
    exists thoughts,
      forallb plain thoughts = true /\
      detailed_loop E request structure_data geocoded_locations evs fails acc accr s
      = yield_all thoughts
          (finish_plan E request structure_data geocoded_locations text
             (s + List.length thoughts)).
Proof.
  induction evs as [|chunk rest IH]; intros acc accr s; cbn [accumulated_at_stop detailed_loop].
  - discriminate.
  - destruct (choices chunk) as [|choice others]; [apply IH|].
    set (acc' := acc ++ text_of (delta_content (delta choice))).
    destruct (String.eqb _ EmptyString).
    + destruct (stopped choice).
      * intros H. inversion H; subst. exists []. split; [reflexivity|].
        unfold yield_all. cbn. rewrite Nat.add_0_r.
        now destruct (finish_plan _ _ _ _ _ _).
      * apply IH.
    + destruct (stopped choice).
      * intros H. inversion H; subst.
        exists [reasoning_chunk (text_of (delta_reasoning (delta choice))) s].
        split; [reflexivity|]. cbn [length]. rewrite Nat.add_1_r. reflexivity.
      * intros H.
        destruct (IH acc' (accr ++ text_of (delta_reasoning (delta choice))) (S s) H)
          as [thoughts [Hp Heq]].
        exists (reasoning_chunk (text_of (delta_reasoning (delta choice))) s :: thoughts).
        split; [simpl; now rewrite Hp|].
        rewrite Heq. unfold yield, yield_all. cbn [yielded raised].
        change (List.length (?c :: thoughts)) with (S (List.length thoughts)).
        rewrite Nat.add_succ_r. reflexivity.
Qed.

Lemma finish_plan_parse_failure structure_data geocoded_locations text s e :
  parse_plan text = Raise e ->
  finish_plan E request structure_data geocoded_locations text s = raises e.
Proof. unfold finish_plan. now intros ->. Qed.

Lemma finish_plan_without_waypoints structure_data geocoded_locations text s plan_data e :
  parse_plan text = Ok plan_data ->
  py_getitem plan_data "waypoints" = Raise e ->
  finish_plan E request structure_data geocoded_locations text s = raises e.
Proof. unfold finish_plan. now intros -> ->. Qed.

(** A run in which phase 3 reaches the [stop] of its stream and raises [e]
    after it: chunks of progress, then the error chunk. *)
Lemma run_with_failing_phase3 text e :
  phase3_text E request = Some text ->
  (forall structure_data geocoded_locations s,
     finish_plan E request structure_data geocoded_locations text s = raises e) ->
  exists body,
    forallb plain body = true /\
    chunks (generate_mission_plan E request)
    = (body ++ [final_error ("Detailed mission planning failed: " ++ str_exn e)
                  (List.length body)])%list /\
    llm_calls (generate_mission_plan E request)
    = invocations (_generate_mission_structure E request 0) + 1.
Proof.
  unfold phase3_text. intros Ht Hfail.
  destruct (phases_1_2 E request) as [[sd geo]|] eqn:H12; [|discriminate].
  destruct (build_detailed_prompt E request sd geo) as [prompt|] eqn:Hprompt;
    [|discriminate].
  destruct (run_reaches_phase3 sd geo H12) as [prefix [Hp [Hc Hl]]].
  unfold _generate_detailed_mission_plan in Hc, Hl. rewrite Hprompt in Hc, Hl.
  cbn [fst snd] in Hc, Hl.
  destruct (detailed_loop_stop sd geo _
              (failure (stream_text E (invocations (_generate_mission_structure E request 0))
                          (detailed_args E request prompt)))
              text EmptyString EmptyString (List.length prefix) Ht)
    as [thoughts [Hth Heq]].
  rewrite Heq, Hfail, relay_yield_all, relay_raises in Hc.
  exists (prefix ++ thoughts)%list. repeat split.
  - rewrite forallb_app, Hp, Hth. reflexivity.
  - rewrite Hc, length_app, <- app_assoc. reflexivity.
  - exact Hl.
Qed.

Lemma plain_filters (body : list StreamingChunk) :
  forallb plain body = true ->
  filter is_final body = [] /\
  filter (is_type plan_chunk) body = [] /\
  filter (is_type error_chunk) body = [].
Proof.
  induction body as [|c body IH]; cbn [forallb filter]; [auto|].
  intros H. apply andb_true_iff in H. destruct H as [Hc Hb].
  destruct (IH Hb) as [H1 [H2 H3]]. rewrite H1, H2, H3.
  unfold plain, is_type in *.
  destruct (is_final c); [discriminate|].
  destruct (type c); try discriminate; auto.
Qed.
End PipelineFacts.



(** ** The claims *)

Lemma stream_shape_final_last (s : nat) (cs : list StreamingChunk) :
  stream_shape s cs ->
  forall before c after,
    cs = (before ++ c :: after)%list -> is_final c = true -> after = [].
Proof.
  intros [body [tail [-> [Hb [_ Ht]]]]].
  induction body as [|b body IH]; intros before c after Heq Hc.
  - cbn [app] in Heq.
    destruct Ht; destruct before as [|x [|y before]]; inversion Heq; auto.
  - cbn [forallb] in Hb. apply andb_true_iff in Hb. destruct Hb as [Hpb Hb].
    destruct before as [|x before]; inversion Heq; subst.
    + unfold plain in Hpb. rewrite Hc in Hpb. discriminate.
    + eauto.
Qed.

Lemma stream_shape_finals (s : nat) (cs : list StreamingChunk) :
  stream_shape s cs -> List.length (filter is_final cs) <= 1.
Proof.
  intros [body [tail [-> [Hb [_ Ht]]]]].
  rewrite filter_app. destruct (plain_filters body Hb) as [-> _].
  destruct Ht; cbn; lia.
Qed.

(** The sequence numbers of every run are 0, 1, ..., N-1. *)
Lemma sequence_numbers_contiguous (E : Env) (request : MissionPlanRequest) :
  map sequence (chunks (generate_mission_plan E request))
  = seq 0 (List.length (chunks (generate_mission_plan E request))).
Proof.
  destruct (generate_mission_plan_shape E request) as [body [tail [_ [_ [H _]]]]].
  exact H.
Qed.

(** C1 (the code falls short of the claim).  The sequence numbers of a run
    are 0..N-1, but a run can end without any final chunk: when the stream of
    phase 3 ends without the finish reason stop (here it is cut by the token
    limit), the generator of phase 3 ends silently and the run consists of
    six chunks of progress.  The loop of phase 1 raises an error on the same
    stream. *)
Theorem C1_run_without_final_chunk :
  map sequence (chunks (generate_mission_plan env_cut_off survey_request)) = seq 0 6 /\
  filter is_final (chunks (generate_mission_plan env_cut_off survey_request)) = [] /\
  structure_loop (events (cut_off (render plan_json))) None EmptyString
  = Raise (mk_exn ValueError "No structure analysis response received").
Proof. vm_compute. repeat split; reflexivity. Qed.

(** C2.  In every run at most one chunk is final, and no chunk follows a
    final chunk. *)
Theorem C2_final_chunk_is_unique_and_last (E : Env) (request : MissionPlanRequest) :
  List.length (filter is_final (chunks (generate_mission_plan E request))) <= 1 /\
  forall before c after,
    chunks (generate_mission_plan E request) = (before ++ c :: after)%list ->
    is_final c = true -> after = [].
Proof.
  split.
  - eapply stream_shape_finals, generate_mission_plan_shape.
  - eapply stream_shape_final_last, generate_mission_plan_shape.
Qed.

Lemma C2_final_chunk_is_unique_and_last_witness :
  List.length (filter is_final (chunks (generate_mission_plan env_success survey_request)))
  <= 1 /\
  (chunks (generate_mission_plan env_success survey_request)
   = (firstn 9 (chunks (generate_mission_plan env_success survey_request))
      ++ nth 9 (chunks (generate_mission_plan env_success survey_request))
           (final_error EmptyString 0)
      :: skipn 10 (chunks (generate_mission_plan env_success survey_request)))%list /\
   is_final (nth 9 (chunks (generate_mission_plan env_success survey_request))
               (final_error EmptyString 0)) = true) /\
  skipn 10 (chunks (generate_mission_plan env_success survey_request)) = [].
Proof.
  assert (H : chunks (generate_mission_plan env_success survey_request)
   = (firstn 9 (chunks (generate_mission_plan env_success survey_request))
      ++ nth 9 (chunks (generate_mission_plan env_success survey_request))
           (final_error EmptyString 0)
      :: skipn 10 (chunks (generate_mission_plan env_success survey_request)))%list)
    by (vm_compute; reflexivity).
  assert (Hf : is_final (nth 9 (chunks (generate_mission_plan env_success survey_request))
               (final_error EmptyString 0)) = true)
    by (vm_compute; reflexivity).
  split; [|split; [split; assumption|]].
  - apply (C2_final_chunk_is_unique_and_last env_success survey_request).
  - exact (proj2 (C2_final_chunk_is_unique_and_last env_success survey_request)
             _ _ _ H Hf).
Defined.

(** The non-streaming wrapper hands the whole payload of the plan chunk,
    the dict with the keys progress and plan, to the constructor of
    MissionPlan, which misses its required fields. *)
Lemma simple_loop_plain (E : Env) (body tail : list StreamingChunk) :
  forallb plain body = true ->
  forall st, exists st',
    mission_plan st' = mission_plan st /\
    simple_loop E (body ++ tail) st = simple_loop E tail st'.
Proof.
  induction body as [|c body IH]; cbn [forallb app]; intros Hb st.
  - exists st. auto.
  - apply andb_true_iff in Hb. destruct Hb as [Hc Hb].
    cbn [simple_loop]. unfold plain, is_type in Hc.
    destruct (chunk_type_eqb (type c) reasoning) eqn:Hr.
    + destruct (IH Hb {| mission_plan := mission_plan st;
                         reasoning_text := reasoning_text st ++ text_of (content c);
                         warnings_list := warnings_list st |})
        as [st' [H1 H2]].
      exists st'. auto.
    + destruct (is_final c); [discriminate|].
      rewrite andb_false_r. apply IH, Hb.
Qed.

(** Whenever a run ends with the plan chunk, the non-streaming wrapper
    raises a validation error; in every other run it reports a failure. *)
Lemma simple_mode_never_succeeds (E : Env) (request : MissionPlanRequest) :
  generate_mission_plan_simple E request = Raise (validation_error "id") \/
  exists r, generate_mission_plan_simple E request = Ok r /\ success r = false.
Proof.
  unfold generate_mission_plan_simple.
  destruct (generate_mission_plan_shape E request) as [body [tail [-> [Hb [_ Ht]]]]].
  destruct (simple_loop_plain E body tail Hb
              {| mission_plan := None; reasoning_text := EmptyString;
                 warnings_list := JArr [] |}) as [st' [Hm ->]].
  cbn [mission_plan] in Hm.
  destruct Ht; cbn [simple_loop final_plan final_error type is_final data
                    chunk_type_eqb andb bind].
  - right. rewrite Hm. eauto.
  - left. reflexivity.
  - right. rewrite Hm. eauto.
Qed.

(** C3 (the code falls short of the claim).  In a run that ends with the
    final plan chunk, the non-streaming wrapper does not return a response
    with success set: it raises a validation error, for the payload of the
    plan chunk has no field id. *)
Theorem C3_simple_mode_raises_on_a_successful_run :
  map (fun c => (type c, is_final c))
    (filter is_final (chunks (generate_mission_plan env_success survey_request)))
  = [(plan_chunk, true)] /\
  fails_with ValidationError
    (generate_mission_plan_simple env_success survey_request) = true.
Proof. vm_compute. split; reflexivity. Qed.

(** C4 (amended).  Phase 3 is not under the retry wrapper.  When the text its
    stream has accumulated at stop fails to parse, the run makes exactly one
    call of the LLM in phase 3, sleeps no more than phase 1 did, and closes
    at once with the final error chunk that carries the failure. *)
Theorem C4_phase3_failure_is_not_retried (E : Env) (request : MissionPlanRequest)
    (text : string) (e : exn) :
  phase3_text E request = Some text ->
  parse_plan text = Raise e ->
  llm_calls (generate_mission_plan E request)
  = invocations (_generate_mission_structure E request 0) + 1 /\
  sleeps (generate_mission_plan E request)
  = slept (_generate_mission_structure E request 0) /\
  exists body,
    forallb plain body = true /\
    chunks (generate_mission_plan E request)
    = (body ++ [final_error ("Detailed mission planning failed: " ++ str_exn e)
                  (List.length body)])%list.
Proof.
  intros Ht He.
  destruct (run_with_failing_phase3 E request text e Ht) as [body [Hb [Hc Hl]]].
  - intros sd geo s. now apply finish_plan_parse_failure.
  - split; [exact Hl|]. split.
    + apply (phase3_calls_llm_at_most_once E request).
    + exists body. auto.
Qed.

Lemma C4_phase3_failure_is_not_retried_witness :
  (phase3_text env_unfinished_plan survey_request = Some "{ unfinished" /\
   parse_plan "{ unfinished" = Raise (mk_exn JSONDecodeError "Expecting value")) /\
  (llm_calls (generate_mission_plan env_unfinished_plan survey_request)
   = invocations (_generate_mission_structure env_unfinished_plan survey_request 0) + 1 /\
   sleeps (generate_mission_plan env_unfinished_plan survey_request)
   = slept (_generate_mission_structure env_unfinished_plan survey_request 0) /\
   exists body,
     forallb plain body = true /\
     chunks (generate_mission_plan env_unfinished_plan survey_request)
     = (body ++ [final_error
                   ("Detailed mission planning failed: "
                    ++ str_exn (mk_exn JSONDecodeError "Expecting value"))
                   (List.length body)])%list).
Proof.
  split.
  - split; vm_compute; reflexivity.
  - apply (C4_phase3_failure_is_not_retried env_unfinished_plan survey_request
             "{ unfinished" (mk_exn JSONDecodeError "Expecting value"));
      vm_compute; reflexivity.
Defined.

(** C4, as stated, fails: the answer of phase 3 does not parse, a second
    call would have returned the whole plan, and yet the run makes one call
    in phase 3 (two in all), sleeps never and closes with the error chunk. *)
Lemma C4_counterexample :
  phase3_text env_unfinished_plan survey_request = Some "{ unfinished" /\
  fails_with JSONDecodeError (parse_plan "{ unfinished") = true /\
  stream_text env_unfinished_plan 2
    (detailed_args env_unfinished_plan survey_request "Survey field A")
  = says (render plan_json) /\
  is_ok (parse_plan (render plan_json)) = true /\
  llm_calls (generate_mission_plan env_unfinished_plan survey_request) = 2 /\
  sleeps (generate_mission_plan env_unfinished_plan survey_request) = [] /\
  map (fun c => (type c, sequence c, is_final c))
    (filter is_final (chunks (generate_mission_plan env_unfinished_plan survey_request)))
  = [(error_chunk, 6, true)].
Proof. vm_compute. repeat split; reflexivity. Qed.

Lemma structure_loop_stop (evs : list Chunk) (fails : option exn) (text : string) :
  forall acc,
    accumulated_at_stop evs acc = Some text ->
    structure_loop evs fails acc = parse_structure text.
Proof.
  induction evs as [|chunk rest IH]; intros acc; cbn [accumulated_at_stop structure_loop].
  - discriminate.
  - destruct (choices chunk) as [|choice others]; [apply IH|].
    destruct (stopped choice); [|apply IH].
    intros H. now inversion H.
Qed.

(** C5 (amended).  Take a run of phase 1 in which every stream of the LLM
    reaches stop.  If no accumulated text has an opening brace, each
    invocation raises the plain ValueError for missing JSON, which is not a
    JSON decode error: the wrapper invokes the function min(2, max_retries)
    + 1 = 3 times and raises that error.  If every accumulated text has an
    opening brace and the text cut out of it does not parse, each invocation
    raises a JSON decode error: the wrapper invokes the function max_retries
    + 1 = 6 times and raises the error of the last invocation. *)
Theorem C5_retry_tier_of_parse_failures (E : Env) (request : MissionPlanRequest)
    (first : nat) (text : nat -> string) :
  (forall i,
     accumulated_at_stop
       (events (stream_text E (first + i) (structure_args E request))) EmptyString
     = Some (text i)) ->
  ((forall i, find lbrace (text i) = None) ->
   invocations (_generate_mission_structure E request first) = Nat.min 2 5 + 1 /\
   outcome (_generate_mission_structure E request first)
   = Raise (mk_exn ValueError "No JSON found in structure analysis response")) /\
  ((forall i, exists start,
       find lbrace (text i) = Some start /\
       is_ok (Json.loads (json_text (text i) start)) = false) ->
   invocations (_generate_mission_structure E request first) = 5 + 1 /\
   outcome (_generate_mission_structure E request first) = parse_structure (text 5) /\
   exists e, parse_structure (text 5) = Raise e /\ is_json_decode_error e = true).
Proof.
  intros Hstop.
  assert (Hattempt : forall i,
            structure_attempt E request (first + i) = parse_structure (text i)).
  { intros i. unfold structure_attempt. apply structure_loop_stop, Hstop. }
  unfold _generate_mission_structure, retry_llm_call. split.
  - intros Hnone.
    assert (Hf : always_other_error (fun i => structure_attempt E request (first + i))).
    { intros i. rewrite Hattempt. unfold parse_structure. rewrite Hnone. eauto. }
    destruct (attempts_other_errors 5 30 2 _ Hf (5 + 1) 0 (3 # 2) None) as [H1 H2];
      [cbn; lia|cbn; lia|].
    rewrite H1, H2. split; [reflexivity|].
    cbn [Nat.min]. rewrite Hattempt. unfold parse_structure. now rewrite Hnone.
  - intros Hbad.
    assert (Hraise : forall i, exists e,
               parse_structure (text i) = Raise e /\ is_json_decode_error e = true).
    { intros i. destruct (Hbad i) as [start [Hs Hl]].
      unfold parse_structure. rewrite Hs.
      destruct (Json.loads (json_text (text i) start)) as [v|e] eqn:He; [discriminate|].
      eauto using loads_raises_decode_error. }
    assert (Hf : always_decode_error (fun i => structure_attempt E request (first + i))).
    { intros i. rewrite Hattempt. apply Hraise. }
    destruct (attempts_decode_errors 5 30 2 _ 5 Hf 0 (3 # 2) None) as [H1 H2].
    change (5 + 1) with 6. rewrite H1, H2. cbn [Nat.add].
    rewrite Hattempt. auto.
Qed.

Lemma C5_retry_tier_of_parse_failures_witness :
  (forall i,
     accumulated_at_stop
       (events (stream_text env_prose_only (0 + i)
                  (structure_args env_prose_only survey_request))) EmptyString
     = Some "I cannot help with that.") /\
  invocations (_generate_mission_structure env_prose_only survey_request 0)
  = Nat.min 2 5 + 1 /\
  outcome (_generate_mission_structure env_prose_only survey_request 0)
  = Raise (mk_exn ValueError "No JSON found in structure analysis response").
Proof.
  assert (H : forall i,
     accumulated_at_stop
       (events (stream_text env_prose_only (0 + i)
                  (structure_args env_prose_only survey_request))) EmptyString
     = Some "I cannot help with that.").
  { intros i. cbn [Nat.add]. unfold env_prose_only, scripted. cbn [stream_text].
    destruct i; reflexivity. }
  split; [exact H|].
  apply (proj1 (C5_retry_tier_of_parse_failures env_prose_only survey_request 0
                  (fun _ => "I cannot help with that.") H)).
  intros i. reflexivity.
Defined.

(** C5, as stated, fails: an answer of the LLM without any opening brace is
    a parse failure that the wrapper of phase 1 (max_retries = 5) gives up
    after 3 invocations, not after 6. *)
Lemma C5_counterexample :
  find lbrace "I cannot help with that." = None /\
  outcome (_generate_mission_structure env_prose_only survey_request 0)
  = Raise (mk_exn ValueError "No JSON found in structure analysis response") /\
  invocations (_generate_mission_structure env_prose_only survey_request 0) = 3 /\
  3 <> 5 + 1.
Proof. vm_compute. repeat split; try reflexivity. discriminate. Qed.

(** C6.  For every configuration of the retry wrapper and every wrapped
    function that raises a JSON decode error at each invocation, the wrapper
    invokes the function exactly max_retries + 1 times and raises what the
    last invocation (number max_retries, counted from 0) raised. *)
Theorem C6_retry_exhaustion {A : Type} (max_retries : nat)
    (base_delay max_delay backoff_factor : Q) (func : nat -> result A) :
  always_decode_error func ->
  invocations (retry_llm_call max_retries base_delay max_delay backoff_factor func)
  = max_retries + 1 /\
  outcome (retry_llm_call max_retries base_delay max_delay backoff_factor func)
  = func max_retries /\
  exists e, func max_retries = Raise e.
Proof.
  intros Hf. unfold retry_llm_call. rewrite Nat.add_1_r.
  destruct (attempts_decode_errors max_retries max_delay backoff_factor func
              max_retries Hf 0 base_delay None) as [H1 H2].
  repeat split; auto.
  destruct (Hf max_retries) as [e [He _]]. eauto.
Qed.

Lemma C6_retry_exhaustion_witness :
  always_decode_error failing /\
  invocations (retry_llm_call 5 (3 # 2) 30 2 failing) = 5 + 1 /\
  outcome (retry_llm_call 5 (3 # 2) 30 2 failing) = failing 5 /\
  exists e, failing 5 = Raise e.
Proof.
  assert (H : always_decode_error failing).
  { intros i. eexists. split; reflexivity. }
  split; [exact H|].
  apply (C6_retry_exhaustion 5 (3 # 2) 30 2 failing H).
Defined.

Lemma backoff_sequence (j : nat) :
  (Nat.iter j (fun delay => Qmin (delay * 2) 30) 1
   == Qmin (inject_Z (2 ^ Z.of_nat j)) 30)%Q.
Proof.
  induction j as [|j IH].
  - reflexivity.
  - cbn [Nat.iter].
    rewrite Nat2Z.inj_succ, Z.pow_succ_r by lia.
    assert (Hpos : (0 < 2 ^ Z.of_nat j)%Z) by (apply Z.pow_pos_nonneg; lia).
    set (z := (2 ^ Z.of_nat j)%Z) in *.
    transitivity (Qmin (Qmin (inject_Z z) 30 * 2) 30).
    { apply Q.min_compat; [|reflexivity].
      apply Qmult_comp; [exact IH|reflexivity]. }
    destruct (Z_lt_le_dec 30 z) as [Hgt|Hle].
    + rewrite (Q.min_r (inject_Z (2 * z)) 30)
        by (change 30%Q with (inject_Z 30); rewrite <- Zle_Qle; lia).
      transitivity (Qmin (30 * 2) 30).
      * apply Q.min_compat; [|reflexivity].
        apply Qmult_comp; [|reflexivity].
        apply Q.min_r. change 30%Q with (inject_Z 30). rewrite <- Zle_Qle. lia.
      * apply Q.min_r. vm_compute. discriminate.
    + apply Q.min_compat; [|reflexivity].
      transitivity (inject_Z z * 2)%Q.
      * apply Qmult_comp; [|reflexivity].
        apply Q.min_l. change 30%Q with (inject_Z 30). rewrite <- Zle_Qle. lia.
      * change 2%Q with (inject_Z 2). rewrite <- inject_Z_mult.
        now rewrite Z.mul_comm.
Qed.

(** C7.  With base_delay 1, backoff_factor 2 and max_delay 30, the delay
    slept before attempt k (k at least 1: the k-th sleep) is min(2^(k-1), 30),
    and attempt k is indeed made after it. *)
Theorem C7_backoff_delays {A : Type} (max_retries : nat) (func : nat -> result A)
    (k : nat) (d : Q) :
  1 <= k ->
  nth_error (slept (retry_llm_call max_retries 1 30 2 func)) (k - 1) = Some d ->
  (d == Qmin (inject_Z (2 ^ Z.of_nat (k - 1))) 30)%Q /\
  k < invocations (retry_llm_call max_retries 1 30 2 func).
Proof.
  intros Hk Hd. unfold retry_llm_call in *. rewrite Nat.add_1_r in *. split.
  - apply slept_schedule in Hd. rewrite Hd. apply backoff_sequence.
  - rewrite (sleeps_between_invocations max_retries 30 2 func max_retries 0 1 None)
      by lia.
    assert (k - 1 < List.length
              (slept (attempts max_retries 30 2 func (S max_retries) 0 1 None))).
    { apply nth_error_Some. congruence. }
    lia.
Qed.

Lemma C7_backoff_delays_witness :
  1 <= 6 /\
  nth_error (slept (retry_llm_call 7 1 30 2 failing)) (6 - 1) = Some 30%Q /\
  (30 == Qmin (inject_Z (2 ^ Z.of_nat (6 - 1))) 30)%Q /\
  6 < invocations (retry_llm_call 7 1 30 2 failing).
Proof.
  split; [lia|]. split; [reflexivity|].
  apply (C7_backoff_delays 7 failing 6 30%Q); [lia|reflexivity].
Defined.

(** C9.  If phase 3 is reached and the JSON it extracts at the stop of its
    stream lacks a field waypoints, then the run emits no plan chunk and
    exactly one error chunk, which is final and is the only final chunk. *)
Theorem C9_no_plan_without_waypoints (E : Env) (request : MissionPlanRequest)
    (text : string) (plan_data : json) :
  phase3_text E request = Some text ->
  parse_plan text = Ok plan_data ->
  has_field plan_data "waypoints" = false ->
  filter (is_type plan_chunk) (chunks (generate_mission_plan E request)) = [] /\
  exists c,
    filter (is_type error_chunk) (chunks (generate_mission_plan E request)) = [c] /\
    filter is_final (chunks (generate_mission_plan E request)) = [c] /\
    is_final c = true /\
    last (chunks (generate_mission_plan E request)) c = c.
Proof.
  intros Ht Hp Hw.
  assert (He : exists e, py_getitem plan_data "waypoints" = Raise e).
  { unfold has_field in Hw.
    destruct plan_data as [| | | | | |m]; cbn [py_getitem]; eauto.
    destruct (assoc_get "waypoints" m); [discriminate|eauto]. }
  destruct He as [e He].
  destruct (run_with_failing_phase3 E request text e Ht) as [body [Hb [Hc _]]].
  - intros sd geo s. now apply finish_plan_without_waypoints with plan_data.
  - rewrite Hc. rewrite !filter_app.
    destruct (plain_filters body Hb) as [-> [-> ->]].
    split; [reflexivity|].
    exists (final_error ("Detailed mission planning failed: " ++ str_exn e)
              (List.length body)).
    repeat split. apply last_last.
Qed.

Lemma C9_no_plan_without_waypoints_witness :
  (phase3_text env_without_waypoints survey_request
   = Some (render plan_json_without_waypoints) /\
   parse_plan (render plan_json_without_waypoints)
   = Ok (JObj [("mission_name", JStr "Field survey");
               ("mission_description", JStr "Survey of field A");
               ("estimated_duration", JFloat (31 # 2));
               ("total_distance", JInt 1200)]) /\
   has_field (JObj [("mission_name", JStr "Field survey");
                    ("mission_description", JStr "Survey of field A");
                    ("estimated_duration", JFloat (31 # 2));
                    ("total_distance", JInt 1200)]) "waypoints" = false) /\
  filter (is_type plan_chunk)
    (chunks (generate_mission_plan env_without_waypoints survey_request)) = [] /\
  exists c,
    filter (is_type error_chunk)
      (chunks (generate_mission_plan env_without_waypoints survey_request)) = [c] /\
    filter is_final
      (chunks (generate_mission_plan env_without_waypoints survey_request)) = [c] /\
    is_final c = true /\
    last (chunks (generate_mission_plan env_without_waypoints survey_request)) c = c.
Proof.
  split.
  - repeat split; vm_compute; reflexivity.
  - apply (C9_no_plan_without_waypoints env_without_waypoints survey_request
             (render plan_json_without_waypoints)
             (JObj [("mission_name", JStr "Field survey");
                    ("mission_description", JStr "Survey of field A");
                    ("estimated_duration", JFloat (31 # 2));
                    ("total_distance", JInt 1200)]));
      vm_compute; reflexivity.
Defined.

(** C10.  With a geocoding key configured and aiohttp not installed, the
    lookup returns the fixed pair (37.7749, -122.4194) for every name, never
    None; the value is the one a successful reply of the geocoding service
    that locates the place there yields. *)
Theorem C10_fallback_coordinates (E : Env) (location_name : json) (key : string) :
  GOOGLE_MAPS_API_KEY E = Some key ->
  key <> EmptyString ->
  aiohttp_installed E = false ->
  geocode_location E location_name = Some fallback_coordinates /\
  forall E',
    GOOGLE_MAPS_API_KEY E' = Some key ->
    aiohttp_installed E' = true ->
    http_get E' location_name = HttpReply 200 (Ok (geocoding_reply fallback_coordinates)) ->
    geocode_location E' location_name = geocode_location E location_name.
Proof.
  intros Hkey Hne Hnot.
  assert (H : geocode_location E location_name = Some fallback_coordinates).
  { unfold geocode_location, geocode_request. rewrite Hkey, Hnot.
    destruct key; [contradiction|reflexivity]. }
  split; [exact H|].
  intros E' Hkey' Hyes Hget. rewrite H.
  unfold geocode_location, geocode_request. rewrite Hkey', Hyes, Hget.
  destruct key; [contradiction|reflexivity].
Qed.

Lemma C10_fallback_coordinates_witness :
  (GOOGLE_MAPS_API_KEY env_success = Some "key" /\
   "key" <> EmptyString /\
   aiohttp_installed env_success = false) /\
  geocode_location env_success (JStr "Field A") = Some fallback_coordinates /\
  forall E',
    GOOGLE_MAPS_API_KEY E' = Some "key" ->
    aiohttp_installed E' = true ->
    http_get E' (JStr "Field A")
    = HttpReply 200 (Ok (geocoding_reply fallback_coordinates)) ->
    geocode_location E' (JStr "Field A") = geocode_location env_success (JStr "Field A").
Proof.
  split.
  - repeat split; try reflexivity. discriminate.
  - apply (C10_fallback_coordinates env_success (JStr "Field A") "key");
      [reflexivity|discriminate|reflexivity].
Defined.

(** * Further properties *)

(** ** The retry wrapper *)

Lemma attempts_invocations_le {A : Type} (max_retries : nat)
    (max_delay backoff_factor : Q) (func : nat -> result A) (n : nat) :
  forall attempt delay last,
    invocations (attempts max_retries max_delay backoff_factor func n attempt delay last)
    <= n.
Proof.
  induction n as [|n IH]; intros attempt delay last.
  - reflexivity.
  - rewrite attempts_S.
    destruct (func attempt) as [v|e]; cbn [invoked finished invocations]; [lia|].
    destruct (is_json_decode_error e).
    + destruct (attempt <? max_retries)%nat; cbn [sleep invocations];
        apply le_n_S, IH.
    + destruct (attempt <? Nat.min 2 max_retries)%nat;
        cbn [sleep finished invocations]; [apply le_n_S, IH|lia].
Qed.

(** X1.  Whatever the wrapped function does, the wrapper invokes it at
    least once and at most max_retries + 1 times, and sleeps exactly once
    between two consecutive invocations, so at most max_retries times. *)
Theorem X1_retry_is_bounded {A : Type} (max_retries : nat)
    (base_delay max_delay backoff_factor : Q) (func : nat -> result A) :
  1 <= invocations (retry_llm_call max_retries base_delay max_delay backoff_factor func)
    <= max_retries + 1 /\
  invocations (retry_llm_call max_retries base_delay max_delay backoff_factor func)
  = S (List.length
         (slept (retry_llm_call max_retries base_delay max_delay backoff_factor func))).
Proof.
  unfold retry_llm_call.
  pose proof (attempts_invocations_le max_retries max_delay backoff_factor func
                (max_retries + 1) 0 base_delay None) as Hle.
  rewrite Nat.add_1_r in *.
  pose proof (sleeps_between_invocations max_retries max_delay backoff_factor func
                max_retries 0 base_delay None) as Heq.
  rewrite Heq by lia. split; [|reflexivity]. rewrite Heq in Hle by lia. lia.
Qed.

Lemma attempts_recover {A : Type} (max_retries : nat)
    (max_delay backoff_factor : Q) (func : nat -> result A) (k : nat) (v : A) :
  k <= max_retries ->
  func k = Ok v ->
  forall j n attempt delay last,
    attempt + j = k -> j < n ->
    (forall i, attempt <= i < k ->
       exists e, func i = Raise e /\ is_json_decode_error e = true) ->
    outcome (attempts max_retries max_delay backoff_factor func n attempt delay last)
    = Ok v /\
    invocations (attempts max_retries max_delay backoff_factor func n attempt delay last)
    = S j /\
    List.length (slept (attempts max_retries max_delay backoff_factor func n attempt delay last))
    = j.
Proof.
  intros Hk Hv. induction j as [|j IH]; intros n attempt delay last Hsum Hn Hfail;
    (destruct n as [|n]; [lia|]); rewrite attempts_S.
  - assert (attempt = k) by lia. subst attempt. rewrite Hv. auto.
  - destruct (Hfail attempt) as [e [He Hj]]; [lia|]. rewrite He, Hj.
    assert (Hlt : (attempt <? max_retries)%nat = true) by (apply Nat.ltb_lt; lia).
    rewrite Hlt.
    destruct (IH n (S attempt) (Qmin (delay * backoff_factor) max_delay) (Some e))
      as [H1 [H2 H3]]; [lia|lia|intros i Hi; apply Hfail; lia|].
    cbn [invoked sleep outcome invocations slept Datatypes.length].
    rewrite H1, H2, H3. auto.
Qed.

(** X2.  If the first k invocations raise JSON decode errors (k within the
    retry budget) and invocation k returns a value, the wrapper returns that
    value after k + 1 invocations and k sleeps. *)
Theorem X2_retry_recovers {A : Type} (max_retries : nat)
    (base_delay max_delay backoff_factor : Q) (func : nat -> result A)
    (k : nat) (v : A) :
  k <= max_retries ->
  (forall i, i < k -> exists e, func i = Raise e /\ is_json_decode_error e = true) ->
  func k = Ok v ->
  outcome (retry_llm_call max_retries base_delay max_delay backoff_factor func) = Ok v /\
  invocations (retry_llm_call max_retries base_delay max_delay backoff_factor func)
  = k + 1 /\
  List.length (slept (retry_llm_call max_retries base_delay max_delay backoff_factor func))
  = k.
Proof.
  intros Hk Hfail Hv. unfold retry_llm_call.
  destruct (attempts_recover max_retries max_delay backoff_factor func k v Hk Hv
              k (max_retries + 1) 0 base_delay None) as [H1 [H2 H3]];
    [reflexivity|lia|intros i Hi; apply Hfail; lia|].
  rewrite H1, H2, H3. repeat split. lia.
Qed.

Lemma X2_retry_recovers_witness :
  (3 <= 5 /\
   (forall i, i < 3 ->
      exists e, (fun i => if (i <? 3)%nat then failing i else Ok (JInt 7)) i = Raise e
                /\ is_json_decode_error e = true) /\
   (fun i => if (i <? 3)%nat then failing i else Ok (JInt 7)) 3 = Ok (JInt 7)) /\
  outcome (retry_llm_call 5 (3 # 2) 30 2
             (fun i => if (i <? 3)%nat then failing i else Ok (JInt 7))) = Ok (JInt 7) /\
  invocations (retry_llm_call 5 (3 # 2) 30 2
                 (fun i => if (i <? 3)%nat then failing i else Ok (JInt 7))) = 3 + 1 /\
  List.length (slept (retry_llm_call 5 (3 # 2) 30 2
                        (fun i => if (i <? 3)%nat then failing i else Ok (JInt 7)))) = 3.
Proof.
  assert (H : forall i, i < 3 ->
      exists e, (fun i => if (i <? 3)%nat then failing i else Ok (JInt 7)) i = Raise e
                /\ is_json_decode_error e = true).
  { intros i Hi. cbn beta. apply Nat.ltb_lt in Hi. rewrite Hi.
    eexists. split; reflexivity. }
  split; [split; [lia|split; [exact H|reflexivity]]|].
  apply (X2_retry_recovers 5 (3 # 2) 30 2
           (fun i => if (i <? 3)%nat then failing i else Ok (JInt 7)) 3 (JInt 7));
    [lia|exact H|reflexivity].
Defined.

(** X3.  For every configuration, a wrapped function that raises at each
    invocation an error other than a JSON decode error is invoked
    min(2, max_retries) + 1 times; the wrapper raises what the last of these
    invocations raised. *)
Theorem X3_other_errors_are_retried_twice {A : Type} (max_retries : nat)
    (base_delay max_delay backoff_factor : Q) (func : nat -> result A) :
  always_other_error func ->
  invocations (retry_llm_call max_retries base_delay max_delay backoff_factor func)
  = Nat.min 2 max_retries + 1 /\
  outcome (retry_llm_call max_retries base_delay max_delay backoff_factor func)
  = func (Nat.min 2 max_retries).
Proof.
  intros Hf. unfold retry_llm_call.
  destruct (attempts_other_errors max_retries max_delay backoff_factor func Hf
              (max_retries + 1) 0 base_delay None) as [H1 H2]; [lia|lia|].
  rewrite H1, H2. split; [lia|reflexivity].
Qed.

Lemma X3_other_errors_are_retried_twice_witness :
  always_other_error
    (fun i => Raise (mk_exn UpstreamError (string_of_nat i)) : result json) /\
  invocations (retry_llm_call 5 (3 # 2) 30 2
                 (fun i => Raise (mk_exn UpstreamError (string_of_nat i)) : result json))
  = Nat.min 2 5 + 1 /\
  outcome (retry_llm_call 5 (3 # 2) 30 2
             (fun i => Raise (mk_exn UpstreamError (string_of_nat i)) : result json))
  = (fun i => Raise (mk_exn UpstreamError (string_of_nat i)) : result json) (Nat.min 2 5).
Proof.
  assert (H : always_other_error
    (fun i => Raise (mk_exn UpstreamError (string_of_nat i)) : result json)).
  { intros i. eexists. split; reflexivity. }
  split; [exact H|].
  apply (X3_other_errors_are_retried_twice 5 (3 # 2) 30 2
           (fun i => Raise (mk_exn UpstreamError (string_of_nat i)) : result json) H).
Defined.

(** X4.  The first delay slept is base_delay as it is, also when it exceeds
    max_delay; every later delay is at most max_delay. *)
Theorem X4_delays_are_capped_after_the_first {A : Type} (max_retries : nat)
    (base_delay max_delay backoff_factor : Q) (func : nat -> result A)
    (j : nat) (d : Q) :
  nth_error (slept (retry_llm_call max_retries base_delay max_delay backoff_factor func)) j
  = Some d ->
  match j with
  | O => d = base_delay
  | S _ => (d <= max_delay)%Q
  end.
Proof.
  unfold retry_llm_call. intros H. apply slept_schedule in H. subst d.
  destruct j as [|j]; [reflexivity|].
  cbn [Nat.iter]. apply Q.le_min_r.
Qed.

Lemma X4_delays_are_capped_after_the_first_witness :
  nth_error (slept (retry_llm_call 5 40 30 2 failing)) 0 = Some 40%Q /\
  40%Q = 40%Q.
Proof.
  split; [reflexivity|].
  apply (X4_delays_are_capped_after_the_first 5 40 30 2 failing 0 40%Q).
  reflexivity.
Defined.

Lemma list_by_index {X : Type} (l : list X) :
  forall g : nat -> X,
    (forall j d, nth_error l j = Some d -> d = g j) ->
    l = map g (seq 0 (List.length l)).
Proof.
  induction l as [|x l IH]; intros g H; [reflexivity|].
  cbn [Datatypes.length seq map]. f_equal.
  - apply (H 0). reflexivity.
  - rewrite <- seq_shift, map_map. apply IH.
    intros j d Hj. apply (H (S j)). exact Hj.
Qed.

(** X5.  A run of the pipeline calls the LLM at most seven times (six
    attempts of phase 1 and the single call of phase 3) and sleeps at most
    46.5 seconds in all. *)
Theorem X5_run_budget (E : Env) (request : MissionPlanRequest) :
  llm_calls (generate_mission_plan E request) <= 7 /\
  (total (sleeps (generate_mission_plan E request)) <= 93 # 2)%Q.
Proof.
  destruct (phase3_calls_llm_at_most_once E request) as [Hs [_ Hc]].
  set (f := fun i => structure_attempt E request (0 + i)).
  assert (Hr : _generate_mission_structure E request 0 = retry_llm_call 5 (3 # 2)%Q 30%Q 2%Q f)
    by reflexivity.
  rewrite Hr in *.
  pose proof (attempts_invocations_le 5 30%Q 2%Q f 6 0 (3 # 2)%Q None) as Hle.
  pose proof (sleeps_between_invocations 5 30%Q 2%Q f 5 0 (3 # 2)%Q None eq_refl) as Heq.
  change (attempts 5 30%Q 2%Q f 6 0 (3 # 2)%Q None) with (retry_llm_call 5 (3 # 2)%Q 30%Q 2%Q f)
    in Hle, Heq.
  split; [lia|].
  rewrite Hs.
  assert (Hl : slept (retry_llm_call 5 (3 # 2)%Q 30%Q 2%Q f)
               = map (fun j => Nat.iter j (fun d => (Qmin (d * 2) 30)%Q) (3 # 2)%Q)
                   (seq 0 (List.length (slept (retry_llm_call 5 (3 # 2)%Q 30%Q 2%Q f))))).
  { apply list_by_index. intros j d Hj. unfold retry_llm_call in Hj.
    now apply slept_schedule in Hj. }
  rewrite Hl.
  assert (Hn : List.length (slept (retry_llm_call 5 (3 # 2)%Q 30%Q 2%Q f)) <= 5) by lia.
  destruct (List.length (slept (retry_llm_call 5 (3 # 2)%Q 30%Q 2%Q f)))
    as [|[|[|[|[|[|n]]]]]]; try lia; vm_compute; discriminate.
Qed.

(** ** The extraction *)

Lemma find_drop (c : ascii) (s : string) :
  find c s = None -> forall n, find c (drop n s) = None.
Proof.
  induction s as [|a s IH]; intros H n.
  - destruct n; reflexivity.
  - destruct n as [|n]; [exact H|]. cbn [drop]. apply IH.
    cbn [find] in H. destruct (Ascii.eqb a c); [discriminate|].
    destruct (find c s); [discriminate|reflexivity].
Qed.

Lemma match_brace_never_closes (s : string) :
  find rbrace s = None -> forall i d, match_brace s i d = None.
Proof.
  induction s as [|a s IH]; intros H i d; [reflexivity|].
  cbn [find] in H. cbn [match_brace].
  destruct (Ascii.eqb a rbrace); [discriminate|].
  destruct (find rbrace s); [discriminate|].
  destruct (Ascii.eqb a lbrace); auto.
Qed.

Lemma substring_nothing (s : string) : forall n, substring n 0 s = EmptyString.
Proof.
  induction s as [|a s IH]; intros [|n]; cbn [substring]; auto.
Qed.

(** X6.  An answer with an opening brace and no closing brace gives the
    empty text to the decoder: phase 1 fails with a JSON decode error (the
    tier of full retries), and so does phase 3 when the direct parse of the
    whole answer fails. *)
Theorem X6_unclosed_brace_is_a_decode_error (text : string) (start : nat) :
  find lbrace text = Some start ->
  find rbrace text = None ->
  json_text text start = EmptyString /\
  fails_with JSONDecodeError (parse_structure text) = true /\
  (is_ok (Json.loads text) = false ->
   fails_with JSONDecodeError (parse_plan text) = true).
Proof.
  intros Hl Hr.
  assert (Ht : json_text text start = EmptyString).
  { unfold json_text.
    rewrite (match_brace_never_closes _ (find_drop _ _ Hr start)).
    unfold slice. rewrite Nat.sub_diag. apply substring_nothing. }
  split; [exact Ht|]. split.
  - unfold parse_structure. rewrite Hl, Ht. reflexivity.
  - unfold parse_plan. intros Hd.
    destruct (Json.loads text) as [v|e] eqn:He; [discriminate|].
    rewrite (loads_raises_decode_error _ _ He), Hl, Ht. reflexivity.
Qed.

Lemma X6_unclosed_brace_is_a_decode_error_witness :
  (find lbrace "Sure: { unfinished" = Some 6 /\
   find rbrace "Sure: { unfinished" = None) /\
  json_text "Sure: { unfinished" 6 = EmptyString /\
  fails_with JSONDecodeError (parse_structure "Sure: { unfinished") = true /\
  (is_ok (Json.loads "Sure: { unfinished") = false ->
   fails_with JSONDecodeError (parse_plan "Sure: { unfinished") = true).
Proof.
  split; [split; reflexivity|].
  apply (X6_unclosed_brace_is_a_decode_error "Sure: { unfinished" 6); reflexivity.
Defined.

Lemma find_drop_found (c : ascii) (s : string) :
  forall i, find c s = Some i -> exists rest, drop i s = String c rest.
Proof.
  induction s as [|a s IH]; intros i; cbn [find]; [discriminate|].
  destruct (Ascii.eqb a c) eqn:Hac.
  - intros H. inversion H; subst. apply Ascii.eqb_eq in Hac. subst.
    cbn [drop]. eauto.
  - destruct (find c s) as [j|]; [|discriminate].
    intros H. inversion H; subst. cbn [drop]. eauto.
Qed.

Lemma substring_drop (s : string) :
  forall n m, substring n m s = substring 0 m (drop n s).
Proof.
  induction s as [|a s IH]; intros [|n] m; cbn [substring drop]; auto.
  destruct m; reflexivity.
Qed.

Lemma parse_value_object (f : nat) (x : string) (v : json) (r : string) :
  Json.parse_value (S f) (String lbrace x) = Some (v, r) -> exists m, v = JObj m.
Proof.
  unfold lbrace. cbn [Json.parse_value].
  destruct (Json.skip_ws x) as [|[[] [] [] [] [] [] [] []] r']; cbv zeta;
    intros H;
    try (destruct (Json.parse_members _ _ _ _) as [[m r'']|]);
    inversion H; eauto.
Qed.

Lemma loads_object (x : string) (v : json) :
  Json.loads (String lbrace x) = Ok v -> exists m, v = JObj m.
Proof.
  unfold Json.loads. cbn [Json.skip_ws]. change (Json.is_ws lbrace) with false.
  cbn iota.
  destruct (Json.parse_value _ _) as [[v0 r]|] eqn:Hp; [|discriminate].
  apply parse_value_object in Hp.
  destruct (Json.skip_ws r); intros H; inversion H; subst; exact Hp.
Qed.

(** X7.  Whatever the LLM answers, the structure analysis that phase 1
    returns is a JSON object, never an array, a string or a number. *)
Theorem X7_structure_is_an_object (text : string) (v : json) :
  parse_structure text = Ok v -> exists m, v = JObj m.
Proof.
  unfold parse_structure.
  destruct (find lbrace text) as [start|] eqn:Hf; [|discriminate].
  destruct (find_drop_found _ _ _ Hf) as [rest Hd].
  unfold json_text, slice. rewrite substring_drop, Hd.
  destruct (_ - start) as [|len].
  - cbn. discriminate.
  - cbn [substring]. apply loads_object.
Qed.

Lemma X7_structure_is_an_object_witness :
  parse_structure ("Here is the analysis: " ++ render structure_json)
  = Ok (JObj [("mission_type", JStr "survey");
              ("key_locations", JArr [JObj [("name", JStr "Field A")]])]) /\
  exists m,
    JObj [("mission_type", JStr "survey");
          ("key_locations", JArr [JObj [("name", JStr "Field A")]])] = JObj m.
Proof.
  split; [reflexivity|].
  apply (X7_structure_is_an_object ("Here is the analysis: " ++ render structure_json)).
  reflexivity.
Defined.

(** ** The geocoding service *)

(** X8.  A lookup returns coordinates only when a key is configured, and
    then they are either the fallback pair or come from a reply with HTTP
    status 200 whose status field is OK. *)
Theorem X8_origin_of_coordinates (E : Env) (location_name : json) (c : coords) :
  geocode_location E location_name = Some c ->
  (exists key, GOOGLE_MAPS_API_KEY E = Some key /\ key <> EmptyString) /\
  (c = fallback_coordinates \/
   exists data,
     http_get E location_name = HttpReply 200 (Ok data) /\
     py_getitem data "status" = Ok (JStr "OK")).
Proof.
  unfold geocode_location.
  destruct (GOOGLE_MAPS_API_KEY E) as [[|k0 key]|]; try discriminate.
  intros H. split; [eexists; split; [reflexivity|discriminate]|].
  destruct (geocode_request E location_name) as [r|e] eqn:Hr.
  - subst r. right. unfold geocode_request in Hr.
    destruct (aiohttp_installed E); [|discriminate]. cbn [negb] in Hr.
    destruct (http_get E location_name) as [e|code body]; [discriminate|].
    destruct (code =? 200)%nat eqn:Hcode; [|discriminate].
    apply Nat.eqb_eq in Hcode. subst code.
    destruct body as [data|e]; [|discriminate]. cbn [bind] in Hr.
    exists data. split; [reflexivity|].
    destruct (py_getitem data "status") as [st|e]; [|discriminate].
    cbn [bind] in Hr.
    destruct st as [| | | |s| |]; try discriminate.
    destruct (String.eqb s "OK") eqn:Hs.
    + apply String.eqb_eq in Hs. now subst.
    + exfalso. revert Hr.
      repeat match goal with
             | |- context [match ?t with _ => _ end] => destruct t
             end; cbn; try discriminate;
        rewrite ?String.eqb_refl in Hs; discriminate.
  - left. destruct (exn_kind_eqb (exn_type e) ImportError); congruence.
Qed.

Lemma X8_origin_of_coordinates_witness :
  geocode_location env_success (JStr "Field A") = Some fallback_coordinates /\
  (exists key, GOOGLE_MAPS_API_KEY env_success = Some key /\ key <> EmptyString) /\
  (fallback_coordinates = fallback_coordinates \/
   exists data,
     http_get env_success (JStr "Field A") = HttpReply 200 (Ok data) /\
     py_getitem data "status" = Ok (JStr "OK")).
Proof.
  split; [reflexivity|].
  apply (X8_origin_of_coordinates env_success (JStr "Field A") fallback_coordinates).
  reflexivity.
Defined.

(** X9.  With a key configured and aiohttp installed, a reply with HTTP
    status 200 whose body locates the place at [c] is decoded to [c],
    whatever the two values of [c] are. *)
Theorem X9_reply_is_decoded (E : Env) (location_name : json) (key : string) (c : coords) :
  GOOGLE_MAPS_API_KEY E = Some key ->
  key <> EmptyString ->
  aiohttp_installed E = true ->
  http_get E location_name = HttpReply 200 (Ok (geocoding_reply c)) ->
  geocode_location E location_name = Some c.
Proof.
  intros Hkey Hne Hyes Hget.
  unfold geocode_location, geocode_request. rewrite Hkey, Hyes, Hget.
  destruct key; [contradiction|]. destruct c. reflexivity.
Qed.

Lemma X9_reply_is_decoded_witness :
  (GOOGLE_MAPS_API_KEY
     {| stream_text := stream_text env_success;
        OPENROUTER_API_MODEL := None;
        GOOGLE_MAPS_API_KEY := Some "key";
        aiohttp_installed := true;
        http_get := fun _ => HttpReply 200 (Ok (geocoding_reply (JFloat (1 # 2), JInt 3)));
        uuid4 := uuid4 env_success;
        utcnow := utcnow env_success;
        structure_system_prompt := EmptyString;
        detailed_system_prompt := EmptyString;
        build_structure_prompt := build_structure_prompt env_success;
        build_detailed_prompt := build_detailed_prompt env_success;
        to_float := num_of; to_int := int_of; to_str := str_of;
        format_value := format_value env_success |} = Some "key" /\
   "key" <> EmptyString) /\
  geocode_location
     {| stream_text := stream_text env_success;
        OPENROUTER_API_MODEL := None;
        GOOGLE_MAPS_API_KEY := Some "key";
        aiohttp_installed := true;
        http_get := fun _ => HttpReply 200 (Ok (geocoding_reply (JFloat (1 # 2), JInt 3)));
        uuid4 := uuid4 env_success;
        utcnow := utcnow env_success;
        structure_system_prompt := EmptyString;
        detailed_system_prompt := EmptyString;
        build_structure_prompt := build_structure_prompt env_success;
        build_detailed_prompt := build_detailed_prompt env_success;
        to_float := num_of; to_int := int_of; to_str := str_of;
        format_value := format_value env_success |} (JStr "Pier 39")
  = Some (JFloat (1 # 2), JInt 3).
Proof.
  split; [split; [reflexivity|discriminate]|].
  apply (X9_reply_is_decoded _ (JStr "Pier 39") "key" (JFloat (1 # 2), JInt 3));
    [reflexivity|discriminate|reflexivity|reflexivity].
Defined.

Lemma dict_set_absent (k : json) (v : option coords) (d : geocoded) :
  dict_contains k d = false -> dict_set k v d = (d ++ [(k, v)])%list.
Proof.
  unfold dict_contains. induction d as [|[k' v'] d IH]; cbn [existsb dict_set app fst].
  - reflexivity.
  - intros H. apply orb_false_iff in H. destruct H as [Hk Hd].
    rewrite Hk, IH by exact Hd. reflexivity.
Qed.

Lemma dict_get_app (k : json) (v : option coords) (d x : geocoded) :
  dict_get k d = Some v -> dict_get k (d ++ x)%list = Some v.
Proof.
  unfold dict_get. induction d as [|[k' v'] d IH]; cbn [List.find app fst].
  - discriminate.
  - destruct (py_key_eqb k k'); auto.
Qed.

Lemma geocode_key_locations_keeps (E : Env) (locations : list json) :
  forall d d',
    geocode_key_locations E locations d = Ok d' ->
    forall k v, dict_get k d = Some v -> dict_get k d' = Some v.
Proof.
  induction locations as [|location rest IH]; intros d d'; cbn [geocode_key_locations].
  - intros H. inversion H; subst. auto.
  - destruct (py_get location "name" (JStr EmptyString)) as [location_name|e];
      [|discriminate]. cbn [bind].
    destruct (py_bool location_name); [|apply IH].
    destruct (hashable location_name); [|discriminate].
    destruct (dict_contains location_name d) eqn:Hc; [apply IH|].
    intros H k v Hk. eapply IH; [exact H|].
    rewrite dict_set_absent by exact Hc. now apply dict_get_app.
Qed.

Lemma dict_get_set_other (k k' : json) (v' : option coords) (d : geocoded) :
  (forall x, py_key_eqb k x = true -> py_key_eqb k' x = false) ->
  forall v, dict_get k d = Some v -> dict_get k (dict_set k' v' d) = Some v.
Proof.
  intros Hother. unfold dict_get.
  induction d as [|[k1 v1] d IH]; cbn [List.find dict_set fst]; [discriminate|].
  intros v. destruct (py_key_eqb k k1) eqn:Hk.
  - rewrite (Hother k1 Hk). cbn [List.find fst]. now rewrite Hk.
  - destruct (py_key_eqb k' k1); cbn [List.find fst]; rewrite Hk; auto.
Qed.

Lemma start_position_is_no_aoi_point (n : string) (x : json) :
  py_key_eqb (JStr "start_position") x = true ->
  py_key_eqb (JStr ("aoi_point_" ++ n)) x = false.
Proof.
  destruct x as [| | | |s| |]; cbn [py_key_eqb num_of]; try discriminate.
  intros H. apply String.eqb_eq in H. subst s. reflexivity.
Qed.

Lemma add_area_of_interest_keeps_start (area : list Coordinate) :
  forall i d v,
    dict_get (JStr "start_position") d = Some v ->
    dict_get (JStr "start_position") (add_area_of_interest i area d) = Some v.
Proof.
  induction area as [|coord rest IH]; intros i d v H; cbn [add_area_of_interest].
  - exact H.
  - apply IH. apply dict_get_set_other; [|exact H].
    intros x. apply start_position_is_no_aoi_point.
Qed.

(** X10.  When the request gives a start position, the geocoded locations
    map the key start_position to the latitude and longitude of the request:
    neither an area-of-interest point nor a key location of the LLM with that
    name replaces it, and no lookup is made for it. *)
Theorem X10_start_position_is_kept (E : Env) (structure_data : json)
    (request : MissionPlanRequest) (p : Coordinate) (d : geocoded) :
  start_position request = Some p ->
  _geocode_mission_locations E structure_data request = Ok d ->
  dict_get (JStr "start_position") d = Some (Some (JFloat (lat p), JFloat (lng p))).
Proof.
  unfold _geocode_mission_locations. intros Hp. rewrite Hp.
  destruct (py_get structure_data "key_locations" (JArr [])) as [kl|e];
    [|discriminate]. cbn [bind].
  destruct (py_iter kl) as [locations|e]; [|discriminate]. cbn [bind].
  intros H. eapply geocode_key_locations_keeps; [exact H|].
  destruct (area_of_interest request) as [area|].
  - now apply add_area_of_interest_keeps_start.
  - reflexivity.
Qed.

Lemma X10_start_position_is_kept_witness :
  (start_position request_from_pier
   = Some {| lat := 378 # 10; lng := - 1224 # 10; alt := None |} /\
   _geocode_mission_locations env_geocoder_down structure_with_start request_from_pier
   = Ok [(JStr "start_position", Some (JFloat (378 # 10), JFloat (- 1224 # 10)));
         (JStr "aoi_point_1", Some (JFloat (379 # 10), JFloat (- 1225 # 10)));
         (JStr "Field A", None)]) /\
  dict_get (JStr "start_position")
    [(JStr "start_position", Some (JFloat (378 # 10), JFloat (- 1224 # 10)));
     (JStr "aoi_point_1", Some (JFloat (379 # 10), JFloat (- 1225 # 10)));
     (JStr "Field A", None)]
  = Some (Some (JFloat (lat {| lat := 378 # 10; lng := - 1224 # 10; alt := None |}),
                JFloat (lng {| lat := 378 # 10; lng := - 1224 # 10; alt := None |}))).
Proof.
  split; [split; reflexivity|].
  apply (X10_start_position_is_kept env_geocoder_down structure_with_start
           request_from_pier {| lat := 378 # 10; lng := - 1224 # 10; alt := None |});
    reflexivity.
Defined.

Lemma dict_contains_set (k k' : json) (v : option coords) (d : geocoded) :
  dict_contains k d = true -> dict_contains k (dict_set k' v d) = true.
Proof.
  unfold dict_contains. induction d as [|[k1 v1] d IH]; cbn [existsb dict_set fst].
  - discriminate.
  - intros H. apply orb_true_iff in H.
    destruct (py_key_eqb k' k1); cbn [existsb fst]; apply orb_true_iff;
      destruct H; auto.
Qed.

Lemma dict_contains_set_same (s : string) (v : option coords) (d : geocoded) :
  dict_contains (JStr s) (dict_set (JStr s) v d) = true.
Proof.
  unfold dict_contains. induction d as [|[k1 v1] d IH]; cbn [existsb dict_set fst].
  - cbn [py_key_eqb]. now rewrite String.eqb_refl.
  - destruct (py_key_eqb (JStr s) k1) eqn:Hk; cbn [existsb fst].
    + now rewrite Hk.
    + now rewrite Hk, IH.
Qed.

Lemma geocode_key_locations_total (E : Env) (locations : list json) :
  forallb named locations = true ->
  forall d, exists d',
    geocode_key_locations E locations d = Ok d' /\
    (forall k, dict_contains k d = true -> dict_contains k d' = true) /\
    (forall m s, In (JObj m) locations -> assoc_get "name" m = Some (JStr s) ->
                 s <> EmptyString -> dict_contains (JStr s) d' = true).
Proof.
  induction locations as [|location rest IH]; cbn [forallb]; intros Hn d.
  - exists d. repeat split; auto; intros m s [].
  - apply andb_true_iff in Hn. destruct Hn as [Hloc Hrest].
    specialize (IH Hrest). cbn [geocode_key_locations].
    destruct location as [| | | | | |m0]; try discriminate.
    cbn [named] in Hloc. cbn [py_get].
    destruct (assoc_get "name" m0) as [name|] eqn:Hname.
    + destruct name as [| | | |s0| |]; try discriminate. cbn [bind py_bool hashable].
      destruct (String.eqb s0 EmptyString) eqn:Hs0; cbn [negb].
      * destruct (IH d) as [d' [H1 [H2 H3]]]. exists d'. repeat split; auto.
        intros m s [Hm|Hm] Hms Hne; [|eauto].
        inversion Hm; subst. rewrite Hname in Hms. inversion Hms; subst.
        apply String.eqb_eq in Hs0. contradiction.
      * destruct (dict_contains (JStr s0) d) eqn:Hc.
        -- destruct (IH d) as [d' [H1 [H2 H3]]]. exists d'. repeat split; auto.
           intros m s [Hm|Hm] Hms Hne; [|eauto].
           inversion Hm; subst. rewrite Hname in Hms. inversion Hms; subst. auto.
        -- destruct (IH (dict_set (JStr s0) (geocode_location E (JStr s0)) d))
             as [d' [H1 [H2 H3]]].
           exists d'. repeat split; auto.
           ++ intros k Hk. apply H2. now apply dict_contains_set.
           ++ intros m s [Hm|Hm] Hms Hne; [|eauto].
              inversion Hm; subst. rewrite Hname in Hms. inversion Hms; subst.
              apply H2, dict_contains_set_same.
    + cbn [bind py_bool]. rewrite String.eqb_refl. cbn [negb].
      destruct (IH d) as [d' [H1 [H2 H3]]]. exists d'. repeat split; auto.
      intros m s [Hm|Hm] Hms Hne; [|eauto].
      inversion Hm; subst. rewrite Hname in Hms. discriminate.
Qed.

(** X11.  When the key locations of the structure analysis are objects
    whose names are strings, phase 2 never raises, whatever the geocoder does
    (a failed lookup is an entry without coordinates), and every non-empty
    name is a key of the geocoded locations. *)
Theorem X11_failed_lookups_are_no_errors (E : Env) (structure_data : json)
    (request : MissionPlanRequest) (locations : list json) :
  py_get structure_data "key_locations" (JArr []) = Ok (JArr locations) ->
  forallb named locations = true ->
  exists d,
    _geocode_mission_locations E structure_data request = Ok d /\
    forall m s, In (JObj m) locations -> assoc_get "name" m = Some (JStr s) ->
                s <> EmptyString -> dict_contains (JStr s) d = true.
Proof.
  intros Hk Hn. unfold _geocode_mission_locations. rewrite Hk. cbn [bind py_iter].
  destruct (geocode_key_locations_total E locations Hn
              (match area_of_interest request with
               | Some area =>
                   add_area_of_interest 0 area
                     match start_position request with
                     | Some p => dict_set (JStr "start_position") (coords_of p) []
                     | None => []
                     end
               | None =>
                   match start_position request with
                   | Some p => dict_set (JStr "start_position") (coords_of p) []
                   | None => []
                   end
               end)) as [d [H1 [_ H3]]].
  exists d. split; [exact H1|exact H3].
Qed.

Lemma X11_failed_lookups_are_no_errors_witness :
  (py_get structure_with_start "key_locations" (JArr [])
   = Ok (JArr [JObj [("name", JStr "start_position")];
               JObj [("name", JStr "Field A")];
               JObj [("purpose", JStr "waypoint")]]) /\
   forallb named [JObj [("name", JStr "start_position")];
                  JObj [("name", JStr "Field A")];
                  JObj [("purpose", JStr "waypoint")]] = true) /\
  exists d,
    _geocode_mission_locations env_geocoder_down structure_with_start request_from_pier
    = Ok d /\
    forall m s,
      In (JObj m) [JObj [("name", JStr "start_position")];
                   JObj [("name", JStr "Field A")];
                   JObj [("purpose", JStr "waypoint")]] ->
      assoc_get "name" m = Some (JStr s) ->
      s <> EmptyString -> dict_contains (JStr s) d = true.
Proof.
  split; [split; reflexivity|].
  apply (X11_failed_lookups_are_no_errors env_geocoder_down structure_with_start
           request_from_pier); reflexivity.
Defined.

(** X12.  The chunks of phase 2 name the locations that have coordinates,
    in the order of the dict; their number is the count of the summary
    chunk and the number of locations recorded in the metadata of the
    plan. *)
Theorem X12_located_chunks_match_resolved_locations (E : Env) (items : geocoded)
    (total s : nat) :
  map content (fst (geocoded_chunks E items 0 total s))
  = map (fun kv => Some ("Geocoded location: " ++ py_str E (fst kv)))
      (filter is_resolved items) /\
  snd (geocoded_chunks E items 0 total s) = List.length (filter is_resolved items) /\
  exists m, resolved_locations E items = JObj m /\
            List.length m = List.length (filter is_resolved items).
Proof.
  split; [|split].
  - generalize 0 as k. revert s.
    induction items as [|[location_name [c|]] rest IH]; intros s k;
      cbn [geocoded_chunks filter is_resolved snd]; auto.
    specialize (IH (S s) (S k)).
    destruct (geocoded_chunks E rest (S k) total (S s)) as [cs n].
    cbn [fst map content geocoded_status status_chunk] in *. now rewrite IH.
  - enough (H : forall k, snd (geocoded_chunks E items k total s)
                          = k + List.length (filter is_resolved items))
      by apply (H 0).
    revert s. induction items as [|[location_name [c|]] rest IH]; intros s k;
      cbn [geocoded_chunks filter is_resolved snd].
    + cbn. lia.
    + specialize (IH (S s) (S k)).
      destruct (geocoded_chunks E rest (S k) total (S s)) as [cs n].
      cbn [snd] in *. rewrite IH. cbn [Datatypes.length]. lia.
    + apply IH.
  - eexists. split; [reflexivity|].
    induction items as [|[location_name [[la lo]|]] rest IH];
      cbn [flat_map filter is_resolved snd app Datatypes.length]; auto.
Qed.

Lemma plain_not_final (body : list StreamingChunk) :
  forallb plain body = true -> existsb is_final body = false.
Proof.
  induction body as [|c body IH]; cbn [forallb existsb]; [auto|].
  intros H. apply andb_true_iff in H. destruct H as [Hc Hb].
  rewrite (IH Hb). unfold plain in Hc. now destruct (is_final c).
Qed.

Lemma relay_raises_closes (cs : list StreamingChunk) (e : exn) (s : nat) :
  existsb is_final (relay (yield_all cs (raises e)) s) = true.
Proof.
  rewrite relay_yield_all, relay_raises, existsb_app. cbn. apply orb_true_r.
Qed.

Section ClosingFacts.
Variable E : Env.
Variable request : MissionPlanRequest.

Lemma finish_plan_closes structure_data geocoded_locations text s :
  existsb is_final
    (relay (finish_plan E request structure_data geocoded_locations text s) s) = true.
Proof.
  unfold finish_plan.
  destruct (parse_plan text) as [plan_data|e]; [|now rewrite relay_raises].
  destruct (bind (py_getitem plan_data "waypoints") _) as [[total items]|e];
    [|now rewrite relay_raises].
  destruct (convert_waypoints E items 1 total 0 s []) as [cs r].
  destruct r as [waypoints|e]; [|apply relay_raises_closes].
  destruct (bind (assemble_plan _ _ _ _ _ _ _) _) as [[p c]|e];
    [|apply relay_raises_closes].
  rewrite relay_yield_all, !relay_yield, relay_returns, existsb_app.
  cbn. rewrite !orb_true_r. reflexivity.
Qed.

Lemma detailed_loop_silent structure_data geocoded_locations evs fails :
  forall acc accr s,
    accumulated_at_stop evs acc = None ->
    exists thoughts,
      forallb plain thoughts = true /\
      detailed_loop E request structure_data geocoded_locations evs fails acc accr s
      = yield_all thoughts
          match fails with
          | Some e => raises e
          | None => returns
          end.
Proof.
  induction evs as [|chunk rest IH]; intros acc accr s;
    cbn [accumulated_at_stop detailed_loop].
  - intros _. exists []. split; [reflexivity|]. now destruct fails.
  - destruct (choices chunk) as [|choice others]; [apply IH|].
    destruct (stopped choice); [discriminate|].
    destruct (String.eqb _ EmptyString); [apply IH|].
    intros H.
    destruct (IH (acc ++ text_of (delta_content (delta choice)))
                (accr ++ text_of (delta_reasoning (delta choice))) (S s) H)
      as [thoughts [Hp Heq]].
    exists (reasoning_chunk (text_of (delta_reasoning (delta choice))) s :: thoughts).
    split; [simpl; now rewrite Hp|]. now rewrite Heq.
Qed.

Lemma run_stops_early e :
  phases_1_2 E request = Raise e ->
  existsb is_final (chunks (generate_mission_plan E request)) = true.
Proof.
  unfold phases_1_2, generate_mission_plan.
  destruct (outcome (_generate_mission_structure E request 0)) as [sd|e1];
    [|reflexivity]. cbn [bind].
  destruct (count_key_locations sd) as [n|e1]; [|reflexivity]. cbn [bind].
  destruct (_geocode_mission_locations E sd request) as [geo|e1]; [|reflexivity].
  discriminate.
Qed.
End ClosingFacts.

(** X13.  A run ends without a final chunk exactly when phase 3 is reached
    and its stream ends, without an exception, before any event with the
    finish reason stop. *)
Theorem X13_runs_without_final_chunk (E : Env) (request : MissionPlanRequest) :
  existsb is_final (chunks (generate_mission_plan E request)) = false <->
  exists s, phase3_stream E request = Some s /\
            accumulated_at_stop (events s) EmptyString = None /\
            failure s = None.
Proof.
  unfold phase3_stream.
  destruct (phases_1_2 E request) as [[sd geo]|e] eqn:H12.
  - destruct (run_reaches_phase3 E request sd geo H12) as [prefix [Hp [Hc _]]].
    rewrite Hc, existsb_app, (plain_not_final prefix Hp). cbn [orb].
    unfold _generate_detailed_mission_plan.
    destruct (build_detailed_prompt E request sd geo) as [prompt|e]; cbn [fst].
    + set (s := stream_text E _ _).
      destruct (accumulated_at_stop (events s) EmptyString) as [text|] eqn:Hstop.
      * destruct (detailed_loop_stop E request sd geo _ (failure s) text
                    EmptyString EmptyString (List.length prefix) Hstop)
          as [thoughts [Hth Heq]].
        rewrite Heq, relay_yield_all, existsb_app, finish_plan_closes, orb_true_r.
        split; [discriminate|].
        intros [s' [Hs [Hn _]]]. inversion Hs; subst s'. congruence.
      * destruct (detailed_loop_silent E request sd geo _ (failure s)
                    EmptyString EmptyString (List.length prefix) Hstop)
          as [thoughts [Hth Heq]].
        rewrite Heq. destruct (failure s) as [e|] eqn:Hf.
        -- rewrite relay_raises_closes. split; [discriminate|].
           intros [s' [Hs [_ Hn]]]. inversion Hs; subst s'. congruence.
        -- rewrite relay_yield_all, relay_returns, app_nil_r,
             (plain_not_final thoughts Hth).
           split; [|reflexivity]. intros _. exists s. auto.
    + rewrite relay_raises. cbn. split; [discriminate|].
      intros [s [Hs _]]. discriminate.
  - rewrite (run_stops_early E request e H12). split; [discriminate|].
    intros [s [Hs _]]. discriminate.
Qed.

(** X14.  In every run a chunk is final exactly when it is a plan or an
    error chunk, and no chunk has one of the types waypoint,
    structure_analysis and location_geocoded. *)
Theorem X14_final_chunks_by_type (E : Env) (request : MissionPlanRequest)
    (c : StreamingChunk) :
  In c (chunks (generate_mission_plan E request)) ->
  is_final c = (is_type plan_chunk c || is_type error_chunk c) /\
  is_type waypoint c = false /\
  is_type structure_analysis c = false /\
  is_type location_geocoded c = false.
Proof.
  destruct (generate_mission_plan_shape E request) as [body [tail [Hc [Hp [_ Ht]]]]].
  rewrite Hc. intros Hin. apply in_app_or in Hin. destruct Hin as [Hin|Hin].
  - rewrite forallb_forall in Hp. specialize (Hp c Hin).
    unfold plain, is_type in *. destruct (is_final c); [discriminate|].
    destruct (type c); try discriminate; auto.
  - destruct Ht as [|p n|text n]; cbn [In] in Hin.
    + contradiction.
    + destruct Hin as [<-|[]]. auto.
    + destruct Hin as [<-|[]]. auto.
Qed.

Lemma X14_final_chunks_by_type_witness :
  In (status_chunk
        "Phase 1/3: Analyzing mission structure and identifying key locations..."
        (phase_data 1 (JInt 5) []) 0)
     (chunks (generate_mission_plan env_success survey_request)) /\
  (is_final (status_chunk
        "Phase 1/3: Analyzing mission structure and identifying key locations..."
        (phase_data 1 (JInt 5) []) 0)
   = (is_type plan_chunk (status_chunk
        "Phase 1/3: Analyzing mission structure and identifying key locations..."
        (phase_data 1 (JInt 5) []) 0)
      || is_type error_chunk (status_chunk
        "Phase 1/3: Analyzing mission structure and identifying key locations..."
        (phase_data 1 (JInt 5) []) 0)) /\
   is_type waypoint (status_chunk
        "Phase 1/3: Analyzing mission structure and identifying key locations..."
        (phase_data 1 (JInt 5) []) 0) = false /\
   is_type structure_analysis (status_chunk
        "Phase 1/3: Analyzing mission structure and identifying key locations..."
        (phase_data 1 (JInt 5) []) 0) = false /\
   is_type location_geocoded (status_chunk
        "Phase 1/3: Analyzing mission structure and identifying key locations..."
        (phase_data 1 (JInt 5) []) 0) = false).
Proof.
  split.
  - vm_compute. left. reflexivity.
  - apply (X14_final_chunks_by_type env_success survey_request).
    vm_compute. left. reflexivity.
Defined.

Section ReasoningFacts.
Variable E : Env.
Variable request : MissionPlanRequest.

Lemma geocoded_chunks_no_reasoning items :
  forall k total s,
    filter (is_type reasoning) (fst (geocoded_chunks E items k total s)) = [].
Proof.
  induction items as [|[location_name [c|]] rest IH]; intros k total s;
    cbn [geocoded_chunks]; [reflexivity| |apply IH].
  specialize (IH (S k) total (S s)).
  destruct (geocoded_chunks E rest (S k) total (S s)) as [cs n].
  cbn [fst] in *. cbn [filter]. exact IH.
Qed.

Lemma convert_waypoints_no_reasoning items :
  forall i total u s waypoints,
    filter (is_type reasoning)
      (fst (convert_waypoints E items i total u s waypoints)) = [].
Proof.
  induction items as [|wp_data rest IH]; intros i total u s waypoints;
    cbn [convert_waypoints]; [reflexivity|].
  destruct (convert_waypoint E wp_data u) as [w|e]; [|reflexivity].
  specialize (IH (S i) total (S u) (S s) (waypoints ++ [w])%list).
  destruct (convert_waypoints E rest (S i) total (S u) (S s) (waypoints ++ [w]))
    as [cs r].
  cbn [fst] in *. cbn [filter]. exact IH.
Qed.

Lemma finish_plan_no_reasoning structure_data geocoded_locations text s :
  filter (is_type reasoning)
    (relay (finish_plan E request structure_data geocoded_locations text s) s) = [].
Proof.
  unfold finish_plan.
  destruct (parse_plan text) as [plan_data|e]; [|now rewrite relay_raises].
  destruct (bind (py_getitem plan_data "waypoints") _) as [[total items]|e];
    [|now rewrite relay_raises].
  pose proof (convert_waypoints_no_reasoning items 1 total 0 s [])
    as Hcs.
  destruct (convert_waypoints E items 1 total 0 s []) as [cs r]. cbn [fst] in Hcs.
  rewrite relay_yield_all, filter_app, Hcs. cbn [app].
  destruct r as [waypoints|e]; [|now rewrite relay_raises].
  destruct (bind (assemble_plan _ _ _ _ _ _ _) _) as [[p c]|e] eqn:Hb;
    [|now rewrite relay_raises].
  rewrite !relay_yield, relay_returns.
  destruct (assemble_plan E request structure_data geocoded_locations plan_data
              waypoints (List.length items)) as [p'|e']; [|discriminate].
  cbn [bind] in Hb. unfold plan_summary in Hb.
  destruct (py_getitem plan_data "estimated_duration"); [|discriminate].
  destruct (py_getitem plan_data "total_distance"); [|discriminate].
  cbn [bind] in Hb. inversion Hb; subst. reflexivity.
Qed.

Lemma detailed_loop_reasoning structure_data geocoded_locations evs fails :
  forall acc accr s,
    map content
      (filter (is_type reasoning)
         (relay (detailed_loop E request structure_data geocoded_locations
                   evs fails acc accr s) s))
    = map Some (thoughts_of evs).
Proof.
  induction evs as [|chunk rest IH]; intros acc accr s;
    cbn [detailed_loop thoughts_of].
  - destruct fails; [now rewrite relay_raises|now rewrite relay_returns].
  - destruct (choices chunk) as [|choice others]; [apply IH|].
    destruct (String.eqb _ EmptyString).
    + destruct (stopped choice); [|apply IH].
      now rewrite finish_plan_no_reasoning.
    + rewrite relay_yield. cbn [filter is_type type reasoning_chunk chunk_type_eqb map content].
      f_equal. destruct (stopped choice); [|apply IH].
      now rewrite finish_plan_no_reasoning.
Qed.
End ReasoningFacts.

(** X15.  The reasoning chunks of a run are the non-empty reasoning deltas
    of the stream of phase 3 up to its first stop, one chunk for each, in
    order and unchanged, whether or not the request asks for reasoning;
    phases 1 and 2 emit none. *)
Theorem X15_reasoning_is_forwarded (E : Env) (request : MissionPlanRequest) :
  map content (filter (is_type reasoning) (chunks (generate_mission_plan E request)))
  = match phase3_stream E request with
    | Some s => map Some (thoughts_of (events s))
    | None => []
    end.
Proof.
  unfold phase3_stream, phases_1_2, generate_mission_plan.
  destruct (outcome (_generate_mission_structure E request 0)) as [sd|e];
    [|reflexivity]. cbn [bind].
  destruct (count_key_locations sd) as [n|e]; [|reflexivity]. cbn [bind].
  destruct (_geocode_mission_locations E sd request) as [geo|e]; [|reflexivity].
  cbn [bind].
  pose proof (geocoded_chunks_no_reasoning E geo 0 (List.length geo) 3) as Hg.
  destruct (geocoded_chunks E geo 0 _ 3) as [located k]. cbn [fst] in Hg.
  unfold _generate_detailed_mission_plan.
  destruct (build_detailed_prompt E request sd geo) as [prompt|e]; cbn [chunks].
  - rewrite !filter_app, Hg. cbn [filter is_type type status_chunk chunk_type_eqb app].
    apply detailed_loop_reasoning.
  - rewrite !filter_app, Hg, relay_raises. reflexivity.
Qed.

Section ValidityFacts.
Variable E : Env.

Lemma optional_float_ge0_nonneg (field : string) (v : json) (o : option Q) :
  optional_float_ge0 E field v = Ok o -> nonneg o = true.
Proof.
  unfold optional_float_ge0, float_field, ge.
  destruct v; try (intros H; inversion H; reflexivity);
    (destruct (to_float E _) as [x|]; [|discriminate]; cbn [bind];
     destruct (Qle_bool 0 x) eqn:Hx; [|discriminate]; cbn [bind];
     intros H; inversion H; subst; exact Hx).
Qed.

Lemma make_Coordinate_valid (kwargs : list (string * json)) (c : Coordinate) :
  make_Coordinate E kwargs = Ok c -> Coordinate_valid c = true.
Proof.
  unfold make_Coordinate, required, float_field, ge, le.
  destruct (assoc_get "lat" kwargs) as [v1|]; [|discriminate]. cbn [bind].
  destruct (to_float E v1) as [la|]; [|discriminate]. cbn [bind].
  destruct (Qle_bool (-90) la) eqn:H1; [|discriminate]. cbn [bind].
  destruct (Qle_bool la 90) eqn:H2; [|discriminate]. cbn [bind].
  destruct (assoc_get "lng" kwargs) as [v2|]; [|discriminate]. cbn [bind].
  destruct (to_float E v2) as [lo|]; [|discriminate]. cbn [bind].
  destruct (Qle_bool (-180) lo) eqn:H3; [|discriminate]. cbn [bind].
  destruct (Qle_bool lo 180) eqn:H4; [|discriminate]. cbn [bind].
  destruct (optional_float_ge0 E "alt" (optional "alt" kwargs)) as [al|] eqn:H5;
    [|discriminate]. cbn [bind].
  intros H. inversion H; subst. unfold Coordinate_valid. cbn [lat lng alt].
  now rewrite H1, H2, H3, H4, (optional_float_ge0_nonneg _ _ _ H5).
Qed.

Lemma make_Waypoint_valid id t pos order name speed loiter_time radius camera_action w :
  Coordinate_valid pos = true ->
  make_Waypoint E id t pos order name speed loiter_time radius camera_action = Ok w ->
  Waypoint_valid w = true.
Proof.
  intros Hpos. unfold make_Waypoint.
  destruct (str_field E "id" id); [|discriminate]. cbn [bind].
  destruct (to_int E order) as [z|]; [|discriminate].
  destruct (0 <=? z)%Z eqn:Hz; [|discriminate]. cbn [bind].
  destruct (optional_str E "name" name); [|discriminate]. cbn [bind].
  destruct (optional_float_ge0 E "speed" speed) eqn:H1; [|discriminate]. cbn [bind].
  destruct (optional_float_ge0 E "loiter_time" loiter_time) eqn:H2; [|discriminate].
  cbn [bind].
  destruct (optional_float_ge0 E "radius" radius) eqn:H3; [|discriminate]. cbn [bind].
  destruct (optional_str E "camera_action" camera_action); [|discriminate]. cbn [bind].
  intros H. inversion H; subst. unfold Waypoint_valid.
  cbn [wp_position wp_order wp_speed wp_loiter_time wp_radius].
  now rewrite Hpos, Hz, (optional_float_ge0_nonneg _ _ _ H1),
    (optional_float_ge0_nonneg _ _ _ H2), (optional_float_ge0_nonneg _ _ _ H3).
Qed.

Lemma convert_waypoint_valid (wp_data : json) (u : nat) (w : Waypoint) :
  convert_waypoint E wp_data u = Ok w -> Waypoint_valid w = true.
Proof.
  unfold convert_waypoint.
  destruct (py_get wp_data "id" _); [|discriminate]. cbn [bind].
  destruct (py_getitem wp_data "type"); [|discriminate]. cbn [bind].
  destruct (make_WaypointType _); [|discriminate]. cbn [bind].
  destruct (py_getitem wp_data "position") as [p|]; [|discriminate]. cbn [bind].
  destruct p as [| | | | | |kwargs]; try discriminate.
  destruct (make_Coordinate E kwargs) as [pos|] eqn:Hpos; [|discriminate]. cbn [bind].
  destruct (py_getitem wp_data "order"); [|discriminate]. cbn [bind].
  destruct (py_get wp_data "name" JNull); [|discriminate]. cbn [bind].
  destruct (py_get wp_data "speed" JNull); [|discriminate]. cbn [bind].
  destruct (py_get wp_data "loiter_time" JNull); [|discriminate]. cbn [bind].
  destruct (py_get wp_data "radius" JNull); [|discriminate]. cbn [bind].
  destruct (py_get wp_data "camera_action" JNull); [|discriminate]. cbn [bind].
  apply make_Waypoint_valid. now apply make_Coordinate_valid in Hpos.
Qed.

Lemma convert_waypoints_valid items :
  forall i total u s waypoints ws,
    forallb Waypoint_valid waypoints = true ->
    snd (convert_waypoints E items i total u s waypoints) = Ok ws ->
    forallb Waypoint_valid ws = true /\
    List.length ws = List.length waypoints + List.length items /\
    List.length (fst (convert_waypoints E items i total u s waypoints))
    = List.length items /\
    forallb carries_waypoint (fst (convert_waypoints E items i total u s waypoints))
    = true /\
    forallb (is_type status) (fst (convert_waypoints E items i total u s waypoints))
    = true.
Proof.
  induction items as [|wp_data rest IH]; intros i total u s waypoints ws Hv;
    cbn [convert_waypoints].
  - cbn [snd fst]. intros H. inversion H; subst. cbn. repeat split; auto.
  - destruct (convert_waypoint E wp_data u) as [w|e] eqn:Hw; [|discriminate].
    specialize (IH (S i) total (S u) (S s) (waypoints ++ [w])%list ws).
    destruct (convert_waypoints E rest (S i) total (S u) (S s) (waypoints ++ [w]))
      as [cs r].
    cbn [fst snd] in *. intros Hr.
    destruct IH as [H1 [H2 [H3 [H4 H5]]]]; [|exact Hr|].
    + rewrite forallb_app, Hv. cbn. now rewrite (convert_waypoint_valid _ _ _ Hw).
    + rewrite length_app in H2. cbn [Datatypes.length] in *.
      repeat split; auto; lia.
Qed.
End ValidityFacts.

Lemma quiet_filters (l : list StreamingChunk) :
  forallb quiet l = true ->
  filter (is_type plan_chunk) l = [] /\ filter carries_waypoint l = [].
Proof.
  induction l as [|c l IH]; cbn [forallb filter]; [auto|].
  intros H. apply andb_true_iff in H. destruct H as [Hc Hl].
  destruct (IH Hl) as [H1 H2]. unfold quiet in Hc.
  apply andb_true_iff in Hc. destruct Hc as [Hc1 Hc2].
  apply negb_true_iff in Hc1, Hc2. now rewrite Hc1, Hc2.
Qed.

Lemma status_not_plan (l : list StreamingChunk) :
  forallb (is_type status) l = true -> filter (is_type plan_chunk) l = [].
Proof.
  induction l as [|c l IH]; cbn [forallb filter]; [auto|].
  intros H. apply andb_true_iff in H. destruct H as [Hc Hl].
  rewrite (IH Hl). unfold is_type in *. now destruct (type c).
Qed.

Lemma carriers_filter (l : list StreamingChunk) :
  forallb carries_waypoint l = true -> filter carries_waypoint l = l.
Proof.
  induction l as [|c l IH]; cbn [forallb filter]; [auto|].
  intros H. apply andb_true_iff in H. destruct H as [Hc Hl].
  now rewrite Hc, (IH Hl).
Qed.

Section PlanFacts.
Variable E : Env.
Variable request : MissionPlanRequest.

Lemma convert_waypoints_status items :
  forall i total u s waypoints,
    forallb (is_type status)
      (fst (convert_waypoints E items i total u s waypoints)) = true.
Proof.
  induction items as [|wp_data rest IH]; intros i total u s waypoints;
    cbn [convert_waypoints]; [reflexivity|].
  destruct (convert_waypoint E wp_data u) as [w|e]; [|reflexivity].
  specialize (IH (S i) total (S u) (S s) (waypoints ++ [w])%list).
  destruct (convert_waypoints E rest (S i) total (S u) (S s) (waypoints ++ [w]))
    as [cs r].
  cbn [fst] in *. exact IH.
Qed.

(** What the block under stop emits: no plan chunk, or one status chunk for
    each waypoint, the summary and the plan. *)
Lemma finish_plan_outcome structure_data geocoded_locations text s :
  let out := relay (finish_plan E request structure_data geocoded_locations text s) s in
  filter (is_type plan_chunk) out = [] \/
  exists p cs c n,
    out = (cs ++ [c; final_plan p n])%list /\
    forallb carries_waypoint cs = true /\
    forallb (is_type status) cs = true /\
    quiet c = true /\
    List.length cs = List.length (plan_waypoints p) /\
    forallb Waypoint_valid (plan_waypoints p) = true.
Proof.
  cbv zeta. unfold finish_plan.
  destruct (parse_plan text) as [plan_data|e]; [|left; now rewrite relay_raises].
  destruct (bind (py_getitem plan_data "waypoints") _) as [[total items]|e];
    [|left; now rewrite relay_raises].
  pose proof (convert_waypoints_valid E items 1 total 0 s []) as Hcs.
  pose proof (convert_waypoints_status items 1 total 0 s []) as Hst.
  destruct (convert_waypoints E items 1 total 0 s []) as [cs r].
  cbn [fst snd] in Hcs, Hst.
  destruct r as [waypoints|e].
  - destruct (Hcs waypoints eq_refl eq_refl) as [Hv [Hl [Hlc [Hcw _]]]].
    destruct (bind (assemble_plan _ _ _ _ _ _ _) _) as [[p c]|e] eqn:Hb.
    + right. rewrite relay_yield_all, !relay_yield, relay_returns.
      unfold assemble_plan, make_MissionPlan in Hb.
      destruct (py_getitem plan_data "mission_name"); [|discriminate].
      cbn [bind] in Hb.
      destruct (py_getitem plan_data "mission_description"); [|discriminate].
      cbn [bind] in Hb.
      destruct (py_getitem plan_data "estimated_duration"); [|discriminate].
      cbn [bind] in Hb.
      destruct (py_getitem plan_data "total_distance"); [|discriminate].
      cbn [bind] in Hb.
      destruct (py_get plan_data "warnings" (JArr [])); [|discriminate].
      cbn [bind] in Hb.
      destruct (str_field E "name" _); [|discriminate]. cbn [bind] in Hb.
      destruct (str_field E "description" _); [|discriminate]. cbn [bind] in Hb.
      destruct (float_field E "estimated_duration" _); [|discriminate].
      cbn [bind] in Hb.
      destruct (float_field E "total_distance" _); [|discriminate].
      cbn [bind] in Hb. unfold plan_summary in Hb.
      destruct (py_getitem plan_data "estimated_duration"); [|discriminate].
      destruct (py_getitem plan_data "total_distance"); [|discriminate].
      cbn [bind] in Hb. inversion Hb; subst. clear Hb.
      eexists _, cs, _, _. split; [reflexivity|].
      cbn [plan_waypoints]. cbn [Datatypes.length] in Hl.
      repeat split; auto. lia.
    + left. rewrite relay_yield_all, relay_raises, filter_app,
        (status_not_plan cs Hst). reflexivity.
  - left. rewrite relay_yield_all, relay_raises, filter_app,
      (status_not_plan cs Hst). reflexivity.
Qed.

(** A run is made of quiet chunks alone, or of quiet chunks followed by
    what the block under stop emits. *)
Lemma detailed_loop_reaches_finish structure_data geocoded_locations evs fails :
  forall acc accr s,
    let out := relay (detailed_loop E request structure_data geocoded_locations
                        evs fails acc accr s) s in
    forallb quiet out = true \/
    exists pre text s',
      forallb quiet pre = true /\
      out = (pre ++ relay (finish_plan E request structure_data geocoded_locations
                             text s') s')%list.
Proof.
  cbv zeta.
  induction evs as [|chunk rest IH]; intros acc accr s; cbn [detailed_loop].
  - left. destruct fails; [now rewrite relay_raises|now rewrite relay_returns].
  - destruct (choices chunk) as [|choice others]; [apply IH|].
    destruct (String.eqb _ EmptyString).
    + destruct (stopped choice); [|apply IH].
      right. exists [], (acc ++ text_of (delta_content (delta choice))), s. auto.
    + rewrite relay_yield.
      set (c := reasoning_chunk _ s).
      destruct (stopped choice).
      * right. exists [c], (acc ++ text_of (delta_content (delta choice))), (S s). auto.
      * destruct (IH (acc ++ text_of (delta_content (delta choice)))
                    (accr ++ text_of (delta_reasoning (delta choice))) (S s))
          as [Hq|[pre [text [s' [Hq Heq]]]]].
        -- left. cbn [forallb]. now rewrite Hq.
        -- right. exists (c :: pre), text, s'. rewrite Heq. cbn [forallb]. now rewrite Hq.
Qed.

Lemma geocoded_chunks_quiet items :
  forall k total s, forallb quiet (fst (geocoded_chunks E items k total s)) = true.
Proof.
  induction items as [|[location_name [c|]] rest IH]; intros k total s;
    cbn [geocoded_chunks]; [reflexivity| |apply IH].
  specialize (IH (S k) total (S s)).
  destruct (geocoded_chunks E rest (S k) total (S s)) as [cs n].
  cbn [fst] in *. cbn [forallb]. rewrite IH. reflexivity.
Qed.

Lemma run_reaches_finish :
  let out := chunks (generate_mission_plan E request) in
  forallb quiet out = true \/
  exists pre structure_data geocoded_locations text s,
    forallb quiet pre = true /\
    out = (pre ++ relay (finish_plan E request structure_data geocoded_locations
                           text s) s)%list.
Proof.
  cbv zeta. unfold generate_mission_plan.
  destruct (outcome (_generate_mission_structure E request 0)) as [sd|e];
    [|left; reflexivity]. cbn [bind].
  destruct (count_key_locations sd) as [n|e]; [|left; reflexivity]. cbn [bind].
  destruct (_geocode_mission_locations E sd request) as [geo|e]; [|left; reflexivity].
  pose proof (geocoded_chunks_quiet geo 0 (List.length geo) 3) as Hg.
  destruct (geocoded_chunks E geo 0 _ 3) as [located k]. cbn [fst] in Hg.
  unfold _generate_detailed_mission_plan.
  destruct (build_detailed_prompt E request sd geo) as [prompt|e]; cbn [chunks].
  - match goal with
    | |- context [relay (detailed_loop E request sd geo ?evs ?fails ?acc ?accr ?s) ?s] =>
        destruct (detailed_loop_reaches_finish sd geo evs fails acc accr s)
          as [Hq|[pre [text [s' [Hq Heq]]]]]
    end.
    + left. rewrite !forallb_app, Hg, Hq. reflexivity.
    + right. rewrite Heq.
      match goal with
      | |- context [([?c0; ?c1; ?c2] ++ located ++ [?c3; ?c4] ++ _)%list] =>
          exists ([c0; c1; c2] ++ located ++ [c3; c4] ++ pre)%list, sd, geo, text, s'
      end.
      split.
      * rewrite !forallb_app, Hg, Hq. reflexivity.
      * rewrite <- !app_assoc. reflexivity.
  - left. rewrite !forallb_app, Hg, relay_raises. reflexivity.
Qed.
End PlanFacts.

(** X16.  A plan chunk of a run carries a plan all of whose waypoints
    satisfy the constraints of the models (latitude within -90..90,
    longitude within -180..180, altitude, speed, loiter time, radius and
    order not negative), and the run has exactly one chunk with a waypoint
    for each waypoint of that plan. *)
Theorem X16_plan_chunk_carries_valid_waypoints (E : Env) (request : MissionPlanRequest)
    (c : StreamingChunk) :
  In c (chunks (generate_mission_plan E request)) ->
  is_type plan_chunk c = true ->
  exists p,
    c = final_plan p (sequence c) /\
    forallb Waypoint_valid (plan_waypoints p) = true /\
    List.length (filter carries_waypoint (chunks (generate_mission_plan E request)))
    = List.length (plan_waypoints p).
Proof.
  intros Hin Hc.
  assert (Hf : In c (filter (is_type plan_chunk) (chunks (generate_mission_plan E request))))
    by (apply filter_In; auto).
  destruct (run_reaches_finish E request) as [Hq|[pre [sd [geo [text [s [Hq Heq]]]]]]].
  - destruct (quiet_filters _ Hq) as [H1 _]. rewrite H1 in Hf. destruct Hf.
  - destruct (quiet_filters _ Hq) as [H1 H2].
    rewrite Heq in Hf |- *. rewrite filter_app, H1 in Hf. cbn [app] in Hf.
    destruct (finish_plan_outcome E request sd geo text s)
      as [Hn|[p [cs [c' [n [Hout [Hcw [Hst [Hq' [Hl Hv]]]]]]]]]].
    + rewrite Hn in Hf. destruct Hf.
    + rewrite Hout in Hf |- *. exists p.
      rewrite filter_app, (status_not_plan cs Hst) in Hf. cbn [app filter] in Hf.
      unfold quiet in Hq'. apply andb_true_iff in Hq'. destruct Hq' as [Hq1 Hq2].
      apply negb_true_iff in Hq1, Hq2. rewrite Hq1 in Hf.
      cbn in Hf. destruct Hf as [<-|[]].
      repeat split; auto.
      rewrite !filter_app, H2, (carriers_filter cs Hcw). cbn [app filter].
      rewrite Hq2. cbn. rewrite length_app. cbn. lia.
Qed.

Lemma X16_plan_chunk_carries_valid_waypoints_witness :
  (In (last (chunks (generate_mission_plan env_success survey_request))
         (final_error EmptyString 0))
      (chunks (generate_mission_plan env_success survey_request)) /\
   is_type plan_chunk
     (last (chunks (generate_mission_plan env_success survey_request))
        (final_error EmptyString 0)) = true) /\
  exists p,
    last (chunks (generate_mission_plan env_success survey_request))
      (final_error EmptyString 0)
    = final_plan p
        (sequence (last (chunks (generate_mission_plan env_success survey_request))
                     (final_error EmptyString 0))) /\
    forallb Waypoint_valid (plan_waypoints p) = true /\
    List.length (filter carries_waypoint
                   (chunks (generate_mission_plan env_success survey_request)))
    = List.length (plan_waypoints p).
Proof.
  assert (Hin : In (last (chunks (generate_mission_plan env_success survey_request))
                      (final_error EmptyString 0))
                  (chunks (generate_mission_plan env_success survey_request))).
  { vm_compute. repeat (first [left; reflexivity | right]). }
  split; [split; [exact Hin|reflexivity]|].
  apply (X16_plan_chunk_carries_valid_waypoints env_success survey_request);
    [exact Hin|reflexivity].
Defined.

Lemma plain_not_plan (body : list StreamingChunk) :
  forallb plain body = true -> existsb (is_type plan_chunk) body = false.
Proof.
  induction body as [|c body IH]; cbn [forallb existsb]; [auto|].
  intros H. apply andb_true_iff in H. destruct H as [Hc Hb].
  rewrite (IH Hb). unfold plain, is_type in *.
  destruct (type c); try reflexivity; now rewrite andb_false_r in Hc.
Qed.

(** The two outcomes of the non-streaming wrapper. *)
Lemma simple_mode_cases (E : Env) (request : MissionPlanRequest) :
  if existsb (is_type plan_chunk) (chunks (generate_mission_plan E request))
  then generate_mission_plan_simple E request = Raise (validation_error "id")
  else generate_mission_plan_simple E request
       = Ok {| success := false; plan := None; response_reasoning := None;
               warnings := None; error := Some "Failed to generate mission plan" |}.
Proof.
  unfold generate_mission_plan_simple.
  destruct (generate_mission_plan_shape E request) as [body [tail [-> [Hb [_ Ht]]]]].
  destruct (simple_loop_plain E body tail Hb
              {| mission_plan := None; reasoning_text := EmptyString;
                 warnings_list := JArr [] |}) as [st' [Hm ->]].
  cbn [mission_plan] in Hm.
  rewrite existsb_app, (plain_not_plan body Hb). cbn [orb].
  destruct Ht; cbn [existsb is_type simple_loop final_plan final_error type is_final
                    data chunk_type_eqb andb orb bind].
  - now rewrite Hm.
  - reflexivity.
  - now rewrite Hm.
Qed.

(** X17.  The non-streaming wrapper never returns a plan: when the run has
    a plan chunk it raises a validation error, since it builds the plan from
    the whole payload of the chunk and not from its field plan; in every
    other run it returns the failure response, without reasoning and
    warnings. *)
Theorem X17_simple_mode_outcomes (E : Env) (request : MissionPlanRequest) :
  if existsb (is_type plan_chunk) (chunks (generate_mission_plan E request))
  then fails_with ValidationError (generate_mission_plan_simple E request) = true
  else generate_mission_plan_simple E request
       = Ok {| success := false; plan := None; response_reasoning := None;
               warnings := None; error := Some "Failed to generate mission plan" |}.
Proof.
  pose proof (simple_mode_cases E request) as H.
  destruct (existsb (is_type plan_chunk) (chunks (generate_mission_plan E request))).
  - rewrite H. reflexivity.
  - exact H.
Qed.

(** X18.  The route POST /mission-planning/generate-plan never answers
    with a response: when the run has a plan chunk the validation error of
    the wrapper passes through the handler, otherwise the handler raises the
    HTTP error 500 with the detail of the failure response. *)
Theorem X18_route_never_responds (E : Env) (request : MissionPlanRequest) :
  (forall response, generate_mission_plan_route E request <> Responds response) /\
  (generate_mission_plan_route E request
   = HTTPException 500 "Failed to generate mission plan" \/
   exists e, generate_mission_plan_route E request = Unhandled e /\
             exn_type e = ValidationError).
Proof.
  pose proof (simple_mode_cases E request) as H. unfold generate_mission_plan_route.
  destruct (existsb (is_type plan_chunk) (chunks (generate_mission_plan E request)));
    rewrite H; cbn.
  - split; [discriminate|]. right. eauto.
  - split; [discriminate|]. left. reflexivity.
Qed.

Section RoundTrip.
Variable E : Env.
Hypothesis float_of_float : forall q, to_float E (JFloat q) = Some q.
Hypothesis int_of_int : forall z, to_int E (JInt z) = Some z.
Hypothesis str_of_str : forall s, to_str E (JStr s) = Some s.

Lemma optional_float_round (field : string) (o : option Q) :
  nonneg o = true -> optional_float_ge0 E field (json_of_option JFloat o) = Ok o.
Proof.
  destruct o as [q|]; cbn [nonneg json_of_option optional_float_ge0]; [|reflexivity].
  intros Hq. unfold float_field, ge. rewrite float_of_float. cbn [bind].
  now rewrite Hq.
Qed.

Lemma optional_str_round (field : string) (o : option string) :
  optional_str E field (json_of_option JStr o) = Ok o.
Proof.
  destruct o as [s|]; cbn [json_of_option optional_str]; [|reflexivity].
  unfold str_field. now rewrite str_of_str.
Qed.

Lemma WaypointType_round (t : WaypointType) :
  make_WaypointType (JStr (WaypointType_value t)) = Ok t.
Proof. now destruct t. Qed.

Lemma Coordinate_round (c : Coordinate) :
  Coordinate_valid c = true -> Coordinate_of_json E (Coordinate_dict c) = Ok c.
Proof.
  destruct c as [la lo al]. unfold Coordinate_valid. cbn [lat lng alt].
  intros H. do 4 (apply andb_true_iff in H; destruct H as [H ?]).
  unfold Coordinate_dict, Coordinate_of_json, make_Coordinate, required, optional,
    float_field, ge, le.
  cbn [lat lng alt].
  change (assoc_get "lat" _) with (Some (JFloat la)).
  change (assoc_get "lng" _) with (Some (JFloat lo)).
  change (assoc_get "alt" _) with (Some (json_of_option JFloat al)).
  cbn [bind]. rewrite !float_of_float. cbn [bind].
  rewrite H. cbn [bind]. rewrite H3. cbn [bind]. rewrite H2. cbn [bind].
  rewrite H1. cbn [bind]. cbv beta iota.
  rewrite (optional_float_round "alt" al) by assumption.
  reflexivity.
Qed.

Lemma Waypoint_round (w : Waypoint) :
  Waypoint_valid w = true -> Waypoint_of_json E (Waypoint_dict w) = Ok w.
Proof.
  destruct w as [id t pos order name speed loiter radius camera].
  unfold Waypoint_valid.
  cbn [wp_position wp_order wp_speed wp_loiter_time wp_radius].
  intros H. do 4 (apply andb_true_iff in H; destruct H as [H ?]).
  unfold Waypoint_dict, Waypoint_of_json, required, optional.
  cbn [wp_id wp_type wp_position wp_order wp_name wp_speed wp_loiter_time wp_radius
       wp_camera_action].
  change (assoc_get "id" _) with (Some (JStr id)).
  change (assoc_get "type" _) with (Some (JStr (WaypointType_value t))).
  change (assoc_get "position" _) with (Some (Coordinate_dict pos)).
  change (assoc_get "order" _) with (Some (JInt order)).
  change (assoc_get "name" _) with (Some (json_of_option JStr name)).
  change (assoc_get "speed" _) with (Some (json_of_option JFloat speed)).
  change (assoc_get "loiter_time" _) with (Some (json_of_option JFloat loiter)).
  change (assoc_get "radius" _) with (Some (json_of_option JFloat radius)).
  change (assoc_get "camera_action" _) with (Some (json_of_option JStr camera)).
  cbn [bind]. rewrite WaypointType_round. cbn [bind].
  rewrite Coordinate_round by assumption. cbn [bind].
  unfold make_Waypoint, str_field. rewrite str_of_str, int_of_int. cbn [bind].
  rewrite H3. cbn [bind]. rewrite optional_str_round. cbn [bind].
  rewrite !optional_float_round by assumption. cbn [bind].
  rewrite optional_str_round. reflexivity.
Qed.

Lemma Waypoints_round (ws : list Waypoint) :
  forallb Waypoint_valid ws = true ->
  Waypoints_of_json E (map Waypoint_dict ws) = Ok ws.
Proof.
  induction ws as [|w ws IH]; cbn [forallb map Waypoints_of_json]; [reflexivity|].
  intros H. apply andb_true_iff in H. destruct H as [Hw Hws].
  rewrite (Waypoint_round w Hw). cbn [bind]. rewrite (IH Hws). reflexivity.
Qed.

Lemma MissionPlan_round (p : MissionPlan) :
  forallb Waypoint_valid (plan_waypoints p) = true ->
  is_dict_or_none (metadata p) = true ->
  MissionPlan_of_kwargs E (fields (MissionPlan_dict p)) = Ok p.
Proof.
  destruct p as [id name description waypoints duration distance created meta].
  cbn [plan_waypoints metadata]. intros Hw Hm.
  unfold MissionPlan_dict, fields, MissionPlan_of_kwargs, required, optional.
  cbn [plan_id plan_name plan_description plan_waypoints estimated_duration
       total_distance created_at metadata].
  change (assoc_get "id" _) with (Some (JStr id)).
  change (assoc_get "name" _) with (Some (JStr name)).
  change (assoc_get "description" _) with (Some (JStr description)).
  change (assoc_get "waypoints" _) with (Some (JArr (map Waypoint_dict waypoints))).
  change (assoc_get "estimated_duration" _) with (Some (JFloat duration)).
  change (assoc_get "total_distance" _) with (Some (JFloat distance)).
  change (assoc_get "created_at" _) with (Some (JStr created)).
  change (assoc_get "metadata" _) with (Some (json_of_option (fun m => m) meta)).
  cbn [bind]. unfold str_field. rewrite str_of_str. cbn [bind].
  rewrite (Waypoints_round waypoints Hw). cbn [bind].
  assert (Hmeta : match json_of_option (fun m => m) meta with
                  | JNull => Ok None
                  | JObj m => Ok (Some (JObj m))
                  | _ => Raise (validation_error "metadata")
                  end = Ok meta).
  { destruct meta as [[| | | | | |m]|]; try discriminate; reflexivity. }
  rewrite Hmeta. cbn [bind].
  unfold make_MissionPlan, str_field, float_field.
  rewrite !str_of_str, !float_of_float. reflexivity.
Qed.
End RoundTrip.

(** X19.  Building a plan from the dict of a plan gives the plan back,
    waypoints, positions and optional fields included, when the waypoints
    satisfy the constraints of the models and the metadata are a dict or
    absent (with a validation that takes a float, an integer and a string as
    they are). *)
Theorem X19_plan_dict_round_trip (E : Env) (p : MissionPlan) :
  (forall q, to_float E (JFloat q) = Some q) ->
  (forall z, to_int E (JInt z) = Some z) ->
  (forall s, to_str E (JStr s) = Some s) ->
  forallb Waypoint_valid (plan_waypoints p) = true ->
  is_dict_or_none (metadata p) = true ->
  MissionPlan_of_kwargs E (fields (MissionPlan_dict p)) = Ok p.
Proof. intros Hf Hi Hs. now apply MissionPlan_round. Qed.

Lemma X19_plan_dict_round_trip_witness :
  ((forall q, to_float env_success (JFloat q) = Some q) /\
   (forall z, to_int env_success (JInt z) = Some z) /\
   (forall s, to_str env_success (JStr s) = Some s) /\
   forallb Waypoint_valid (plan_waypoints pier_plan) = true /\
   is_dict_or_none (metadata pier_plan) = true) /\
  MissionPlan_of_kwargs env_success (fields (MissionPlan_dict pier_plan)) = Ok pier_plan.
Proof.
  split; [repeat split; reflexivity|].
  apply (X19_plan_dict_round_trip env_success pier_plan); reflexivity.
Defined.

Lemma items_of_export (p : MissionPlan) (v : json) :
  export_mission_for_drone p = Ok v ->
  items_of v = map drone_waypoint (plan_waypoints p).
Proof.
  unfold export_mission_for_drone.
  destruct (plan_waypoints p) as [|w ws]; [discriminate|].
  cbn [bind]. intros H. inversion H; subst. reflexivity.
Qed.

Lemma num_of_json_or (x : option Q) (d : Z) :
  num_of (json_or x d) = Some (or_else x (inject_Z d)).
Proof.
  destruct x as [q|]; cbn [json_or or_else]; [|reflexivity].
  now destruct (Qeq_bool q 0).
Qed.

Lemma or_else_positive (x : option Q) (d : Q) :
  nonneg x = true -> (0 < d)%Q -> (0 < or_else x d)%Q.
Proof.
  destruct x as [q|]; cbn [nonneg or_else]; [|auto].
  intros Hq Hd. destruct (Qeq_bool q 0) eqn:H0; [exact Hd|].
  apply Qle_bool_iff in Hq. apply Qeq_bool_neq in H0.
  apply Qle_lteq in Hq. destruct Hq as [Hq|Hq]; [exact Hq|].
  exfalso. apply H0. symmetry. exact Hq.
Qed.

Lemma waypoint_rows_from_alt (ws : list Waypoint) :
  forall i,
    map row_alt (waypoint_rows_from i ws)
    = map (fun w => or_else (alt (wp_position w)) 50) ws.
Proof.
  induction ws as [|w ws IH]; intros i; cbn [waypoint_rows_from map]; [reflexivity|].
  rewrite IH. f_equal. unfold waypoint_row. now destruct (wp_type w).
Qed.

Lemma waypoint_rows_from_numbers (ws : list Waypoint) :
  forall i,
    map row_seq (waypoint_rows_from i ws) = seq i (List.length ws) /\
    map row_current (waypoint_rows_from i ws) = repeat 0 (List.length ws).
Proof.
  induction ws as [|w ws IH]; intros i;
    cbn [waypoint_rows_from map Datatypes.length seq repeat]; [auto|].
  destruct (IH (S i)) as [H1 H2]. rewrite H1, H2.
  unfold waypoint_row. now destruct (wp_type w).
Qed.

(** X20.  The JSON export raises an IndexError exactly for a plan without
    waypoints and returns a mission otherwise; the export to a .waypoints
    file takes such a plan: its text is the header and the home line at the
    default position (37.7749, -122.4194). *)
Theorem X20_export_of_a_plan_without_waypoints (p : MissionPlan) :
  (fails_with IndexError (export_mission_for_drone p) = true
   <-> plan_waypoints p = []) /\
  (is_ok (export_mission_for_drone p) = true <-> plan_waypoints p <> []) /\
  (forall format_float,
      plan_waypoints p = [] ->
      export_mission_waypoints format_float p
      = "QGC WPL 110" ++ newline ++
        waypoint_line format_float
          {| row_seq := 0; row_current := 1; row_frame := 0; row_command := 16;
             row_param1 := 0; row_param2 := 0; row_param3 := 0; row_param4 := 0;
             row_lat := 377749 # 10000; row_lng := - 1224194 # 10000; row_alt := 0;
             row_autocontinue := 1 |}).
Proof.
  unfold export_mission_for_drone, export_mission_waypoints, waypoint_rows, home_row.
  destruct (plan_waypoints p) as [|w ws]; cbn [bind fails_with is_ok exn_type
                                                 exn_kind_eqb].
  - repeat split; auto; try discriminate; intros H; now contradiction H.
  - repeat split; try discriminate; auto.
Qed.

(** X21.  No mission item is exported at altitude 0: a waypoint without
    altitude or at altitude 0 goes to 30 m in the JSON export and to 50 m in
    the .waypoints file; every other waypoint keeps its altitude in both. *)
Theorem X21_exported_altitudes (p : MissionPlan) (v : json) :
  forallb Waypoint_valid (plan_waypoints p) = true ->
  export_mission_for_drone p = Ok v ->
  map (number_at "z") (items_of v)
  = map (fun w => Some (or_else (alt (wp_position w)) 30)) (plan_waypoints p) /\
  map row_alt (tl (waypoint_rows p))
  = map (fun w => or_else (alt (wp_position w)) 50) (plan_waypoints p) /\
  Forall (fun w => (0 < or_else (alt (wp_position w)) 30)%Q /\
                   (0 < or_else (alt (wp_position w)) 50)%Q)
    (plan_waypoints p).
Proof.
  intros Hv Hx. rewrite (items_of_export p v Hx). split; [|split].
  - rewrite map_map. apply map_ext. intros w.
    unfold number_at, drone_waypoint, py_getitem.
    change (assoc_get "z" _) with (Some (json_or (alt (wp_position w)) 30)).
    apply num_of_json_or.
  - apply waypoint_rows_from_alt.
  - apply Forall_forall. intros w Hin.
    rewrite forallb_forall in Hv. specialize (Hv w Hin).
    unfold Waypoint_valid, Coordinate_valid in Hv.
    repeat (apply andb_true_iff in Hv; destruct Hv as [Hv ?]).
    split; apply or_else_positive; auto; reflexivity.
Qed.

Lemma X21_exported_altitudes_witness :
  (forallb Waypoint_valid (plan_waypoints pier_plan) = true /\
   export_mission_for_drone pier_plan
   = Ok (match export_mission_for_drone pier_plan with Ok v => v | Raise _ => JNull end)) /\
  map (number_at "z")
    (items_of (match export_mission_for_drone pier_plan with
               | Ok v => v
               | Raise _ => JNull
               end))
  = map (fun w => Some (or_else (alt (wp_position w)) 30)) (plan_waypoints pier_plan) /\
  map row_alt (tl (waypoint_rows pier_plan))
  = map (fun w => or_else (alt (wp_position w)) 50) (plan_waypoints pier_plan) /\
  Forall (fun w => (0 < or_else (alt (wp_position w)) 30)%Q /\
                   (0 < or_else (alt (wp_position w)) 50)%Q)
    (plan_waypoints pier_plan).
Proof.
  split; [split; reflexivity|].
  apply (X21_exported_altitudes pier_plan); reflexivity.
Defined.

(** X22.  The lines of a .waypoints file are numbered by position, 0 for
    home and 1 to n for the waypoints, whatever the order fields say, and
    home alone is marked current; the JSON export takes the number of an
    item from the order field and marks every item of order 0 current. *)
Theorem X22_numbering_of_exports (p : MissionPlan) :
  map row_seq (waypoint_rows p) = seq 0 (S (List.length (plan_waypoints p))) /\
  map row_current (waypoint_rows p) = 1 :: repeat 0 (List.length (plan_waypoints p)) /\
  forall v,
    export_mission_for_drone p = Ok v ->
    map (number_at "seq") (items_of v)
    = map (fun w => Some (inject_Z (wp_order w))) (plan_waypoints p) /\
    map (number_at "current") (items_of v)
    = map (fun w => Some (if (wp_order w =? 0)%Z then 1%Q else 0%Q)) (plan_waypoints p).
Proof.
  unfold waypoint_rows.
  destruct (waypoint_rows_from_numbers (plan_waypoints p) 1) as [H1 H2].
  cbn [map seq]. rewrite H1, H2. split; [|split].
  - unfold home_row. now destruct (plan_waypoints p).
  - unfold home_row. now destruct (plan_waypoints p).
  - intros v Hx. rewrite (items_of_export p v Hx), !map_map.
    split; apply map_ext; intros w; unfold number_at, drone_waypoint, py_getitem.
    + reflexivity.
    + change (assoc_get "current" _)
        with (Some (JInt (if (wp_order w =? 0)%Z then 1 else 0)%Z)).
      now destruct (wp_order w =? 0)%Z.
Qed.

Lemma structure_loop_outcome (evs : list Chunk) (fails : option exn) :
  forall acc,
    structure_loop evs fails acc
    = match accumulated_at_stop evs acc with
      | Some text => parse_structure text
      | None =>
          match fails with
          | Some e => Raise e
          | None => Raise (mk_exn ValueError "No structure analysis response received")
          end
      end.
Proof.
  induction evs as [|chunk rest IH]; intros acc;
    cbn [structure_loop accumulated_at_stop]; [reflexivity|].
  destruct (choices chunk) as [|choice others]; [apply IH|].
  destruct (stopped choice); [reflexivity|apply IH].
Qed.

(** X23.  An attempt of phase 1 parses the content accumulated up to the
    first event with finish reason stop and reads nothing after it, not
    even a failure of the stream; a stream that ends before any stop makes
    the attempt raise the failure of the stream or, when there is none, a
    ValueError, so that phase 1 never ends silently. *)
Theorem X23_outcome_of_a_structure_attempt (E : Env) (request : MissionPlanRequest)
    (n : nat) :
  structure_attempt E request n
  = match accumulated_at_stop
            (events (stream_text E n (structure_args E request))) EmptyString with
    | Some text => parse_structure text
    | None =>
        match failure (stream_text E n (structure_args E request)) with
        | Some e => Raise e
        | None => Raise (mk_exn ValueError "No structure analysis response received")
        end
    end.
Proof. unfold structure_attempt. apply structure_loop_outcome. Qed.

Lemma climbs_bounds (l : list Q) : forall lo hi, climbs lo hi l -> (lo <= hi)%Q.
Proof.
  induction l as [|q l IH]; intros lo hi; cbn [climbs]; [auto|].
  intros [H1 H2]. apply Qle_trans with q; auto.
Qed.

Lemma climbs_from (l : list Q) (lo lo' hi : Q) :
  (lo' <= lo)%Q -> climbs lo hi l -> climbs lo' hi l.
Proof.
  destruct l as [|q l]; cbn [climbs]; intros H.
  - intros H1. apply Qle_trans with lo; auto.
  - intros [H1 H2]. split; [apply Qle_trans with lo|]; auto.
Qed.

Lemma climbs_app (l1 l2 : list Q) :
  forall lo m hi, climbs lo m l1 -> climbs m hi l2 -> climbs lo hi (l1 ++ l2).
Proof.
  induction l1 as [|q l1 IH]; intros lo m hi; cbn [climbs app].
  - intros H1 H2. now apply climbs_from with m.
  - intros [H1 H2] H3. split; [exact H1|]. now apply IH with m.
Qed.

Lemma progress_values_app (a b : list StreamingChunk) :
  progress_values (a ++ b) = (progress_values a ++ progress_values b)%list.
Proof. unfold progress_values. apply flat_map_app. Qed.

Lemma ratio_bounds (k k' total : nat) :
  k <= k' -> k' <= total ->
  (0 <= inject_Z (Z.of_nat k) / inject_Z (Z.of_nat total))%Q /\
  (inject_Z (Z.of_nat k) / inject_Z (Z.of_nat total)
   <= inject_Z (Z.of_nat k') / inject_Z (Z.of_nat total))%Q /\
  (inject_Z (Z.of_nat k') / inject_Z (Z.of_nat total) <= 1)%Q.
Proof.
  intros Hk Ht.
  assert (Hnat : forall a b, a <= b ->
                   (inject_Z (Z.of_nat a) <= inject_Z (Z.of_nat b))%Q).
  { intros a b Hab. rewrite <- Zle_Qle. lia. }
  assert (Hinv : (0 <= / inject_Z (Z.of_nat total))%Q).
  { apply Qinv_le_0_compat. apply (Hnat 0 total). lia. }
  unfold Qdiv. repeat split.
  - apply Qmult_le_0_compat; [|exact Hinv]. apply (Hnat 0 k). lia.
  - apply Qmult_le_compat_r; [|exact Hinv]. now apply Hnat.
  - destruct total as [|t].
    + replace k' with 0 by lia. discriminate.
    + apply Qle_shift_div_r.
      * change 0%Q with (inject_Z 0). rewrite <- Zlt_Qlt. lia.
      * rewrite Qmult_1_l. now apply Hnat.
Qed.

Lemma scaled_ratio (k k' total : nat) (base scale : Q) :
  (0 <= scale)%Q -> k <= k' -> k' <= total ->
  (base + inject_Z (Z.of_nat k) / inject_Z (Z.of_nat total) * scale
   <= base + inject_Z (Z.of_nat k') / inject_Z (Z.of_nat total) * scale)%Q /\
  (base + inject_Z (Z.of_nat k') / inject_Z (Z.of_nat total) * scale
   <= base + scale)%Q /\
  (base <= base + inject_Z (Z.of_nat k) / inject_Z (Z.of_nat total) * scale)%Q.
Proof.
  intros Hs Hk Ht. destruct (ratio_bounds k k' total Hk Ht) as [H0 [H1 H2]].
  repeat split.
  - apply Qplus_le_r. now apply Qmult_le_compat_r.
  - apply Qplus_le_r. rewrite <- (Qmult_1_l scale) at 2.
    now apply Qmult_le_compat_r.
  - rewrite <- (Qplus_0_r base) at 1. apply Qplus_le_r.
    now apply Qmult_le_0_compat.
Qed.

Section ProgressFacts.
Variable E : Env.
Variable request : MissionPlanRequest.

Lemma geocoded_chunks_progress items :
  forall k total s,
    k + List.length items <= total ->
    climbs (30 + inject_Z (Z.of_nat k) / inject_Z (Z.of_nat total) * 25) 55
      (progress_values (fst (geocoded_chunks E items k total s))).
Proof.
  induction items as [|[location_name [c|]] rest IH]; intros k total s;
    cbn [geocoded_chunks Datatypes.length]; intros Hk.
  - cbn [fst progress_values flat_map climbs].
    destruct (scaled_ratio k k total 30 25) as [_ [H _]]; try lia; [discriminate|].
    exact H.
  - specialize (IH (S k) total (S s)).
    destruct (geocoded_chunks E rest (S k) total (S s)) as [cs n].
    cbn [fst] in *. unfold progress_values in *. cbn [flat_map].
    change (progress_of (geocoded_status E location_name c (S k) total s))
      with (Some (30 + inject_Z (Z.of_nat (S k)) / inject_Z (Z.of_nat total) * 25)%Q).
    cbn [app climbs]. split; [|apply IH; lia].
    destruct (scaled_ratio k (S k) total 30 25) as [H _]; try lia; [discriminate|].
    exact H.
  - apply IH. lia.
Qed.

Lemma convert_waypoints_progress items :
  forall j total u s waypoints,
    j + List.length items <= total ->
    climbs (70 + inject_Z (Z.of_nat j) / inject_Z (Z.of_nat total) * 20) 90
      (progress_values (fst (convert_waypoints E items (S j) total u s waypoints))).
Proof.
  induction items as [|wp_data rest IH]; intros j total u s waypoints;
    cbn [convert_waypoints Datatypes.length]; intros Hj.
  - cbn [fst progress_values flat_map climbs].
    destruct (scaled_ratio j j total 70 20) as [_ [H _]]; try lia; [discriminate|].
    exact H.
  - destruct (convert_waypoint E wp_data u) as [w|e].
    + specialize (IH (S j) total (S u) (S s) (waypoints ++ [w])%list).
      destruct (convert_waypoints E rest (S (S j)) total (S u) (S s) (waypoints ++ [w]))
        as [cs r].
      cbn [fst] in *. unfold progress_values in *. cbn [flat_map].
      change (progress_of (waypoint_status (S j) total w s))
        with (Some (70 + inject_Z (Z.of_nat (S j)) / inject_Z (Z.of_nat total) * 20)%Q).
      cbn [app climbs]. split; [|apply IH; lia].
      destruct (scaled_ratio j (S j) total 70 20) as [H _]; try lia; [discriminate|].
      exact H.
    + cbn [fst progress_values flat_map climbs].
      destruct (scaled_ratio j j total 70 20) as [_ [H _]]; try lia; [discriminate|].
      exact H.
Qed.

Lemma chars_length (s : string) : List.length (chars s) = String.length s.
Proof.
  unfold chars. rewrite length_map.
  induction s as [|a s IH]; cbn [list_ascii_of_string Datatypes.length String.length];
    [reflexivity|now rewrite IH].
Qed.

Lemma py_len_iter (v : json) (n : nat) (items : list json) :
  py_len v = Ok n -> py_iter v = Ok items -> List.length items = n.
Proof.
  destruct v; cbn [py_len py_iter]; try discriminate;
    intros H1 H2; inversion H1; inversion H2; subst.
  - apply chars_length.
  - reflexivity.
  - apply length_map.
Qed.

Lemma finish_plan_progress structure_data geocoded_locations text s :
  climbs 60 100
    (progress_values
       (relay (finish_plan E request structure_data geocoded_locations text s) s)).
Proof.
  unfold finish_plan.
  destruct (parse_plan text) as [plan_data|e];
    [|rewrite relay_raises; cbn; discriminate].
  destruct (py_getitem plan_data "waypoints") as [wps|e]; cbn [bind];
    [|rewrite relay_raises; cbn; discriminate].
  destruct (py_len wps) as [total|e] eqn:Hlen; cbn [bind];
    [|rewrite relay_raises; cbn; discriminate].
  destruct (py_iter wps) as [items|e] eqn:Hit; cbn [bind];
    [|rewrite relay_raises; cbn; discriminate].
  pose proof (convert_waypoints_progress items 0 total 0 s []) as Hcs.
  rewrite (py_len_iter wps total items Hlen Hit) in Hcs.
  specialize (Hcs (Nat.le_refl _)).
  destruct (convert_waypoints E items 1 total 0 s []) as [cs r]. cbn [fst] in Hcs.
  rewrite relay_yield_all, progress_values_app.
  apply climbs_app with (m := 90%Q).
  - apply climbs_from with (70 + inject_Z (Z.of_nat 0) / inject_Z (Z.of_nat total) * 20)%Q;
      [|exact Hcs].
    destruct (scaled_ratio 0 0 total 70 20) as [_ [_ H]]; try lia; [discriminate|].
    apply Qle_trans with 70%Q; [discriminate|exact H].
  - destruct r as [waypoints|e]; [|rewrite relay_raises; cbn; discriminate].
    destruct (bind (assemble_plan _ _ _ _ _ _ _) _) as [[p c]|e] eqn:Hb;
      [|rewrite relay_raises; cbn; discriminate].
    rewrite !relay_yield, relay_returns.
    destruct (assemble_plan E request structure_data geocoded_locations plan_data
                waypoints (List.length items)) as [p'|e']; [|discriminate].
    cbn [bind] in Hb. unfold plan_summary in Hb.
    destruct (py_getitem plan_data "estimated_duration"); [|discriminate].
    destruct (py_getitem plan_data "total_distance"); [|discriminate].
    cbn [bind] in Hb. inversion Hb; subst.
    cbn. repeat split; discriminate.
Qed.

Lemma detailed_loop_progress structure_data geocoded_locations evs fails :
  forall acc accr s,
    climbs 60 100
      (progress_values
         (relay (detailed_loop E request structure_data geocoded_locations
                   evs fails acc accr s) s)).
Proof.
  induction evs as [|chunk rest IH]; intros acc accr s; cbn [detailed_loop].
  - destruct fails; [rewrite relay_raises|rewrite relay_returns]; cbn; discriminate.
  - destruct (choices chunk) as [|choice others]; [apply IH|].
    destruct (String.eqb _ EmptyString).
    + destruct (stopped choice); [apply finish_plan_progress|apply IH].
    + rewrite relay_yield.
      change (progress_values (?c :: ?l)) with (progress_values l).
      destruct (stopped choice); [apply finish_plan_progress|apply IH].
Qed.
End ProgressFacts.

(** X24.  The progress reported by the chunks of a run never decreases
    from one chunk to the next and stays between 5 and 100. *)
Theorem X24_progress_never_decreases (E : Env) (request : MissionPlanRequest) :
  climbs 5 100 (progress_values (chunks (generate_mission_plan E request))).
Proof.
  unfold generate_mission_plan.
  destruct (outcome (_generate_mission_structure E request 0)) as [sd|e];
    [|cbn; split; discriminate]. cbn [bind].
  destruct (count_key_locations sd) as [n|e]; [|cbn; split; discriminate]. cbn [bind].
  destruct (_geocode_mission_locations E sd request) as [geo|e];
    [|cbn; repeat split; discriminate].
  pose proof (geocoded_chunks_progress E geo 0 (List.length geo) 3 (Nat.le_refl _))
    as Hg.
  destruct (geocoded_chunks E geo 0 _ 3) as [located k]. cbn [fst] in Hg.
  assert (Hp3 : forall g calls s,
             _generate_detailed_mission_plan E request sd geo s
               (invocations (_generate_mission_structure E request 0)) = (g, calls) ->
             climbs 60 100 (progress_values (relay g s))).
  { intros g calls s. unfold _generate_detailed_mission_plan.
    destruct (build_detailed_prompt E request sd geo); intros H; inversion H; subst.
    - apply detailed_loop_progress.
    - rewrite relay_raises. cbn. discriminate. }
  destruct (_generate_detailed_mission_plan _ _ _ _ _ _) as [g calls] eqn:Hgen.
  cbn [chunks]. specialize (Hp3 g calls _ Hgen).
  rewrite !progress_values_app.
  apply climbs_app with (m := 30%Q); [cbn; repeat split; discriminate|].
  apply climbs_app with (m := 55%Q).
  - apply climbs_from with (30 + inject_Z (Z.of_nat 0)
                                 / inject_Z (Z.of_nat (List.length geo)) * 25)%Q;
      [|exact Hg].
    destruct (scaled_ratio 0 0 (List.length geo) 30 25) as [_ [_ H]]; try lia;
      [discriminate|exact H].
  - apply climbs_app with (m := 60%Q); [cbn; repeat split; discriminate|exact Hp3].
Qed.
